(** * newrelic-cli: the guided installation workflow

    A shallow embedding of [internal/install/recipe_installer_guided.go]
    (the guided workflow of [RecipeInstaller]) together with the status
    reporter, the install status aggregate and the polling validator it
    drives.

    Conventions of the embedding:
    - a Go method of [*RecipeInstaller] that reads or mutates the receiver,
      calls a collaborator or returns an [error] is a computation in the
      monad [M] below (state passing with an error result; the state that
      was reached when the error occurred is kept, as Go keeps it);
    - the collaborators the installer holds behind Go interfaces
      ([RecipeFetcher], [RecipeExecutor], [RecipeValidator], [Prompter],
      [FileFilterer]) are type classes over an abstract environment [Env];
    - [for _, x := range xs] is [fold_left] for loops without effects and
      [forRange] for loops that call into [M];
    - logging ([log.Debugf], [fmt.Printf]) is presentation and is left out;
    - [context.Context] values are part of the environment the
      collaborators read. *)

From Stdlib Require Import String List Bool Arith Lia ZArith.
Import ListNotations.
Local Open Scope string_scope.
Local Open Scope list_scope.

Set Implicit Arguments.

(** ** Errors *)

(** Go [error] values.  [types.ErrInterrupt] is a sentinel compared with
    [==]; [fmt.Errorf(prefix + "%s", err)] builds a fresh error that only
    keeps the text of [err]. *)
Inductive error : Type :=
| ErrInterrupt
| ValidationExhausted
| ValidationQueryFailed (cause : error)
| errorString (s : string)
| errorf (prefix : string) (cause : error).

(** [err == types.ErrInterrupt] *)
Definition isErrInterrupt (e : error) : bool :=
  match e with
  | ErrInterrupt => true
  | _ => false
  end.

(** A Go [(T, error)] result. *)
Inductive result (A : Type) : Type :=
| ok (a : A)
| fail (e : error).
Arguments ok {A} a.
Arguments fail {A} e.

(** ** Recipes *)

Inductive OpenInstallationTargetType : Type :=
| APPLICATION
| HOST.

Record OpenInstallationLogMatch : Type := {
  LogMatchName : string;
  File : string
}.

(** Modelled from the spec: [types.OpenInstallationRecipe] is declared
    in a file that is not embedded here; section 3 gives it an identity ([Name]),
    display metadata, a target-type classifier, an APM classification, an
    optional validation query, log-file match patterns and a map of
    recipe-scoped variables. *)
Record OpenInstallationRecipe : Type := {
  Name : string;
  DisplayName : string;
  ValidationNRQL : string;
  InstallTargets : list OpenInstallationTargetType;
  Apm : bool;
  LogMatch : list OpenInstallationLogMatch;
  Vars : list (string * string)
}.

Definition RecipeVars : Type := list (string * string).

Definition isApplicationTarget (t : OpenInstallationTargetType) : bool :=
  match t with
  | APPLICATION => true
  | HOST => false
  end.

(** Modelled from the spec: [HasApplicationTargetType] is a method of
    that recipe type; a recipe is application-scoped when its target-type
    classifier names an application target. *)
Definition HasApplicationTargetType (r : OpenInstallationRecipe) : bool :=
  existsb isApplicationTarget (InstallTargets r).

(** Modelled from the spec: [IsApm] is a method of that recipe type; it
    tells whether the recipe is APM-classified. *)
Definition IsApm (r : OpenInstallationRecipe) : bool := Apm r.

(** Modelled from the spec: [SetRecipeVar] is a method of that recipe
    type; it writes a named recipe-scoped variable. *)
Definition SetRecipeVar (r : OpenInstallationRecipe) (key value : string)
  : OpenInstallationRecipe :=
  {| Name := Name r;
     DisplayName := DisplayName r;
     ValidationNRQL := ValidationNRQL r;
     InstallTargets := InstallTargets r;
     Apm := Apm r;
     LogMatch := LogMatch r;
     Vars := (key, value)
               :: filter (fun kv => negb (String.eqb (fst kv) key)) (Vars r) |}.

Definition OpenInstallationTargetType_eq_dec
  (a b : OpenInstallationTargetType) : {a = b} + {a <> b}.
Proof. decide equality. Defined.

Definition OpenInstallationLogMatch_eq_dec
  (a b : OpenInstallationLogMatch) : {a = b} + {a <> b}.
Proof. decide equality; apply string_dec. Defined.

Definition OpenInstallationRecipe_eq_dec
  (a b : OpenInstallationRecipe) : {a = b} + {a <> b}.
Proof.
  decide equality;
    first [ apply string_dec
          | apply bool_dec
          | apply (list_eq_dec OpenInstallationTargetType_eq_dec)
          | apply (list_eq_dec OpenInstallationLogMatch_eq_dec)
          | apply list_eq_dec; decide equality; apply string_dec ].
Defined.

(** ** Loops without effects of [recipe_installer_guided.go] *)

(** [recipeInRecipes]: membership by [Name]. *)
Definition recipeInRecipes (recipe : OpenInstallationRecipe)
  (recipes : list OpenInstallationRecipe) : bool :=
  existsb (fun r => String.eqb (Name recipe) (Name r)) recipes.

(** [removeRecipes]: for every recipe, the inner loop runs over all of
    [remove] and appends the recipe once for every element of [remove]
    whose [Name] differs. *)
Definition removeRecipes (recipes remove : list OpenInstallationRecipe)
  : list OpenInstallationRecipe :=
  fold_left
    (fun filtered recipe =>
       fold_left
         (fun filtered r =>
            if negb (String.eqb (Name recipe) (Name r))
            then filtered ++ [recipe]
            else filtered)
         remove filtered)
    recipes [].

(** The number of removal targets whose [Name] differs from the one of
    [recipe]. *)
Definition differingTargets (recipe : OpenInstallationRecipe)
  (remove : list OpenInstallationRecipe) : nat :=
  List.length (filter (fun r => negb (String.eqb (Name recipe) (Name r))) remove).

(** ** Install status *)

Inductive RecipeStatusType : Type :=
| AVAILABLE | SELECTED | RECOMMENDED | SKIPPED
| INSTALLING | INSTALLED | FAILED | CANCELED.

(** [execution.RecipeStatusEvent]; a field that is not set holds Go's zero
    value, the empty string. *)
Record RecipeStatusEvent : Type := {
  Recipe : OpenInstallationRecipe;
  EntityGUID : string
}.

Definition recipeEvent (r : OpenInstallationRecipe) : RecipeStatusEvent :=
  {| Recipe := r; EntityGUID := "" |}.

Definition StatusNotification : Type := (RecipeStatusType * RecipeStatusEvent)%type.

(** Modelled from the spec: [execution.InstallStatus] is declared in a
    file that is not embedded here.  Of the aggregate of section 3 the model keeps the
    entity GUIDs accumulated so far and, in the order of emission, the
    recipe transitions handed to the subscribers. *)
Record InstallStatus : Type := {
  EntityGUIDs : list string;
  Notified : list StatusNotification
}.

(** Modelled from the spec: [NewInstallStatus] of that [InstallStatus]; a
    fresh status knows no entity GUID and has notified nothing. *)
Definition NewInstallStatus : InstallStatus :=
  {| EntityGUIDs := []; Notified := [] |}.

(** Modelled from the spec: [withEntityGUID] of that
    [InstallStatus]; section 4.2: record a newly discovered entity
    identifier, a GUID already present is not re-added. *)
Definition withEntityGUID (guid : string) (s : InstallStatus) : InstallStatus :=
  if existsb (String.eqb guid) (EntityGUIDs s)
  then s
  else {| EntityGUIDs := EntityGUIDs s ++ [guid]; Notified := Notified s |}.

(** Modelled from the spec: the hand-over of one transition to the
    subscribers (section 4.2), synchronous and in call order. *)
Definition notify (t : RecipeStatusType) (e : RecipeStatusEvent)
  (s : InstallStatus) : InstallStatus :=
  {| EntityGUIDs := EntityGUIDs s; Notified := Notified s ++ [(t, e)] |}.

(** Modelled from the spec: the transitions of that [InstallStatus]
    (section 4.2); each one is handed to the subscribers in call order. *)
Definition RecipesAvailable (recipes : list OpenInstallationRecipe)
  (s : InstallStatus) : InstallStatus :=
  fold_left (fun s r => notify AVAILABLE (recipeEvent r) s) recipes s.

(** Modelled from the spec: [RecipesSelected] (section 4.2). *)
Definition RecipesSelected (recipes : list OpenInstallationRecipe)
  (s : InstallStatus) : InstallStatus :=
  fold_left (fun s r => notify SELECTED (recipeEvent r) s) recipes s.

(** Modelled from the spec: the per-recipe transitions of section 4.2. *)
Definition RecipeRecommended := notify RECOMMENDED.
Definition RecipeSkipped := notify SKIPPED.
Definition RecipeInstalling := notify INSTALLING.
Definition RecipeInstalled := notify INSTALLED.
Definition RecipeFailed := notify FAILED.

(** ** The monad of installer methods *)

Definition M (St A : Type) : Type := St -> St * result A.

Definition ret {St A : Type} (a : A) : M St A := fun s => (s, ok a).

Definition throw {St A : Type} (e : error) : M St A := fun s => (s, fail e).

Definition bind {St A B : Type} (c : M St A) (k : A -> M St B) : M St B :=
  fun s =>
    match c s with
    | (s', ok a) => k a s'
    | (s', fail e) => (s', fail e)
    end.

Definition gets {St A : Type} (f : St -> A) : M St A := fun s => (s, ok (f s)).

Definition modify {St : Type} (f : St -> St) : M St unit := fun s => (f s, ok tt).

(** [x, err := c] without the [if err != nil { return err }] that [bind]
    stands for: the caller inspects the result itself. *)
Definition attempt {St A : Type} (c : M St A) : M St (result A) :=
  fun s => let (s', r) := c s in (s', ok r).

Declare Scope installer_scope.
Delimit Scope installer_scope with installer.
Notation "x <- c ;; k" := (bind c (fun x => k))
  (at level 61, c at next level, right associativity) : installer_scope.
Notation "c ;; k" := (bind c (fun _ => k))
  (at level 61, right associativity) : installer_scope.
Local Open Scope installer_scope.

(** [for _, x := range xs { body }] where the body calls into [M]; [acc]
    holds the locals the loop carries, and a [return err] in the body ends
    the loop. *)
Fixpoint forRange {St A S : Type} (xs : list A) (acc : S)
  (body : A -> S -> M St S) : M St S :=
  match xs with
  | [] => ret acc
  | x :: xs' => acc' <- body x acc ;; forRange xs' acc' body
  end.

(** [steps R c]: every run of [c] takes a state to one related to it by
    [R], whether it fails or not. *)
Definition steps {St A : Type} (R : St -> St -> Prop) (c : M St A) : Prop :=
  forall s s' r, c s = (s', r) -> R s s'.

(** ** Collaborators *)

Class RecipeFetcher (Env Manifest : Type) : Type := {
  FetchRecipe : Manifest -> string -> Env -> Env * result OpenInstallationRecipe;
  FetchRecommendations : Manifest -> Env -> Env * result (list OpenInstallationRecipe)
}.

(** [execution.RecipeExecutor] of [recipe_executor.go]. *)
Class RecipeExecutor (Env Manifest : Type) : Type := {
  Prepare : Manifest -> OpenInstallationRecipe -> bool -> string
            -> Env -> Env * result RecipeVars;
  Execute : Manifest -> OpenInstallationRecipe -> RecipeVars
            -> Env -> Env * result unit
}.

Class RecipeValidator (Env Manifest : Type) : Type := {
  Validate : Manifest -> OpenInstallationRecipe -> Env -> Env * result string
}.

Class Prompter (Env : Type) : Type := {
  PromptYesNo : string -> Env -> Env * result bool;
  MultiSelect : string -> list string -> Env -> Env * result (list string)
}.

Class FileFilterer (Env : Type) : Type := {
  Filter : list OpenInstallationRecipe -> Env
           -> Env * result (list OpenInstallationLogMatch)
}.

(** ** The installer *)

(** [RecipeInstaller]: the flags of the embedded [InstallerContext], the
    install status it reports to, and the environment of its
    collaborators. *)
Record RecipeInstaller (Env : Type) : Type := {
  AssumeYes : bool;
  SkipDiscovery : bool;
  SkipIntegrations : bool;
  SkipLoggingInstall : bool;
  SkipApm : bool;
  SkipInfra : bool;
  LicenseKey : string;
  status : InstallStatus;
  env : Env
}.

Definition setSkipLoggingInstall {Env : Type} (b : bool)
  (i : RecipeInstaller Env) : RecipeInstaller Env :=
  {| AssumeYes := AssumeYes i;
     SkipDiscovery := SkipDiscovery i;
     SkipIntegrations := SkipIntegrations i;
     SkipLoggingInstall := b;
     SkipApm := SkipApm i;
     SkipInfra := SkipInfra i;
     LicenseKey := LicenseKey i;
     status := status i;
     env := env i |}.

Definition setStatus {Env : Type} (s : InstallStatus)
  (i : RecipeInstaller Env) : RecipeInstaller Env :=
  {| AssumeYes := AssumeYes i;
     SkipDiscovery := SkipDiscovery i;
     SkipIntegrations := SkipIntegrations i;
     SkipLoggingInstall := SkipLoggingInstall i;
     SkipApm := SkipApm i;
     SkipInfra := SkipInfra i;
     LicenseKey := LicenseKey i;
     status := s;
     env := env i |}.

Definition setEnv {Env : Type} (e : Env)
  (i : RecipeInstaller Env) : RecipeInstaller Env :=
  {| AssumeYes := AssumeYes i;
     SkipDiscovery := SkipDiscovery i;
     SkipIntegrations := SkipIntegrations i;
     SkipLoggingInstall := SkipLoggingInstall i;
     SkipApm := SkipApm i;
     SkipInfra := SkipInfra i;
     LicenseKey := LicenseKey i;
     status := status i;
     env := e |}.

(** [i.status.f(...)] *)
Definition onStatus {Env : Type} (f : InstallStatus -> InstallStatus)
  : M (RecipeInstaller Env) unit :=
  modify (fun i => setStatus (f (status i)) i).

(** A call to a collaborator: it sees and changes the environment only. *)
Definition call {Env A : Type} (f : Env -> Env * result A)
  : M (RecipeInstaller Env) A :=
  fun i => let (e', r) := f (env i) in (setEnv e' i, r).

(** Modelled from the spec: [ShouldInstallLogging] and
    [ShouldInstallIntegrations] belong to [InstallerContext], which is
    not embedded here; section 4.4: the skip-logging flag causes the
    logging install phase to be skipped. *)
Definition ShouldInstallLogging {Env : Type} (i : RecipeInstaller Env) : bool :=
  negb (SkipLoggingInstall i).

(** Modelled from the spec: see [ShouldInstallLogging]; section 4.4: the
    skip-all-integrations directive excludes the integrations. *)
Definition ShouldInstallIntegrations {Env : Type} (i : RecipeInstaller Env) : bool :=
  negb (SkipIntegrations i).

Section Installer.

Context {Env Manifest : Type}.
Context {recipeFetcher : RecipeFetcher Env Manifest}.
Context {recipeExecutor : RecipeExecutor Env Manifest}.
Context {recipeValidator : RecipeValidator Env Manifest}.
Context {prompter : Prompter Env}.
Context {fileFilterer : FileFilterer Env}.

(** [types.InfraAgentRecipeName] and [types.LoggingRecipeName]: constants
    of a package that is not embedded here. *)
Variable InfraAgentRecipeName : string.
Variable LoggingRecipeName : string.

Let Installer : Type := RecipeInstaller Env.

(** [installRecipes] is a method of [RecipeInstaller] declared in a file
    that is not embedded here; [guidedInstall] only inspects the error it returns. *)
Variable installRecipes :
  Manifest -> list OpenInstallationRecipe -> M Installer unit.

(** Modelled from the spec: [fetchRecipeAndReportAvailable] is declared
    in a file that is not embedded here; sections 4.4, 7 and 8: the mandatory recipe
    is fetched by name, a fetch failure is surfaced verbatim, and a fetched
    recipe is marked AVAILABLE. *)
Definition fetchRecipeAndReportAvailable (m : Manifest) (recipeName : string)
  : M Installer OpenInstallationRecipe :=
  r <- call (FetchRecipe m recipeName) ;;
  onStatus (RecipesAvailable [r]) ;;
  ret r.

(** Modelled from the spec: [executeAndValidateWithProgress] is declared
    in a file that is not embedded here; section 4.4, "execution unit": the attempt
    is announced (INSTALLING), (a) the execution capability runs the
    install steps, (b) on success the validator runs, (c) on validator
    success the returned entity GUID is registered and INSTALLED is
    emitted; a failure in (a) or (b) emits FAILED and is propagated. *)
Definition executeAndValidateWithProgress (m : Manifest)
  (r : OpenInstallationRecipe) : M Installer string :=
  onStatus (RecipeInstalling (recipeEvent r)) ;;
  res <- attempt
           (assumeYes <- gets (@AssumeYes Env) ;;
            licenseKey <- gets (@LicenseKey Env) ;;
            vars <- call (Prepare m r assumeYes licenseKey) ;;
            call (Execute m r vars) ;;
            call (Validate m r)) ;;
  match res with
  | fail err =>
      onStatus (RecipeFailed (recipeEvent r)) ;;
      throw err
  | ok entityGUID =>
      onStatus (withEntityGUID entityGUID) ;;
      onStatus (RecipeInstalled {| Recipe := r; EntityGUID := entityGUID |}) ;;
      ret entityGUID
  end.

(** [filterRecommendations] *)
Definition filterRecommendations (recipes : list OpenInstallationRecipe)
  : list OpenInstallationRecipe :=
  fold_left
    (fun filteredRecommendations r =>
       if String.eqb (Name r) InfraAgentRecipeName
          || String.eqb (Name r) LoggingRecipeName
       then filteredRecommendations
       else filteredRecommendations ++ [r])
    recipes [].

(** [fetchRecommendations] *)
Definition fetchRecommendations (m : Manifest)
  : M Installer (list OpenInstallationRecipe) :=
  res <- attempt (call (FetchRecommendations m)) ;;
  match res with
  | fail err => throw (errorf "error retrieving recipe recommendations: " err)
  | ok recommendations => ret (filterRecommendations recommendations)
  end.

(** [userAccepts] *)
Definition userAccepts (msg : string) : M Installer bool :=
  assumeYes <- gets (@AssumeYes Env) ;;
  if assumeYes : bool then ret true
  else call (PromptYesNo msg).

(** [userAcceptsLogFile] *)
Definition userAcceptsLogFile (logMatch : OpenInstallationLogMatch)
  : M Installer bool :=
  userAccepts
    ("Files have been found at the following pattern: "
       ++ File logMatch ++ " Do you want to watch them?")%string.

(** [filterIntegrations] *)
Definition filterIntegrations
  (recommendedIntegrations : list OpenInstallationRecipe)
  : M Installer (list OpenInstallationRecipe) :=
  installCandidates <-
    forRange recommendedIntegrations []
      (fun r installCandidates =>
         skipIntegrations <- gets (@SkipIntegrations Env) ;;
         skipApm <- gets (@SkipApm Env) ;;
         if HasApplicationTargetType r && negb (IsApm r)
         then ret installCandidates
         else if skipIntegrations : bool
         then onStatus (RecipeSkipped (recipeEvent r)) ;; ret installCandidates
         else if skipApm && IsApm r
         then onStatus (RecipeSkipped (recipeEvent r)) ;; ret installCandidates
         else ret (installCandidates ++ [r])) ;;
  let installCandidateNames :=
    fold_left (fun names r => names ++ [DisplayName r]) installCandidates [] in
  assumeYes <- gets (@AssumeYes Env) ;;
  selectedIntegrationNames <-
    (if assumeYes : bool
     then ret installCandidateNames
     else if Nat.ltb 0 (List.length installCandidateNames)
     then call (MultiSelect
                  "Please choose from the additional recommended instrumentation to be installed:"
                  installCandidateNames)
     else ret []) ;;
  let integrationsForInstall :=
    fold_left
      (fun integrationsForInstall selectedIntegrationName =>
         fold_left
           (fun integrationsForInstall r =>
              if String.eqb (DisplayName r) selectedIntegrationName
              then integrationsForInstall ++ [r]
              else integrationsForInstall)
           recommendedIntegrations integrationsForInstall)
      selectedIntegrationNames [] in
  forRange installCandidates tt
    (fun r _ =>
       if negb (recipeInRecipes r integrationsForInstall)
       then
         onStatus (RecipeSkipped (recipeEvent r)) ;;
         if String.eqb (Name r) LoggingRecipeName
         then modify (setSkipLoggingInstall true)
         else ret tt
       else ret tt) ;;
  ret integrationsForInstall.

(** [installLogging] *)
Definition installLogging (m : Manifest) (r : OpenInstallationRecipe)
  (recipes : list OpenInstallationRecipe) : M Installer unit :=
  logMatches <- call (Filter recipes) ;;
  acceptedLogMatches <-
    forRange logMatches []
      (fun logMatch acceptedLogMatches =>
         accepted <- userAcceptsLogFile logMatch ;;
         if accepted : bool
         then ret (acceptedLogMatches ++ [logMatch])
         else ret acceptedLogMatches) ;;
  let discoveredLogFiles :=
    fold_left (fun files logMatch => files ++ [File logMatch])
      acceptedLogMatches [] in
  let discoveredLogFilesString := String.concat "," discoveredLogFiles in
  let r := SetRecipeVar r "NR_DISCOVERED_LOG_FILES" discoveredLogFilesString in
  executeAndValidateWithProgress m r ;;
  ret tt.

(** The locals of [guidedInstall] that are live after the selection. *)
Record guidedInstallLocals : Type := {
  infraAgentRecipe : OpenInstallationRecipe;
  loggingRecipe : OpenInstallationRecipe;
  recommendedIntegrations : list OpenInstallationRecipe;
  recipesForInstallation : list OpenInstallationRecipe;
  selectedIntegrations : list OpenInstallationRecipe
}.

(** [guidedInstall], from its first line to the removal of the logging
    recipe from the selected integrations. *)
Definition guidedInstallSelect (m : Manifest) : M Installer guidedInstallLocals :=
  infraAgentRecipe <- fetchRecipeAndReportAvailable m InfraAgentRecipeName ;;
  let recipesForInstallation := [] ++ [infraAgentRecipe] in
  loggingRecipe <- fetchRecipeAndReportAvailable m LoggingRecipeName ;;
  skipInfra <- gets (@SkipInfra Env) ;;
  if skipInfra : bool
  then throw (errorString
                "--skipInfra is only applicable to targeted installation. Run newrelic install --help for usage")
  else
    skipLoggingInstall <- gets (@SkipLoggingInstall Env) ;;
    recommendedIntegrations <-
      (if skipLoggingInstall : bool
       then onStatus (RecipeSkipped (recipeEvent loggingRecipe)) ;; ret []
       else ret ([] ++ [loggingRecipe])) ;;
    skipDiscovery <- gets (@SkipDiscovery Env) ;;
    recommendedIntegrations <-
      (if negb skipDiscovery
       then
         recommended <- fetchRecommendations m ;;
         ret (recommendedIntegrations ++ recommended)
       else ret recommendedIntegrations) ;;
    selectedIntegrations <- filterIntegrations recommendedIntegrations ;;
    onStatus (RecipesAvailable selectedIntegrations) ;;
    let recipesForInstallation := recipesForInstallation ++ selectedIntegrations in
    onStatus (RecipesSelected recipesForInstallation) ;;
    let selectedIntegrations := removeRecipes selectedIntegrations [loggingRecipe] in
    ret {| infraAgentRecipe := infraAgentRecipe;
           loggingRecipe := loggingRecipe;
           recommendedIntegrations := recommendedIntegrations;
           recipesForInstallation := recipesForInstallation;
           selectedIntegrations := selectedIntegrations |}.

(** [guidedInstall], "Install the infra agent" and the report of the
    recommended integrations with application targets. *)
Definition guidedInstallInfra (m : Manifest) (l : guidedInstallLocals)
  : M Installer unit :=
  entityGUID <- executeAndValidateWithProgress m (infraAgentRecipe l) ;;
  forRange (recommendedIntegrations l) tt
    (fun r _ =>
       if HasApplicationTargetType r
       then onStatus (RecipeRecommended {| Recipe := r; EntityGUID := entityGUID |})
       else ret tt).

(** [guidedInstall], "Install logging if necessary". *)
Definition guidedInstallLogging (m : Manifest) (l : guidedInstallLocals)
  : M Installer unit :=
  shouldInstallLogging <- gets (@ShouldInstallLogging Env) ;;
  if shouldInstallLogging : bool
  then installLogging m (loggingRecipe l) (recipesForInstallation l)
  else ret tt.

(** [guidedInstall], "Install integrations if necessary, continuing on
    failure with warnings". *)
Definition guidedInstallIntegrations (m : Manifest) (l : guidedInstallLocals)
  : M Installer unit :=
  shouldInstallIntegrations <- gets (@ShouldInstallIntegrations Env) ;;
  if shouldInstallIntegrations : bool
  then
    res <- attempt (installRecipes m (selectedIntegrations l)) ;;
    match res with
    | fail err => if isErrInterrupt err then throw err else ret tt
    | ok _ => ret tt
    end
  else ret tt.

(** [guidedInstall] *)
Definition guidedInstall (m : Manifest) : M Installer unit :=
  l <- guidedInstallSelect m ;;
  guidedInstallInfra m l ;;
  guidedInstallLogging m l ;;
  guidedInstallIntegrations m l.

(** The part of [guidedInstall] that precedes the installation of the
    integrations. *)
Definition guidedInstallMandatory (m : Manifest) : M Installer guidedInstallLocals :=
  l <- guidedInstallSelect m ;;
  guidedInstallInfra m l ;;
  guidedInstallLogging m l ;;
  ret l.

End Installer.

(** ** The scoped status reporter *)

Module NerdStorage.

(** The remote status store of section 6: write-document operations
    scoped by user and by entity id; each write may fail on its own.  The
    document is built from the install status. *)
Class NerdStorageClient (C : Type) : Type := {
  WriteDocumentWithUserScope : InstallStatus -> C -> C * result unit;
  WriteDocumentWithEntityScope : string -> InstallStatus -> C -> C * result unit
}.

(** The test double of [nerdstorage_status_reporter_unit_test.go]: two
    errors the test may set and two call counters it reads. *)
Record MockNerdStorageClient : Type := {
  WriteDocumentWithUserScopeErr : option error;
  WriteDocumentWithEntityScopeErr : option error;
  writeDocumentWithUserScopeCallCount : nat;
  writeDocumentWithEntityScopeCallCount : nat
}.

(** Modelled from the spec: [NewMockNerdStorageClient]; a fresh double fails
    no write and has counted none. *)
Definition NewMockNerdStorageClient : MockNerdStorageClient :=
  {| WriteDocumentWithUserScopeErr := None;
     WriteDocumentWithEntityScopeErr := None;
     writeDocumentWithUserScopeCallCount := 0;
     writeDocumentWithEntityScopeCallCount := 0 |}.

(** [c.WriteDocumentWithUserScopeErr = err] and
    [c.WriteDocumentWithEntityScopeErr = err] *)
Definition withUserScopeErr (err : error) (c : MockNerdStorageClient)
  : MockNerdStorageClient :=
  {| WriteDocumentWithUserScopeErr := Some err;
     WriteDocumentWithEntityScopeErr := WriteDocumentWithEntityScopeErr c;
     writeDocumentWithUserScopeCallCount := writeDocumentWithUserScopeCallCount c;
     writeDocumentWithEntityScopeCallCount :=
       writeDocumentWithEntityScopeCallCount c |}.

Definition withEntityScopeErr (err : error) (c : MockNerdStorageClient)
  : MockNerdStorageClient :=
  {| WriteDocumentWithUserScopeErr := WriteDocumentWithUserScopeErr c;
     WriteDocumentWithEntityScopeErr := Some err;
     writeDocumentWithUserScopeCallCount := writeDocumentWithUserScopeCallCount c;
     writeDocumentWithEntityScopeCallCount :=
       writeDocumentWithEntityScopeCallCount c |}.

Definition errResult (e : option error) : result unit :=
  match e with
  | Some err => fail err
  | None => ok tt
  end.

(** Modelled from the spec: the methods of the test double are declared
    in a file that is not embedded here; section 5: a write increments the call
    counter of its scope, and it returns the error the test has set. *)
#[global] Instance MockNerdStorageClient_client
  : NerdStorageClient MockNerdStorageClient := {
  WriteDocumentWithUserScope _ c :=
    ({| WriteDocumentWithUserScopeErr := WriteDocumentWithUserScopeErr c;
        WriteDocumentWithEntityScopeErr := WriteDocumentWithEntityScopeErr c;
        writeDocumentWithUserScopeCallCount :=
          S (writeDocumentWithUserScopeCallCount c);
        writeDocumentWithEntityScopeCallCount :=
          writeDocumentWithEntityScopeCallCount c |},
     errResult (WriteDocumentWithUserScopeErr c));
  WriteDocumentWithEntityScope _ _ c :=
    ({| WriteDocumentWithUserScopeErr := WriteDocumentWithUserScopeErr c;
        WriteDocumentWithEntityScopeErr := WriteDocumentWithEntityScopeErr c;
        writeDocumentWithUserScopeCallCount :=
          writeDocumentWithUserScopeCallCount c;
        writeDocumentWithEntityScopeCallCount :=
          S (writeDocumentWithEntityScopeCallCount c) |},
     errResult (WriteDocumentWithEntityScopeErr c))
}.

Section Reporter.

Context {C : Type} {client : NerdStorageClient C}.

(** Modelled from the spec: the entity-scoped half of a report (section
    4.3): one write per known entity GUID, every one of them attempted; the
    first failure, if any, is kept. *)
Definition writeEntityScopes (status : InstallStatus) : M C (option error) :=
  forRange (EntityGUIDs status) None
    (fun guid firstErr =>
       res <- attempt (WriteDocumentWithEntityScope guid status) ;;
       ret (match firstErr, res with
            | Some err, _ => Some err
            | None, fail err => Some err
            | None, ok _ => None
            end)).

(** Modelled from the spec: [NerdStorageStatusReporter] is declared
    in a file that is not embedded here; section 4.3: the user-scoped write is always
    attempted, the entity-scoped writes are attempted whatever its outcome,
    and the report fails if either of them failed. *)
Definition writeStatus (status : InstallStatus) : M C unit :=
  userRes <- attempt (WriteDocumentWithUserScope status) ;;
  entityErr <- writeEntityScopes status ;;
  match userRes, entityErr with
  | fail err, _ => throw err
  | ok _, Some err => throw err
  | ok _, None => ret tt
  end.

(** Modelled from the spec: [RecipeInstalled] of the reporter (section
    4.3): one report of the current status. *)
Definition RecipeInstalled (status : InstallStatus) (event : RecipeStatusEvent)
  : M C unit :=
  writeStatus status.

(** Modelled from the spec: [RecipeFailed] of the reporter (section 4.3):
    one report of the current status. *)
Definition RecipeFailed (status : InstallStatus) (event : RecipeStatusEvent)
  : M C unit :=
  writeStatus status.

(** The outcomes of the entity-scoped writes for [guids], in order, when
    they start from the client state [c]. *)
Fixpoint entityScopeOutcomes (guids : list string) (status : InstallStatus)
  (c : C) : list (result unit) :=
  match guids with
  | [] => []
  | guid :: guids' =>
      let (c', r) := WriteDocumentWithEntityScope guid status c in
      r :: entityScopeOutcomes guids' status c'
  end.

(** The client state those writes leave. *)
Fixpoint afterEntityScopeWrites (guids : list string) (status : InstallStatus)
  (c : C) : C :=
  match guids with
  | [] => c
  | guid :: guids' =>
      afterEntityScopeWrites guids' status
        (fst (WriteDocumentWithEntityScope guid status c))
  end.

(** What a test does with a reporter and a status: register an entity
    GUID, or report an installed or a failed recipe. *)
Inductive ReporterStep : Type :=
| DoWithEntityGUID (guid : string)
| DoRecipeInstalled (event : RecipeStatusEvent)
| DoRecipeFailed (event : RecipeStatusEvent).

Fixpoint runSteps (steps : list ReporterStep) (status : InstallStatus) (c : C)
  : InstallStatus * C * list (result unit) :=
  match steps with
  | [] => (status, c, [])
  | DoWithEntityGUID guid :: steps' =>
      runSteps steps' (withEntityGUID guid status) c
  | DoRecipeInstalled event :: steps' =>
      let (c', r) := RecipeInstalled status event c in
      let '(status', c'', rs) := runSteps steps' status c' in
      (status', c'', r :: rs)
  | DoRecipeFailed event :: steps' =>
      let (c', r) := RecipeFailed status event c in
      let '(status', c'', rs) := runSteps steps' status c' in
      (status', c'', r :: rs)
  end.

End Reporter.

(** The first failure among the outcomes of a series of writes. *)
Fixpoint firstFailure (outcomes : list (result unit)) : option error :=
  match outcomes with
  | [] => None
  | fail err :: _ => Some err
  | ok _ :: outcomes' => firstFailure outcomes'
  end.

(** The number of entity GUIDs known at each report of a sequence of
    steps, one entry per [RecipeInstalled] or [RecipeFailed] call. *)
Fixpoint knownAtCalls (steps : list ReporterStep) (status : InstallStatus)
  : list nat :=
  match steps with
  | [] => []
  | DoWithEntityGUID guid :: steps' =>
      knownAtCalls steps' (withEntityGUID guid status)
  | DoRecipeInstalled _ :: steps' | DoRecipeFailed _ :: steps' =>
      List.length (EntityGUIDs status) :: knownAtCalls steps' status
  end.

End NerdStorage.

(** ** The polling validator *)

Module Validation.

Inductive NRDBValue : Type :=
| NumberValue (z : Z)
| StringValue (s : string).

(** [nrdb.NRDBResult], a row: a map from keys to values.  The counts the
    fixtures use, [0.0] and [1.0], are only ever compared with zero and are
    kept as integers. *)
Definition NRDBResult : Type := list (string * NRDBValue).

Definition emptyResults : list NRDBResult := [[("count", NumberValue 0)]].
Definition nonEmptyResults : list NRDBResult := [[("count", NumberValue 1)]].

(** The query backend of section 6. *)
Class NRDBClient (C : Type) : Type := {
  Query : string -> C -> C * result (list NRDBResult)
}.

(** The test double the scenario builder configures with
    [ReturnResultsAfterNAttempts]. *)
Record MockNRDBClient : Type := {
  resultsBefore : list NRDBResult;
  resultsAfter : list NRDBResult;
  attemptsUntilResults : nat;
  Attempts : nat
}.

(** Modelled from the spec: [NewMockNRDBClient]; a fresh double has
    answered no query. *)
Definition NewMockNRDBClient : MockNRDBClient :=
  {| resultsBefore := []; resultsAfter := [];
     attemptsUntilResults := 0; Attempts := 0 |}.

(** Modelled from the spec: [ReturnResultsAfterNAttempts] sets the two
    result sets and the attempt from which the second one is returned. *)
Definition ReturnResultsAfterNAttempts (before after : list NRDBResult)
  (n : nat) (c : MockNRDBClient) : MockNRDBClient :=
  {| resultsBefore := before; resultsAfter := after;
     attemptsUntilResults := n; Attempts := Attempts c |}.

(** Modelled from the spec: the methods of the test double are declared
    in a file that is not embedded here; section 8: the backend returns the first
    result set on the first [n - 1] attempts and the second one from
    attempt [n] on. *)
#[global] Instance MockNRDBClient_client : NRDBClient MockNRDBClient := {
  Query _ c :=
    let attempts := S (Attempts c) in
    ({| resultsBefore := resultsBefore c; resultsAfter := resultsAfter c;
        attemptsUntilResults := attemptsUntilResults c;
        Attempts := attempts |},
     ok (if Nat.ltb attempts (attemptsUntilResults c)
         then resultsBefore c
         else resultsAfter c))
}.

Fixpoint lookupKey (key : string) (row : NRDBResult) : option NRDBValue :=
  match row with
  | [] => None
  | (k, v) :: row' => if String.eqb k key then Some v else lookupKey key row'
  end.

(** Modelled from the spec: the success condition of section 4.1: at least
    one row whose count is non-zero. *)
Definition dataArrived (rows : list NRDBResult) : bool :=
  existsb
    (fun row =>
       match lookupKey "count" row with
       | Some (NumberValue z) => negb (Z.eqb z 0)
       | _ => false
       end)
    rows.

(** The calling context as the validator sees it: [ctx k] tells whether
    cancellation has been signalled when the validator reaches the interval
    boundary that follows its [k]-th attempt ([ctx 0]: when it starts). *)
Definition Context : Type := nat -> bool.

Definition Background : Context := fun _ => false.


Record PollingRecipeValidator : Type := {
  maxAttempts : nat
}.

Section Validator.

Context {C : Type} {client : NRDBClient C}.

(** The entity lookup that names the validated resource. *)
Variable entityGUIDOf : list NRDBResult -> string.

(** Modelled from the spec: [PollingRecipeValidator] is declared in a
    file that is not embedded here; sections 4.1 and 5: the validation query is issued
    once per interval, at most [maxAttempts] times; cancellation is
    observed at the start and at every interval boundary and ends the
    polling with the cancellation error; a query error ends it with
    [ValidationQueryFailed]; rows with data end it with the entity GUID;
    when the attempts are used up it ends with [ValidationExhausted].
    The result comes with the number of attempts made. *)
Fixpoint waitForData (remaining attempt : nat) (ctx : Context) (nrql : string)
  (c : C) : C * (nat * result string) :=
  match remaining with
  | 0 => (c, (attempt, fail ValidationExhausted))
  | S remaining' =>
      if ctx attempt
      then (c, (attempt, fail ErrInterrupt))
      else
        match Query nrql c with
        | (c', fail err) => (c', (S attempt, fail (ValidationQueryFailed err)))
        | (c', ok rows) =>
            if dataArrived rows
            then (c', (S attempt, ok (entityGUIDOf rows)))
            else waitForData remaining' (S attempt) ctx nrql c'
        end
  end.

Definition Validate (v : PollingRecipeValidator) (ctx : Context)
  (r : OpenInstallationRecipe) (c : C) : C * (nat * result string) :=
  waitForData (maxAttempts v) 0 ctx (ValidationNRQL r) c.

(** What the backend answers to an attempt. *)
Inductive Answer : Type :=
| NoData
| DataPresent
| QueryError.

Definition classify (r : result (list NRDBResult)) : Answer :=
  match r with
  | fail _ => QueryError
  | ok rows => if dataArrived rows then DataPresent else NoData
  end.

(** The answers to the next [n] queries from the client state [c], and
    the client state they leave. *)
Fixpoint answers (n : nat) (nrql : string) (c : C) : list Answer :=
  match n with
  | 0 => []
  | S n' =>
      let (c', r) := Query nrql c in
      classify r :: answers n' nrql c'
  end.

Fixpoint afterQueries (n : nat) (nrql : string) (c : C) : C :=
  match n with
  | 0 => c
  | S n' => afterQueries n' nrql (fst (Query nrql c))
  end.

End Validator.

End Validation.

(** ** Notions the statements about [filterIntegrations] use *)

(** Application-scoped and not otherwise qualified: the first branch of
    the candidate loop. *)
Definition applicationOnly (r : OpenInstallationRecipe) : bool :=
  HasApplicationTargetType r && negb (IsApm r).

(** Excluded by the skip-all-integrations directive or by the skip-APM
    directive: the second and third branch of the candidate loop. *)
Definition excludedByDirective (skipIntegrations skipApm : bool)
  (r : OpenInstallationRecipe) : bool :=
  negb (applicationOnly r) && (skipIntegrations || (skipApm && IsApm r)).

(** Offered to the selection: the last branch of the candidate loop. *)
Definition isInstallCandidate (skipIntegrations skipApm : bool)
  (r : OpenInstallationRecipe) : bool :=
  negb (applicationOnly r) && negb skipIntegrations && negb (skipApm && IsApm r).

(** The recipes picked by the selected display names. *)
Definition selectedBy (names : list string)
  (recommendedIntegrations : list OpenInstallationRecipe)
  : list OpenInstallationRecipe :=
  flat_map
    (fun name => filter (fun r => String.eqb (DisplayName r) name)
                   recommendedIntegrations)
    names.

Definition skipEvent (r : OpenInstallationRecipe) : StatusNotification :=
  (SKIPPED, recipeEvent r).

(** Marking a list of recipes SKIPPED, in order. *)
Definition skipAll (rs : list OpenInstallationRecipe) (s : InstallStatus)
  : InstallStatus :=
  fold_left (fun s r => RecipeSkipped (recipeEvent r) s) rs s.

(** What the last loop of [filterIntegrations] does with the candidates
    that were not selected: they are marked SKIPPED, and the skip-logging
    flag is raised if one of them carries the name of the logging recipe. *)
Definition markUnselected {Env : Type} (LoggingRecipeName : string)
  (unselected : list OpenInstallationRecipe) (i : RecipeInstaller Env)
  : RecipeInstaller Env :=
  setSkipLoggingInstall
    (SkipLoggingInstall i
     || existsb (fun r => String.eqb (Name r) LoggingRecipeName) unselected)
    (setStatus (skipAll unselected (status i)) i).

(** The candidates of a selection that are missing from the selected
    recipes, by [Name]. *)
Definition unselectedOf (installCandidates integrationsForInstall
  : list OpenInstallationRecipe) : list OpenInstallationRecipe :=
  filter (fun r => negb (recipeInRecipes r integrationsForInstall))
    installCandidates.

(** The candidates [filterIntegrations] offers to the selection, the state
    in which the selection is made, and the selection of display names. *)
Definition candidatesOf {Env : Type} (recs : list OpenInstallationRecipe)
  (i : RecipeInstaller Env) : list OpenInstallationRecipe :=
  filter (isInstallCandidate (SkipIntegrations i) (SkipApm i)) recs.

Definition afterCandidates {Env : Type} (recs : list OpenInstallationRecipe)
  (i : RecipeInstaller Env) : RecipeInstaller Env :=
  setStatus
    (skipAll (filter (excludedByDirective (SkipIntegrations i) (SkipApm i)) recs)
       (status i)) i.

Definition selectNames {Env : Type} {prompter : Prompter Env}
  (recs : list OpenInstallationRecipe) (i : RecipeInstaller Env)
  : RecipeInstaller Env * result (list string) :=
  let names := map DisplayName (candidatesOf recs i) in
  if AssumeYes i then (afterCandidates recs i, ok names)
  else if Nat.ltb 0 (List.length names)
  then call (MultiSelect
               "Please choose from the additional recommended instrumentation to be installed:"
               names) (afterCandidates recs i)
  else (afterCandidates recs i, ok []).

Definition RecipeStatusType_eq_dec (a b : RecipeStatusType) : {a = b} + {a <> b}.
Proof. decide equality. Defined.

Definition RecipeStatusEvent_eq_dec (a b : RecipeStatusEvent) : {a = b} + {a <> b}.
Proof.
  decide equality; [apply string_dec | apply OpenInstallationRecipe_eq_dec].
Defined.

Definition StatusNotification_eq_dec (a b : StatusNotification) : {a = b} + {a <> b}.
Proof.
  decide equality; [apply RecipeStatusEvent_eq_dec | apply RecipeStatusType_eq_dec].
Defined.

(** [extends P s s']: the status [s'] has the notifications of [s]
    followed by notifications that all satisfy [P]. *)
Definition extends (P : StatusNotification -> Prop) (s s' : InstallStatus) : Prop :=
  exists emitted, Notified s' = Notified s ++ emitted /\ Forall P emitted.

(** [reports P i i']: the same, for installer states. *)
Definition reports {Env : Type} (P : StatusNotification -> Prop)
  (i i' : RecipeInstaller Env) : Prop :=
  extends P (status i) (status i').

(** [keepsSkipLogging i i']: the skip-logging flag is what it was. *)
Definition keepsSkipLogging {Env : Type} (i i' : RecipeInstaller Env) : Prop :=
  SkipLoggingInstall i' = SkipLoggingInstall i.

(** ** Fixtures *)

Module Mock.

(** An environment in the manner of the test doubles of the scenario
    builder: every collaborator answers from values fixed beforehand, and
    the executor records the recipes it was asked to run. *)
Record MockEnv : Type := {
  FetchRecipeVals : list OpenInstallationRecipe;
  FetchRecommendationsVal : result (list OpenInstallationRecipe);
  ExecuteErr : string -> option error;
  ValidateErr : string -> option error;
  PromptYesNoVal : bool;
  MultiSelectVal : result (list string);
  FilterVal : list OpenInstallationLogMatch;
  Executed : list string
}.

Definition recordExecuted (name : string) (e : MockEnv) : MockEnv :=
  {| FetchRecipeVals := FetchRecipeVals e;
     FetchRecommendationsVal := FetchRecommendationsVal e;
     ExecuteErr := ExecuteErr e;
     ValidateErr := ValidateErr e;
     PromptYesNoVal := PromptYesNoVal e;
     MultiSelectVal := MultiSelectVal e;
     FilterVal := FilterVal e;
     Executed := Executed e ++ [name] |}.

#[global] Instance mockRecipeFetcher : RecipeFetcher MockEnv unit := {
  FetchRecipe _ name e :=
    (e, match find (fun r => String.eqb (Name r) name) (FetchRecipeVals e) with
        | Some r => ok r
        | None => fail (errorString "recipe not found")
        end);
  FetchRecommendations _ e := (e, FetchRecommendationsVal e)
}.

#[global] Instance mockRecipeExecutor : RecipeExecutor MockEnv unit := {
  Prepare _ r _ _ e := (e, ok (Vars r));
  Execute _ r _ e :=
    (recordExecuted (Name r) e,
     match ExecuteErr e (Name r) with
     | Some err => fail err
     | None => ok tt
     end)
}.

#[global] Instance mockRecipeValidator : RecipeValidator MockEnv unit := {
  Validate _ r e :=
    (e, match ValidateErr e (Name r) with
        | Some err => fail err
        | None => ok ("guid-" ++ Name r)%string
        end)
}.

#[global] Instance mockPrompter : Prompter MockEnv := {
  PromptYesNo _ e := (e, ok (PromptYesNoVal e));
  MultiSelect _ _ e := (e, MultiSelectVal e)
}.

#[global] Instance mockFileFilterer : FileFilterer MockEnv := {
  Filter _ e := (e, ok (FilterVal e))
}.

Definition InfraAgentRecipeName : string := "infrastructure-agent-installer".
Definition LoggingRecipeName : string := "logs-integration".

(** The recipes of [setupRecipeFetcherGuidedInstall]. *)
Definition infraRecipe : OpenInstallationRecipe :=
  {| Name := "infrastructure-agent-installer";
     DisplayName := "Infrastructure Agent";
     ValidationNRQL := "test NRQL";
     InstallTargets := [HOST]; Apm := false; LogMatch := []; Vars := [] |}.

Definition logsRecipe : OpenInstallationRecipe :=
  {| Name := "logs-integration";
     DisplayName := "Logs integration";
     ValidationNRQL := "test NRQL";
     InstallTargets := [HOST]; Apm := false;
     LogMatch := [{| LogMatchName := "docker log";
                     File := "/var/lib/docker/containers/*/*.log" |}];
     Vars := [] |}.

Definition recommendedRecipe : OpenInstallationRecipe :=
  {| Name := "recommended-recipe";
     DisplayName := "Recommended recipe";
     ValidationNRQL := "test NRQL";
     InstallTargets := [HOST]; Apm := false; LogMatch := []; Vars := [] |}.

(** Two more recipes: one with an application target, one APM-classified. *)
Definition applicationRecipe : OpenInstallationRecipe :=
  {| Name := "application-recipe";
     DisplayName := "Application recipe";
     ValidationNRQL := "test NRQL";
     InstallTargets := [APPLICATION]; Apm := false; LogMatch := []; Vars := [] |}.

Definition apmRecipe : OpenInstallationRecipe :=
  {| Name := "apm-recipe";
     DisplayName := "APM recipe";
     ValidationNRQL := "test NRQL";
     InstallTargets := [APPLICATION]; Apm := true; LogMatch := []; Vars := [] |}.

Definition guidedEnv : MockEnv :=
  {| FetchRecipeVals := [infraRecipe; logsRecipe];
     FetchRecommendationsVal := ok [recommendedRecipe];
     ExecuteErr := fun _ => None;
     ValidateErr := fun _ => None;
     PromptYesNoVal := true;
     MultiSelectVal := ok [];
     FilterVal := [];
     Executed := [] |}.

(** An installer over the environment [e] with the given flags and a fresh
    install status. *)
Definition installerWith (assumeYes skipIntegrations skipApm : bool)
  (e : MockEnv) : RecipeInstaller MockEnv :=
  {| AssumeYes := assumeYes;
     SkipDiscovery := false;
     SkipIntegrations := skipIntegrations;
     SkipLoggingInstall := false;
     SkipApm := skipApm;
     SkipInfra := false;
     LicenseKey := "";
     status := NewInstallStatus;
     env := e |}.

Definition withEnv (e : MockEnv) : RecipeInstaller MockEnv :=
  installerWith true false false e.

(** Environments in which the executor fails on one recipe, and one in
    which the user picks the recommended recipe only. *)
Definition failing (name : string) (err : error) : string -> option error :=
  fun n => if String.eqb n name then Some err else None.

Definition withExecuteErr (f : string -> option error) (e : MockEnv) : MockEnv :=
  {| FetchRecipeVals := FetchRecipeVals e;
     FetchRecommendationsVal := FetchRecommendationsVal e;
     ExecuteErr := f;
     ValidateErr := ValidateErr e;
     PromptYesNoVal := PromptYesNoVal e;
     MultiSelectVal := MultiSelectVal e;
     FilterVal := FilterVal e;
     Executed := Executed e |}.

Definition withMultiSelectVal (names : result (list string)) (e : MockEnv)
  : MockEnv :=
  {| FetchRecipeVals := FetchRecipeVals e;
     FetchRecommendationsVal := FetchRecommendationsVal e;
     ExecuteErr := ExecuteErr e;
     ValidateErr := ValidateErr e;
     PromptYesNoVal := PromptYesNoVal e;
     MultiSelectVal := names;
     FilterVal := FilterVal e;
     Executed := Executed e |}.

Definition infraFailsEnv : MockEnv :=
  withExecuteErr (failing InfraAgentRecipeName (errorString "execution failed"))
    guidedEnv.

Definition recommendedFailsEnv : MockEnv :=
  withExecuteErr (failing "recommended-recipe" (errorString "execution failed"))
    guidedEnv.

Definition recommendedInterruptedEnv : MockEnv :=
  withExecuteErr (failing "recommended-recipe" ErrInterrupt) guidedEnv.

Definition promptedEnv : MockEnv :=
  withMultiSelectVal (ok ["Recommended recipe"]) guidedEnv.

(** The value of a result that is known to be [ok]. *)
Definition okOr {A : Type} (d : A) (r : result A) : A :=
  match r with
  | ok a => a
  | fail _ => d
  end.

Definition noLocals : guidedInstallLocals :=
  {| infraAgentRecipe := infraRecipe;
     loggingRecipe := logsRecipe;
     recommendedIntegrations := [];
     recipesForInstallation := [];
     selectedIntegrations := [] |}.

(** An [installRecipes] that stops at the first recipe that fails. *)
Definition installRecipesFailFast (m : unit)
  (recipes : list OpenInstallationRecipe) : M (RecipeInstaller MockEnv) unit :=
  forRange recipes tt
    (fun r _ => bind (executeAndValidateWithProgress m r) (fun _ => ret tt)).

End Mock.

(** ** Notions the statements about [installLogging] use *)

(** The question [userAcceptsLogFile] asks about a log file. *)
Definition logFileQuestion (logMatch : OpenInstallationLogMatch) : string :=
  ("Files have been found at the following pattern: "
     ++ File logMatch ++ " Do you want to watch them?")%string.

(** The answers of the prompter to the questions about [logMatches], asked
    in order from the environment [e]; a prompt that fails ends the
    series. *)
Fixpoint askLogFiles {Env : Type} {prompter : Prompter Env}
  (logMatches : list OpenInstallationLogMatch) (e : Env)
  : Env * result (list bool) :=
  match logMatches with
  | [] => (e, ok [])
  | logMatch :: logMatches' =>
      match PromptYesNo (logFileQuestion logMatch) e with
      | (e', ok answer) =>
          match askLogFiles logMatches' e' with
          | (e'', ok answers) => (e'', ok (answer :: answers))
          | (e'', fail err) => (e'', fail err)
          end
      | (e', fail err) => (e', fail err)
      end
  end.

(** The log matches that were answered with yes. *)
Fixpoint acceptedBy (logMatches : list OpenInstallationLogMatch)
  (answers : list bool) : list OpenInstallationLogMatch :=
  match logMatches, answers with
  | logMatch :: logMatches', answer :: answers' =>
      if answer then logMatch :: acceptedBy logMatches' answers'
      else acceptedBy logMatches' answers'
  | _, _ => []
  end.

(** [keepsContext i i']: the flags and the license key of the installer
    context are what they were. *)
Definition keepsContext {Env : Type} (i i' : RecipeInstaller Env) : Prop :=
  AssumeYes i' = AssumeYes i
  /\ SkipDiscovery i' = SkipDiscovery i
  /\ SkipIntegrations i' = SkipIntegrations i
  /\ SkipLoggingInstall i' = SkipLoggingInstall i
  /\ SkipApm i' = SkipApm i
  /\ SkipInfra i' = SkipInfra i
  /\ LicenseKey i' = LicenseKey i.

(** ** The scenarios of the scenario builder *)

Module Scenarios.

(** [type TestScenario string] *)
Definition TestScenario : Type := string.

Definition Basic : TestScenario := "BASIC".
Definition LogMatches : TestScenario := "LOG_MATCHES".
Definition Fail : TestScenario := "FAIL".
Definition StitchedPath : TestScenario := "STITCHED_PATH".
Definition Canceled : TestScenario := "CANCELED".
Definition DisplayExplorerLink : TestScenario := "DISPLAY_EXPLORER_LINK".

Definition TestScenarios : list TestScenario :=
  [Basic; LogMatches; Fail; StitchedPath; Canceled; DisplayExplorerLink].

(** [v[i] = x] on a slice; an index out of range panics in Go and is not
    reached by the loop below, the model leaves the slice as it is. *)
Fixpoint setIndex (v : list string) (i : nat) (x : string) : list string :=
  match v, i with
  | [], _ => []
  | _ :: v', 0 => x :: v'
  | y :: v', S i' => y :: setIndex v' i' x
  end.

(** [TestScenarioValues], for the scenarios [scenarios]:
    [v := make([]string, len(scenarios))], then [v[i] = string(s)] for
    every index and scenario. *)
Definition TestScenarioValuesOf (scenarios : list TestScenario) : list string :=
  snd (fold_left
         (fun (iv : nat * list string) (s : TestScenario) =>
            let (i, v) := iv in (S i, setIndex v i s))
         scenarios
         (0, repeat "" (List.length scenarios))).

Definition TestScenarioValues : list string := TestScenarioValuesOf TestScenarios.

(** The methods of [ScenarioBuilder] that [BuildScenario] hands a scenario
    to; each builds a [RecipeInstaller] from test doubles. *)
Inductive ScenarioBuilderMethod : Type :=
| BuildBasic
| BuildLogMatches
| BuildFail
| BuildStitchedPath
| BuildCanceledInstall
| BuildDisplayExplorerLink.

(** [BuildScenario]: the [switch] over the scenario; [None] is the [nil]
    returned when no case matches. *)
Definition BuildScenario (s : TestScenario) : option ScenarioBuilderMethod :=
  if String.eqb s Basic then Some BuildBasic
  else if String.eqb s LogMatches then Some BuildLogMatches
  else if String.eqb s Fail then Some BuildFail
  else if String.eqb s StitchedPath then Some BuildStitchedPath
  else if String.eqb s Canceled then Some BuildCanceledInstall
  else if String.eqb s DisplayExplorerLink then Some BuildDisplayExplorerLink
  else None.

End Scenarios.

(** ** More fixtures *)

Module MockCases.

(** The recipe service is interrupted while it looks for recommendations. *)
Definition interruptedRecommendationsEnv : Mock.MockEnv :=
  {| Mock.FetchRecipeVals := [Mock.infraRecipe; Mock.logsRecipe];
     Mock.FetchRecommendationsVal := fail ErrInterrupt;
     Mock.ExecuteErr := fun _ => None;
     Mock.ValidateErr := fun _ => None;
     Mock.PromptYesNoVal := true;
     Mock.MultiSelectVal := ok [];
     Mock.FilterVal := [];
     Mock.Executed := [] |}.

(** The recipe service recommends the two mandatory recipes as well. *)
Definition redundantRecommendationsEnv : Mock.MockEnv :=
  {| Mock.FetchRecipeVals := [Mock.infraRecipe; Mock.logsRecipe];
     Mock.FetchRecommendationsVal :=
       ok [Mock.infraRecipe; Mock.recommendedRecipe; Mock.logsRecipe;
           Mock.applicationRecipe];
     Mock.ExecuteErr := fun _ => None;
     Mock.ValidateErr := fun _ => None;
     Mock.PromptYesNoVal := true;
     Mock.MultiSelectVal := ok [];
     Mock.FilterVal := [];
     Mock.Executed := [] |}.

(** The prompt of the selection fails. *)
Definition promptFailsEnv : Mock.MockEnv :=
  Mock.withMultiSelectVal (fail (errorString "prompt failed")) Mock.guidedEnv.

(** Two log files are found. *)
Definition dockerLog : OpenInstallationLogMatch :=
  {| LogMatchName := "docker log"; File := "/var/lib/docker/containers/*/*.log" |}.

Definition sysLog : OpenInstallationLogMatch :=
  {| LogMatchName := "syslog"; File := "/var/log/syslog" |}.

Definition withFilterVal (logMatches : list OpenInstallationLogMatch)
  (e : Mock.MockEnv) : Mock.MockEnv :=
  {| Mock.FetchRecipeVals := Mock.FetchRecipeVals e;
     Mock.FetchRecommendationsVal := Mock.FetchRecommendationsVal e;
     Mock.ExecuteErr := Mock.ExecuteErr e;
     Mock.ValidateErr := Mock.ValidateErr e;
     Mock.PromptYesNoVal := Mock.PromptYesNoVal e;
     Mock.MultiSelectVal := Mock.MultiSelectVal e;
     Mock.FilterVal := logMatches;
     Mock.Executed := Mock.Executed e |}.

Definition logFilesEnv : Mock.MockEnv :=
  withFilterVal [dockerLog; sysLog] Mock.guidedEnv.

(** The executor fails on the logging recipe. *)
Definition loggingFailsEnv : Mock.MockEnv :=
  Mock.withExecuteErr
    (Mock.failing Mock.LoggingRecipeName (errorString "execution failed"))
    Mock.guidedEnv.

(** No recipe can be fetched. *)
Definition noRecipesEnv : Mock.MockEnv :=
  {| Mock.FetchRecipeVals := [];
     Mock.FetchRecommendationsVal := ok [];
     Mock.ExecuteErr := fun _ => None;
     Mock.ValidateErr := fun _ => None;
     Mock.PromptYesNoVal := true;
     Mock.MultiSelectVal := ok [];
     Mock.FilterVal := [];
     Mock.Executed := [] |}.

(** An application-only recipe that shares its display name with the
    recommended recipe. *)
Definition applicationTwin : OpenInstallationRecipe :=
  {| Name := "application-twin";
     DisplayName := "Recommended recipe";
     ValidationNRQL := "test NRQL";
     InstallTargets := [APPLICATION]; Apm := false; LogMatch := []; Vars := [] |}.

(** Only the infra agent recipe can be fetched. *)
Definition infraOnlyEnv : Mock.MockEnv :=
  {| Mock.FetchRecipeVals := [Mock.infraRecipe];
     Mock.FetchRecommendationsVal := ok [];
     Mock.ExecuteErr := fun _ => None;
     Mock.ValidateErr := fun _ => None;
     Mock.PromptYesNoVal := true;
     Mock.MultiSelectVal := ok [];
     Mock.FilterVal := [];
     Mock.Executed := [] |}.

(** An installer with every flag given. *)
Definition installerOf (assumeYes skipDiscovery skipIntegrations
  skipLoggingInstall skipApm skipInfra : bool) (e : Mock.MockEnv)
  : RecipeInstaller Mock.MockEnv :=
  {| AssumeYes := assumeYes;
     SkipDiscovery := skipDiscovery;
     SkipIntegrations := skipIntegrations;
     SkipLoggingInstall := skipLoggingInstall;
     SkipApm := skipApm;
     SkipInfra := skipInfra;
     LicenseKey := "";
     status := NewInstallStatus;
     env := e |}.

(** An [installRecipes] that does nothing. *)
Definition installNothing (m : unit) (recipes : list OpenInstallationRecipe)
  : M (RecipeInstaller Mock.MockEnv) unit :=
  ret tt.

(** An environment whose prompter answers from a script, one entry per
    question, and records the questions it was asked. *)
Record ScriptedEnv : Type := {
  Script : list (result bool);
  Found : result (list OpenInstallationLogMatch);
  Asked : list string;
  Ran : list OpenInstallationRecipe
}.

#[global] Instance scriptedPrompter : Prompter ScriptedEnv := {
  PromptYesNo msg e :=
    ({| Script := tl (Script e); Found := Found e;
        Asked := Asked e ++ [msg]; Ran := Ran e |},
     match Script e with
     | answer :: _ => answer
     | [] => fail (errorString "no answer")
     end);
  MultiSelect _ _ e := (e, ok [])
}.

#[global] Instance scriptedFileFilterer : FileFilterer ScriptedEnv := {
  Filter _ e := (e, Found e)
}.

#[global] Instance scriptedRecipeExecutor : RecipeExecutor ScriptedEnv unit := {
  Prepare _ r _ _ e := (e, ok (Vars r));
  Execute _ r _ e :=
    ({| Script := Script e; Found := Found e; Asked := Asked e;
        Ran := Ran e ++ [r] |}, ok tt)
}.

#[global] Instance scriptedRecipeValidator : RecipeValidator ScriptedEnv unit := {
  Validate _ r e := (e, ok "guid")
}.

Definition scriptedInstaller (assumeYes : bool) (e : ScriptedEnv)
  : RecipeInstaller ScriptedEnv :=
  {| AssumeYes := assumeYes;
     SkipDiscovery := false;
     SkipIntegrations := false;
     SkipLoggingInstall := false;
     SkipApm := false;
     SkipInfra := false;
     LicenseKey := "";
     status := NewInstallStatus;
     env := e |}.

Definition scripted (script : list (result bool))
  (found : result (list OpenInstallationLogMatch)) : ScriptedEnv :=
  {| Script := script; Found := found; Asked := []; Ran := [] |}.

End MockCases.

(** ** Theorems *)

Lemma fold_left_app_each (A B : Type) (f : A -> list B) (l : list A)
  (acc : list B) :
  fold_left (fun acc x => acc ++ f x) l acc = acc ++ flat_map f l.
Proof.
  revert acc; induction l as [|x l IH]; intros acc; simpl.
  - now rewrite app_nil_r.
  - rewrite IH. now rewrite app_assoc.
Qed.

Lemma fold_left_pointwise (A B : Type) (f g : A -> B -> A) (l : list B) (a : A) :
  (forall a b, f a b = g a b) -> fold_left f l a = fold_left g l a.
Proof.
  intros H. revert a; induction l as [|b l IH]; intros a; simpl.
  - reflexivity.
  - now rewrite H, IH.
Qed.

(** *** [removeRecipes] *)

Lemma removeRecipes_inner (recipe : OpenInstallationRecipe)
  (remove filtered : list OpenInstallationRecipe) :
  fold_left
    (fun filtered r =>
       if negb (String.eqb (Name recipe) (Name r))
       then filtered ++ [recipe]
       else filtered)
    remove filtered
  = filtered ++ repeat recipe (differingTargets recipe remove).
Proof.
  unfold differingTargets.
  revert filtered; induction remove as [|r remove IH]; intros filtered; simpl.
  - now rewrite app_nil_r.
  - rewrite IH. destruct (negb (Name recipe =? Name r)%string); simpl.
    + now rewrite <- app_assoc.
    + reflexivity.
Qed.

Lemma removeRecipes_flat_map (recipes remove : list OpenInstallationRecipe) :
  removeRecipes recipes remove
  = flat_map (fun recipe => repeat recipe (differingTargets recipe remove)) recipes.
Proof.
  unfold removeRecipes.
  rewrite (fold_left_pointwise _
             (fun filtered recipe =>
                filtered ++ repeat recipe (differingTargets recipe remove))).
  - now rewrite fold_left_app_each.
  - intros filtered recipe. apply removeRecipes_inner.
Qed.

Lemma count_occ_repeat_same (x y : OpenInstallationRecipe) (n : nat) :
  count_occ OpenInstallationRecipe_eq_dec (repeat y n) x
  = if OpenInstallationRecipe_eq_dec y x then n else 0.
Proof.
  induction n as [|n IH]; simpl.
  - now destruct (OpenInstallationRecipe_eq_dec y x).
  - destruct (OpenInstallationRecipe_eq_dec y x); simpl; lia.
Qed.

Lemma removeRecipes_count_occ (recipes remove : list OpenInstallationRecipe)
  (x : OpenInstallationRecipe) :
  count_occ OpenInstallationRecipe_eq_dec (removeRecipes recipes remove) x
  = count_occ OpenInstallationRecipe_eq_dec recipes x * differingTargets x remove.
Proof.
  rewrite removeRecipes_flat_map.
  induction recipes as [|y recipes IH]; simpl; [reflexivity|].
  rewrite count_occ_app, IH, count_occ_repeat_same.
  destruct (OpenInstallationRecipe_eq_dec y x) as [->|]; lia.
Qed.

Lemma differingTargets_all (recipe : OpenInstallationRecipe)
  (remove : list OpenInstallationRecipe) :
  (forall r, In r remove -> Name recipe <> Name r) ->
  differingTargets recipe remove = List.length remove.
Proof.
  unfold differingTargets. induction remove as [|r remove IH]; intros H; simpl.
  - reflexivity.
  - destruct (String.eqb_spec (Name recipe) (Name r)) as [E|_]; simpl.
    + exfalso. apply (H r); [now left | exact E].
    + f_equal. apply IH. intros r' Hr'. apply H. now right.
Qed.


(** *** Status bookkeeping *)

Lemma Notified_notifyAll (t : RecipeStatusType)
  (rs : list OpenInstallationRecipe) (s : InstallStatus) :
  Notified (fold_left (fun s r => notify t (recipeEvent r) s) rs s)
  = Notified s ++ map (fun r => (t, recipeEvent r)) rs.
Proof.
  revert s; induction rs as [|r rs IH]; intros s; simpl.
  - now rewrite app_nil_r.
  - rewrite IH. simpl. now rewrite <- app_assoc.
Qed.

Lemma Notified_skipAll (rs : list OpenInstallationRecipe) (s : InstallStatus) :
  Notified (skipAll rs s) = Notified s ++ map skipEvent rs.
Proof. apply Notified_notifyAll. Qed.

Lemma skipAll_app (rs rs' : list OpenInstallationRecipe) (s : InstallStatus) :
  skipAll (rs ++ rs') s = skipAll rs' (skipAll rs s).
Proof. apply fold_left_app. Qed.

Lemma EntityGUIDs_notifyAll (t : RecipeStatusType)
  (rs : list OpenInstallationRecipe) (s : InstallStatus) :
  EntityGUIDs (fold_left (fun s r => notify t (recipeEvent r) s) rs s)
  = EntityGUIDs s.
Proof.
  revert s; induction rs as [|r rs IH]; intros s; simpl; [reflexivity|].
  now rewrite IH.
Qed.

(** *** [filterIntegrations], loop by loop *)

Section FilterIntegrationsFacts.

Context {Env : Type} {prompter : Prompter Env}.
Variable LoggingRecipeName : string.

Let Installer : Type := RecipeInstaller Env.

Lemma setStatus_status (i : Installer) : setStatus (status i) i = i.
Proof. now destruct i. Qed.

(** The candidate loop: the recipes excluded by a directive are marked
    SKIPPED, in order, and the remaining ones that are not
    application-only are appended to the candidates. *)
Lemma candidate_loop (recs acc : list OpenInstallationRecipe) (i : Installer) :
  forRange recs acc
    (fun r installCandidates =>
       skipIntegrations <- gets (@SkipIntegrations Env) ;;
       skipApm <- gets (@SkipApm Env) ;;
       if HasApplicationTargetType r && negb (IsApm r)
       then ret installCandidates
       else if skipIntegrations : bool
       then onStatus (RecipeSkipped (recipeEvent r)) ;; ret installCandidates
       else if skipApm && IsApm r
       then onStatus (RecipeSkipped (recipeEvent r)) ;; ret installCandidates
       else ret (installCandidates ++ [r])) i
  = (setStatus
       (skipAll (filter (excludedByDirective (SkipIntegrations i) (SkipApm i)) recs)
          (status i)) i,
     ok (acc ++ filter (isInstallCandidate (SkipIntegrations i) (SkipApm i)) recs)).
Proof.
  revert acc i; induction recs as [|r recs IH]; intros acc i.
  - simpl. unfold ret. now rewrite setStatus_status, app_nil_r.
  - cbn [forRange filter]. unfold bind at 1. unfold bind at 1, gets at 1.
    unfold bind at 1, gets at 1.
    unfold excludedByDirective, isInstallCandidate, applicationOnly in *.
    destruct (HasApplicationTargetType r && negb (IsApm r)); cbn [negb andb].
    + unfold ret at 1. apply IH.
    + destruct (SkipIntegrations i) eqn:Esi; cbn [negb andb orb].
      * unfold bind at 1, onStatus, modify, ret at 1.
        rewrite IH. cbn. rewrite Esi. reflexivity.
      * destruct (SkipApm i && IsApm r) eqn:Esa; cbn [negb andb orb].
        -- unfold bind at 1, onStatus, modify, ret at 1.
           rewrite IH. cbn. rewrite Esi. reflexivity.
        -- unfold ret at 1. rewrite IH, Esi. now rewrite <- app_assoc.
Qed.

Lemma markUnselected_nil (i : Installer) :
  markUnselected LoggingRecipeName [] i = i.
Proof. destruct i. unfold markUnselected. cbn. now rewrite orb_false_r. Qed.

(** The last loop. *)
Lemma unselected_loop (cands sel : list OpenInstallationRecipe) (i : Installer) :
  forRange cands tt
    (fun r _ =>
       if negb (recipeInRecipes r sel)
       then
         onStatus (RecipeSkipped (recipeEvent r)) ;;
         if String.eqb (Name r) LoggingRecipeName
         then modify (setSkipLoggingInstall true)
         else ret tt
       else ret tt) i
  = (markUnselected LoggingRecipeName (unselectedOf cands sel) i, ok tt).
Proof.
  unfold unselectedOf.
  revert i; induction cands as [|r cands IH]; intros i.
  - cbn. unfold ret. now rewrite markUnselected_nil.
  - cbn [forRange filter]. unfold bind at 1.
    destruct (negb (recipeInRecipes r sel)).
    + unfold bind at 1, onStatus, modify at 1.
      destruct (String.eqb (Name r) LoggingRecipeName) eqn:En.
      * unfold modify at 1. rewrite IH. f_equal.
        destruct i. unfold markUnselected. cbn. rewrite En. cbn.
        now rewrite orb_true_r.
      * unfold ret at 1. rewrite IH. f_equal.
        destruct i. unfold markUnselected. cbn. rewrite En. reflexivity.
    + unfold ret at 1. apply IH.
Qed.

Lemma displayNames_map (cands : list OpenInstallationRecipe) :
  fold_left (fun names r => names ++ [DisplayName r]) cands []
  = map DisplayName cands.
Proof.
  rewrite (fold_left_app_each (fun r => [DisplayName r])). cbn.
  induction cands as [|r cands IH]; cbn; congruence.
Qed.

Lemma integrationsForInstall_selectedBy (names : list string)
  (recs : list OpenInstallationRecipe) :
  fold_left
    (fun integrationsForInstall selectedIntegrationName =>
       fold_left
         (fun integrationsForInstall r =>
            if String.eqb (DisplayName r) selectedIntegrationName
            then integrationsForInstall ++ [r]
            else integrationsForInstall)
         recs integrationsForInstall)
    names []
  = selectedBy names recs.
Proof.
  unfold selectedBy.
  rewrite (fold_left_pointwise _
             (fun acc name =>
                acc ++ filter (fun r => String.eqb (DisplayName r) name) recs)).
  - now rewrite fold_left_app_each.
  - intros acc name.
    rewrite (fold_left_pointwise _
               (fun acc r =>
                  acc ++ (if String.eqb (DisplayName r) name then [r] else []))).
    + rewrite fold_left_app_each. f_equal.
      induction recs as [|r recs IH]; cbn; [reflexivity|].
      rewrite IH. now destruct (String.eqb (DisplayName r) name).
    + intros acc' r. destruct (String.eqb (DisplayName r) name);
        [reflexivity | now rewrite app_nil_r].
Qed.

(** [filterIntegrations] in one equation. *)
Lemma filterIntegrations_run (recs : list OpenInstallationRecipe) (i : Installer) :
  filterIntegrations LoggingRecipeName recs i
  = match selectNames recs i with
    | (i2, ok names) =>
        (markUnselected LoggingRecipeName
           (unselectedOf (candidatesOf recs i) (selectedBy names recs)) i2,
         ok (selectedBy names recs))
    | (i2, fail err) => (i2, fail err)
    end.
Proof.
  unfold filterIntegrations, selectNames.
  unfold bind at 1. rewrite candidate_loop. cbn [app].
  fold (candidatesOf recs i). fold (afterCandidates recs i).
  rewrite displayNames_map.
  unfold bind at 1, gets at 1.
  replace (AssumeYes (afterCandidates recs i)) with (AssumeYes i) by reflexivity.
  unfold bind at 1.
  destruct (AssumeYes i).
  - unfold ret at 1. rewrite integrationsForInstall_selectedBy.
    unfold bind at 1. rewrite unselected_loop. reflexivity.
  - destruct (Nat.ltb 0 (List.length (map DisplayName (candidatesOf recs i)))).
    + destruct (call _ (afterCandidates recs i)) as [i2 [names|err]];
        [|reflexivity].
      rewrite integrationsForInstall_selectedBy.
      unfold bind at 1. rewrite unselected_loop. reflexivity.
    + unfold ret at 1. rewrite integrationsForInstall_selectedBy.
      unfold bind at 1. rewrite unselected_loop. reflexivity.
Qed.

End FilterIntegrationsFacts.

(** *** Counting notifications *)

Lemma count_occ_filter_recipes (f : OpenInstallationRecipe -> bool)
  (l : list OpenInstallationRecipe) (x : OpenInstallationRecipe) :
  count_occ OpenInstallationRecipe_eq_dec (filter f l) x
  = if f x then count_occ OpenInstallationRecipe_eq_dec l x else 0.
Proof.
  induction l as [|y l IH]; simpl.
  - now destruct (f x).
  - destruct (OpenInstallationRecipe_eq_dec y x) as [->|Hne].
    + destruct (f x) eqn:Efx; simpl.
      * destruct (OpenInstallationRecipe_eq_dec x x); [lia | congruence].
      * exact IH.
    + destruct (f y); simpl; [|exact IH].
      destruct (OpenInstallationRecipe_eq_dec y x); [congruence | exact IH].
Qed.

Lemma skipEvent_inj (r r' : OpenInstallationRecipe) :
  skipEvent r = skipEvent r' -> r = r'.
Proof. unfold skipEvent, recipeEvent. congruence. Qed.

Lemma count_occ_skipEvents (l : list OpenInstallationRecipe)
  (x : OpenInstallationRecipe) :
  count_occ StatusNotification_eq_dec (map skipEvent l) (skipEvent x)
  = count_occ OpenInstallationRecipe_eq_dec l x.
Proof.
  induction l as [|y l IH]; simpl; [reflexivity|].
  destruct (StatusNotification_eq_dec (skipEvent y) (skipEvent x)) as [E|N];
    destruct (OpenInstallationRecipe_eq_dec y x) as [E'|N'].
  - now rewrite IH.
  - apply skipEvent_inj in E. contradiction.
  - subst. contradiction.
  - exact IH.
Qed.

Lemma Forall_skipEvents (l : list OpenInstallationRecipe) :
  Forall (fun n : StatusNotification => fst n = SKIPPED) (map skipEvent l).
Proof. apply Forall_map. now apply Forall_forall. Qed.

(** *** What [filterIntegrations] reports *)

Section FilterIntegrationsReports.

Context {Env : Type} {prompter : Prompter Env}.
Variable LoggingRecipeName : string.

Let Installer : Type := RecipeInstaller Env.

Lemma selectNames_state (recs : list OpenInstallationRecipe) (i : Installer) :
  let i2 := fst (selectNames recs i) in
  status i2 = status (afterCandidates recs i)
  /\ SkipLoggingInstall i2 = SkipLoggingInstall i
  /\ SkipIntegrations i2 = SkipIntegrations i.
Proof.
  unfold selectNames. cbn zeta.
  destruct (AssumeYes i); [now cbn|].
  destruct (Nat.ltb 0 _); [|now cbn].
  unfold call. destruct (MultiSelect _ _ _). now cbn.
Qed.

Lemma selectNames_skipIntegrations (recs : list OpenInstallationRecipe)
  (i : Installer) :
  SkipIntegrations i = true ->
  candidatesOf recs i = [] /\ snd (selectNames recs i) = ok [].
Proof.
  intros Hs.
  assert (Hc : candidatesOf recs i = []).
  { unfold candidatesOf, isInstallCandidate. rewrite Hs.
    induction recs as [|r recs IH]; cbn; [reflexivity|].
    now rewrite andb_false_r. }
  split; [exact Hc|].
  unfold selectNames. rewrite Hc. cbn. now destruct (AssumeYes i).
Qed.

(** The notifications of a call of [filterIntegrations]: the recipes
    excluded by a directive, then, when the selection was made, the
    candidates that were not selected. *)
Lemma filterIntegrations_notified (recs : list OpenInstallationRecipe)
  (i i' : Installer) (res : result (list OpenInstallationRecipe)) :
  filterIntegrations LoggingRecipeName recs i = (i', res) ->
  exists unselected,
    Notified (status i')
    = Notified (status i)
        ++ map skipEvent
             (filter (excludedByDirective (SkipIntegrations i) (SkipApm i)) recs
                ++ unselected)
    /\ (forall r, In r unselected -> In r (candidatesOf recs i))
    /\ (forall sel, res = ok sel ->
          unselected = unselectedOf (candidatesOf recs i) sel).
Proof.
  rewrite filterIntegrations_run.
  destruct (selectNames_state recs i) as (Hst & _ & _).
  destruct (selectNames recs i) as [i2 [names|err]]; cbn [fst] in Hst;
    intros [= <- <-].
  - exists (unselectedOf (candidatesOf recs i) (selectedBy names recs)).
    repeat split.
    + unfold markUnselected. cbn. rewrite Hst. cbn.
      now rewrite <- skipAll_app, Notified_skipAll.
    + intros r Hr. unfold unselectedOf in Hr. now apply filter_In in Hr.
    + now intros names' [= <-].
  - exists []. repeat split.
    + rewrite Hst. cbn. now rewrite app_nil_r, Notified_skipAll.
    + intros r [].
    + discriminate.
Qed.

End FilterIntegrationsReports.


(** *** A small program logic for [M] *)

Section Steps.

Context {St : Type}.
Variable R : St -> St -> Prop.
Hypothesis R_refl : forall s, R s s.
Hypothesis R_trans : forall a b c, R a b -> R b c -> R a c.

Lemma steps_ret (A : Type) (a : A) : steps R (ret a).
Proof. intros s s' r [= <- _]. apply R_refl. Qed.

Lemma steps_throw (A : Type) (e : error) : steps R (@throw St A e).
Proof. intros s s' r [= <- _]. apply R_refl. Qed.

Lemma steps_gets (A : Type) (f : St -> A) : steps R (gets f).
Proof. intros s s' r [= <- _]. apply R_refl. Qed.

Lemma steps_modify (f : St -> St) :
  (forall s, R s (f s)) -> steps R (modify f).
Proof. intros H s s' r [= <- _]. apply H. Qed.

Lemma steps_bind (A B : Type) (c : M St A) (k : A -> M St B) :
  steps R c -> (forall a, steps R (k a)) -> steps R (bind c k).
Proof.
  intros Hc Hk s s' r. unfold bind.
  destruct (c s) as [s1 [a|e]] eqn:Ec.
  - intros Hka. eapply R_trans; [eapply Hc; exact Ec | eapply Hk; exact Hka].
  - intros [= <- _]. eapply Hc; exact Ec.
Qed.

Lemma steps_attempt (A : Type) (c : M St A) : steps R c -> steps R (attempt c).
Proof.
  intros Hc s s' r. unfold attempt.
  destruct (c s) as [s1 r1] eqn:Ec. intros [= <- _]. eapply Hc; exact Ec.
Qed.

Lemma steps_forRange (A S : Type) (xs : list A) (body : A -> S -> M St S) :
  (forall x acc, steps R (body x acc)) -> forall acc, steps R (forRange xs acc body).
Proof.
  intros Hb. induction xs as [|x xs IH]; intros acc; cbn.
  - apply steps_ret.
  - apply steps_bind; [apply Hb | intros acc'; apply IH].
Qed.

End Steps.

Lemma extends_refl (P : StatusNotification -> Prop) (s : InstallStatus) :
  extends P s s.
Proof. exists []. split; [now rewrite app_nil_r | constructor]. Qed.

Lemma extends_trans (P : StatusNotification -> Prop) (a b c : InstallStatus) :
  extends P a b -> extends P b c -> extends P a c.
Proof.
  intros (e1 & H1 & F1) (e2 & H2 & F2). exists (e1 ++ e2). split.
  - now rewrite H2, H1, app_assoc.
  - apply Forall_app. now split.
Qed.

Lemma extends_notify (P : StatusNotification -> Prop) (t : RecipeStatusType)
  (e : RecipeStatusEvent) (s : InstallStatus) :
  P (t, e) -> extends P s (notify t e s).
Proof. intros H. exists [(t, e)]. split; [reflexivity | now constructor]. Qed.

Lemma extends_notifyAll (P : StatusNotification -> Prop) (t : RecipeStatusType)
  (rs : list OpenInstallationRecipe) (s : InstallStatus) :
  (forall r, P (t, recipeEvent r)) ->
  extends P s (fold_left (fun s r => notify t (recipeEvent r) s) rs s).
Proof.
  intros H. exists (map (fun r => (t, recipeEvent r)) rs). split.
  - apply Notified_notifyAll.
  - apply Forall_map, Forall_forall. intros r _. apply H.
Qed.

Lemma extends_withEntityGUID (P : StatusNotification -> Prop) (guid : string)
  (s : InstallStatus) :
  extends P s (withEntityGUID guid s).
Proof.
  unfold withEntityGUID. destruct (existsb _ _); [apply extends_refl|].
  exists []. split; [cbn; now rewrite app_nil_r | constructor].
Qed.

Section InstallerSteps.

Context {Env : Type}.

Let Installer : Type := RecipeInstaller Env.

Lemma reports_refl (P : StatusNotification -> Prop) (i : Installer) :
  reports P i i.
Proof. apply extends_refl. Qed.

Lemma reports_trans (P : StatusNotification -> Prop) (a b c : Installer) :
  reports P a b -> reports P b c -> reports P a c.
Proof. apply extends_trans. Qed.

Lemma keepsSkipLogging_refl (i : Installer) : keepsSkipLogging i i.
Proof. reflexivity. Qed.

Lemma keepsSkipLogging_trans (a b c : Installer) :
  keepsSkipLogging a b -> keepsSkipLogging b c -> keepsSkipLogging a c.
Proof. unfold keepsSkipLogging. congruence. Qed.

Lemma reports_call (P : StatusNotification -> Prop) (A : Type)
  (f : Env -> Env * result A) :
  steps (reports P) (call f : M Installer A).
Proof.
  intros i i' r. unfold call. destruct (f (env i)). intros [= <- _].
  apply extends_refl.
Qed.

Lemma keepsSkipLogging_call (A : Type) (f : Env -> Env * result A) :
  steps keepsSkipLogging (call f : M Installer A).
Proof.
  intros i i' r. unfold call. destruct (f (env i)). now intros [= <- _].
Qed.

Lemma reports_onStatus (P : StatusNotification -> Prop)
  (f : InstallStatus -> InstallStatus) :
  (forall s, extends P s (f s)) ->
  steps (reports P) (onStatus f : M Installer unit).
Proof. intros H i i' r [= <- _]. apply H. Qed.

Lemma keepsSkipLogging_onStatus (f : InstallStatus -> InstallStatus) :
  steps keepsSkipLogging (onStatus f : M Installer unit).
Proof. now intros i i' r [= <- _]. Qed.

Lemma reports_setSkipLoggingInstall (P : StatusNotification -> Prop) (b : bool) :
  steps (reports P) (modify (setSkipLoggingInstall b) : M Installer unit).
Proof. intros i i' r [= <- _]. apply extends_refl. Qed.

End InstallerSteps.

Lemma extends_weaken (P Q : StatusNotification -> Prop) (s s' : InstallStatus) :
  (forall n, P n -> Q n) -> extends P s s' -> extends Q s s'.
Proof.
  intros H (emitted & Hn & Hall). exists emitted. split; [exact Hn|].
  eapply Forall_impl; [exact H | exact Hall].
Qed.

Lemma steps_weaken (St A : Type) (R R' : St -> St -> Prop) (c : M St A) :
  (forall s s', R s s' -> R' s s') -> steps R c -> steps R' c.
Proof. intros H Hc s s' r E. apply H. eapply Hc; exact E. Qed.

(** One rule of the logic, chosen by the shape of the computation; [refl]
    and [trans] are the two facts about the relation, [leaf] closes the
    calls and status updates. *)
Ltac steps_rule refl trans leaf :=
  lazymatch goal with
  | |- steps _ (ret _) => apply steps_ret; apply refl
  | |- steps _ (throw _) => apply steps_throw; apply refl
  | |- steps _ (gets _) => apply steps_gets; apply refl
  | |- steps _ (bind _ _) => apply steps_bind; [apply trans | | intros ?]
  | |- steps _ (attempt _) => apply steps_attempt
  | |- steps _ (forRange _ _ _) =>
      apply steps_forRange; [apply refl | apply trans | intros ? ?]
  | |- steps _ (if ?b then _ else _) => destruct b
  | |- steps _ (match ?r with ok _ => _ | fail _ => _ end) => destruct r
  | |- _ => leaf
  end.

Ltac reports_leaf :=
  first
    [ apply reports_call
    | apply reports_setSkipLoggingInstall
    | apply reports_onStatus; intros ?;
      first [ apply extends_withEntityGUID
            | apply extends_notify; cbn; auto
            | apply extends_notifyAll; intros ?; cbn; auto ] ].

Ltac reports_steps := repeat steps_rule reports_refl reports_trans reports_leaf.

Ltac keepsSkipLogging_leaf :=
  first [ apply keepsSkipLogging_call | apply keepsSkipLogging_onStatus ].

Ltac keepsSkipLogging_steps :=
  repeat steps_rule keepsSkipLogging_refl keepsSkipLogging_trans
    keepsSkipLogging_leaf.

(** *** What the methods of the installer report *)

Section InstallerReports.

Context {Env Manifest : Type}.
Context {recipeFetcher : RecipeFetcher Env Manifest}.
Context {recipeExecutor : RecipeExecutor Env Manifest}.
Context {recipeValidator : RecipeValidator Env Manifest}.
Context {prompter : Prompter Env}.
Context {fileFilterer : FileFilterer Env}.
Variable InfraAgentRecipeName : string.
Variable LoggingRecipeName : string.

(** The execution unit reports on the recipe it was given, and only
    INSTALLING, FAILED or INSTALLED. *)
Lemma reports_executeAndValidateWithProgress (m : Manifest)
  (r : OpenInstallationRecipe) :
  steps
    (reports (fun n => Recipe (snd n) = r
                       /\ In (fst n) [INSTALLING; INSTALLED; FAILED]))
    (executeAndValidateWithProgress m r).
Proof. unfold executeAndValidateWithProgress. reports_steps. Qed.

Lemma keepsSkipLogging_executeAndValidateWithProgress (m : Manifest)
  (r : OpenInstallationRecipe) :
  steps keepsSkipLogging (executeAndValidateWithProgress m r).
Proof. unfold executeAndValidateWithProgress. keepsSkipLogging_steps. Qed.

(** The selection reports AVAILABLE, SKIPPED and SELECTED only. *)
Lemma reports_guidedInstallSelect (m : Manifest) :
  steps
    (reports (fun n => In (fst n) [AVAILABLE; SKIPPED; SELECTED]))
    (guidedInstallSelect InfraAgentRecipeName LoggingRecipeName m).
Proof.
  unfold guidedInstallSelect, fetchRecipeAndReportAvailable,
    fetchRecommendations, filterIntegrations, RecipesAvailable, RecipesSelected.
  reports_steps.
Qed.

Lemma keepsSkipLogging_guidedInstallInfra (m : Manifest)
  (l : guidedInstallLocals) :
  steps keepsSkipLogging (guidedInstallInfra m l).
Proof.
  unfold guidedInstallInfra, executeAndValidateWithProgress.
  keepsSkipLogging_steps.
Qed.

End InstallerReports.

(** ** Main results *)

Unset Implicit Arguments.

(** *** [removeRecipes] *)

(** C10.  [removeRecipes recipes remove] holds every input recipe, in input
    order, once per removal target whose [Name] differs from its own: an
    input recipe occurs in the result as often as it occurs in the input
    times the number of such targets.  With one target the result is the
    input without the recipes of that [Name], order preserved; with [k >= 2]
    targets a recipe that matches none of them occurs [k] times per
    occurrence in the input. *)
Theorem removeRecipes_multiplicity :
  forall recipes remove : list OpenInstallationRecipe,
    1 <= List.length remove ->
    removeRecipes recipes remove
    = flat_map (fun recipe => repeat recipe (differingTargets recipe remove)) recipes
    /\ (forall x,
          count_occ OpenInstallationRecipe_eq_dec (removeRecipes recipes remove) x
          = count_occ OpenInstallationRecipe_eq_dec recipes x
            * differingTargets x remove)
    /\ (forall r, remove = [r] ->
          removeRecipes recipes remove
          = filter (fun recipe => negb (String.eqb (Name recipe) (Name r))) recipes)
    /\ (forall x,
          2 <= List.length remove ->
          (forall r, In r remove -> Name x <> Name r) ->
          count_occ OpenInstallationRecipe_eq_dec (removeRecipes recipes remove) x
          = List.length remove * count_occ OpenInstallationRecipe_eq_dec recipes x).
Proof.
  intros recipes remove _. repeat split.
  - apply removeRecipes_flat_map.
  - intros x. apply removeRecipes_count_occ.
  - intros r ->. rewrite removeRecipes_flat_map.
    induction recipes as [|y recipes IH]; simpl; [reflexivity|].
    rewrite IH. unfold differingTargets; simpl.
    now destruct (negb (Name y =? Name r)%string).
  - intros x _ Hx. rewrite removeRecipes_count_occ, (differingTargets_all _ _ Hx).
    lia.
Qed.

(** *** The directives of [filterIntegrations] *)

Section FilterIntegrationsDirectives.

Context {Env : Type} {prompter : Prompter Env}.
Variable LoggingRecipeName : string.

(** C7 (amended).  Whatever the selection answers, [filterIntegrations]
    emits nothing but SKIPPED notifications, hence no INSTALLING and no
    INSTALLED one.  A recipe excluded by the skip-all-integrations
    directive, or by the skip-APM directive as an APM-classified recipe, is
    marked SKIPPED exactly once per occurrence in the recommended list; a
    recipe left out as application-scoped and not APM is not marked at
    all.  Under the skip-all-integrations directive nothing is selected. *)
Theorem filterIntegrations_directive_skips :
  forall (recs : list OpenInstallationRecipe) (i i' : RecipeInstaller Env)
         (res : result (list OpenInstallationRecipe))
         (r : OpenInstallationRecipe),
    filterIntegrations LoggingRecipeName recs i = (i', res) ->
    exists emitted,
      Notified (status i') = Notified (status i) ++ emitted
      /\ Forall (fun n : StatusNotification => fst n = SKIPPED) emitted
      /\ (excludedByDirective (SkipIntegrations i) (SkipApm i) r = true ->
          count_occ StatusNotification_eq_dec emitted (skipEvent r)
          = count_occ OpenInstallationRecipe_eq_dec recs r)
      /\ (applicationOnly r = true ->
          count_occ StatusNotification_eq_dec emitted (skipEvent r) = 0)
      /\ (SkipIntegrations i = true -> res = ok []).
Proof.
  intros recs i i' res r Hrun.
  destruct (filterIntegrations_notified _ _ _ Hrun) as (uns & Hn & Hc & _).
  assert (Huns : isInstallCandidate (SkipIntegrations i) (SkipApm i) r = false ->
                 count_occ OpenInstallationRecipe_eq_dec uns r = 0).
  { intros Hr. apply count_occ_not_In. intros Hin.
    apply Hc in Hin. unfold candidatesOf in Hin. apply filter_In in Hin.
    destruct Hin as [_ Hin]. congruence. }
  eexists. split; [exact Hn|]. repeat split.
  - apply Forall_skipEvents.
  - intros Hex. rewrite count_occ_skipEvents, count_occ_app,
      count_occ_filter_recipes, Hex, Huns; [lia|].
    unfold excludedByDirective, isInstallCandidate in *.
    destruct (applicationOnly r), (SkipIntegrations i), (SkipApm i && IsApm r);
      cbn in *; congruence.
  - intros Hap. rewrite count_occ_skipEvents, count_occ_app,
      count_occ_filter_recipes, Huns.
    + unfold excludedByDirective. now rewrite Hap.
    + unfold isInstallCandidate. now rewrite Hap.
  - intros Hs. rewrite filterIntegrations_run in Hrun.
    destruct (selectNames_skipIntegrations recs i Hs) as [_ Hsel].
    destruct (selectNames recs i) as [i2 [names|err]]; cbn in Hsel;
      [|discriminate].
    injection Hsel as ->. now injection Hrun as _ <-.
Qed.

End FilterIntegrationsDirectives.

(** The run behind the two lemmas below: skip-APM is set, and the
    recommended list holds the logging recipe, an APM recipe, an
    application-only recipe and a host recipe. *)
Lemma filterIntegrations_directive_skips_witness :
  let recs := [Mock.logsRecipe; Mock.apmRecipe; Mock.applicationRecipe;
               Mock.recommendedRecipe] in
  let i := Mock.installerWith true false true Mock.guidedEnv in
  let run := filterIntegrations Mock.LoggingRecipeName recs i in
  exists emitted,
    Notified (status (fst run)) = Notified (status i) ++ emitted
    /\ Forall (fun n : StatusNotification => fst n = SKIPPED) emitted
    /\ count_occ StatusNotification_eq_dec emitted (skipEvent Mock.apmRecipe) = 1.
Proof.
  intros recs i run.
  destruct (filterIntegrations_directive_skips Mock.LoggingRecipeName recs i
              (fst run) (snd run) Mock.apmRecipe (surjective_pairing run))
    as (emitted & Hn & Hall & Hex & _ & _).
  exists emitted. repeat split; [exact Hn | exact Hall |].
  rewrite Hex; reflexivity.
Defined.

(** C7, as stated, fails: an application-scoped recipe that is not APM is
    left out of the candidates, is not selected, and no SKIPPED
    notification is emitted for it. *)
Lemma filterIntegrations_application_only_not_skipped :
  let recs := [Mock.applicationRecipe; Mock.recommendedRecipe] in
  let i := Mock.withEnv Mock.guidedEnv in
  let run := filterIntegrations Mock.LoggingRecipeName recs i in
  In Mock.applicationRecipe recs
  /\ applicationOnly Mock.applicationRecipe = true
  /\ snd run = ok [Mock.recommendedRecipe]
  /\ Notified (status (fst run)) = []
  /\ count_occ StatusNotification_eq_dec (Notified (status (fst run)))
       (skipEvent Mock.applicationRecipe) <> 1.
Proof.
  cbv zeta. repeat split; try reflexivity.
  - now left.
  - vm_compute. discriminate.
Qed.

(** *** [guidedInstall] *)

Section GuidedInstallFacts.

Context {Env Manifest : Type}.
Context {recipeFetcher : RecipeFetcher Env Manifest}.
Context {recipeExecutor : RecipeExecutor Env Manifest}.
Context {recipeValidator : RecipeValidator Env Manifest}.
Context {prompter : Prompter Env}.
Context {fileFilterer : FileFilterer Env}.
Variable InfraAgentRecipeName : string.
Variable LoggingRecipeName : string.

Let Installer : Type := RecipeInstaller Env.

Variable installRecipes :
  Manifest -> list OpenInstallationRecipe -> M Installer unit.

(** The execution unit fails with the error of the executor. *)
Lemma executeAndValidateWithProgress_execute_fails (m : Manifest)
  (r : OpenInstallationRecipe) (i : Installer) (env1 env2 : Env)
  (vars : RecipeVars) (e : error) :
  Prepare m r (AssumeYes i) (LicenseKey i) (env i) = (env1, ok vars) ->
  Execute m r vars env1 = (env2, fail e) ->
  snd (executeAndValidateWithProgress m r i) = fail e.
Proof.
  intros Hp He. unfold executeAndValidateWithProgress, bind, attempt, onStatus,
    modify, gets, call, throw. cbn. rewrite Hp. cbn. rewrite He. reflexivity.
Qed.

(** The execution unit fails with the error of the validator. *)
Lemma executeAndValidateWithProgress_validate_fails (m : Manifest)
  (r : OpenInstallationRecipe) (i : Installer) (env1 env2 env3 : Env)
  (vars : RecipeVars) (e : error) :
  Prepare m r (AssumeYes i) (LicenseKey i) (env i) = (env1, ok vars) ->
  Execute m r vars env1 = (env2, ok tt) ->
  Validate m r env2 = (env3, fail e) ->
  snd (executeAndValidateWithProgress m r i) = fail e.
Proof.
  intros Hp He Hv. unfold executeAndValidateWithProgress, bind, attempt,
    onStatus, modify, gets, call, throw. cbn. rewrite Hp. cbn. rewrite He. cbn.
  rewrite Hv. reflexivity.
Qed.

(** C2.  When the execution unit fails on the infra agent recipe,
    [guidedInstall] returns that error in the state the failure left: no
    later phase runs.  Every INSTALLING notification of the run is for the
    infra agent recipe, so no integration was attempted. *)
Theorem guidedInstall_infra_failure_aborts :
  forall (m : Manifest) (i i1 i2 : Installer) (l : guidedInstallLocals)
         (e : error),
    guidedInstallSelect InfraAgentRecipeName LoggingRecipeName m i = (i1, ok l) ->
    executeAndValidateWithProgress m (infraAgentRecipe l) i1 = (i2, fail e) ->
    guidedInstall InfraAgentRecipeName LoggingRecipeName installRecipes m i
    = (i2, fail e)
    /\ exists emitted,
         Notified (status i2) = Notified (status i) ++ emitted
         /\ Forall (fun n : StatusNotification =>
                      fst n = INSTALLING -> Recipe (snd n) = infraAgentRecipe l)
              emitted.
Proof.
  intros m i i1 i2 l e Hsel Hexec. split.
  - unfold guidedInstall, bind at 1. rewrite Hsel.
    unfold bind at 1, guidedInstallInfra, bind at 1. now rewrite Hexec.
  - apply (reports_trans (b := i1)).
    + pose proof (reports_guidedInstallSelect InfraAgentRecipeName
                    LoggingRecipeName m) as Hrep.
      apply Hrep in Hsel. revert Hsel. apply extends_weaken.
      cbn. intros n [E|[E|[E|[]]]] Hn; congruence.
    + pose proof (reports_executeAndValidateWithProgress m (infraAgentRecipe l))
        as Hrep.
      apply Hrep in Hexec. revert Hexec. apply extends_weaken.
      cbn. now intros n [E _] _.
Qed.

(** C3.  When [installRecipes] fails on the selected integrations,
    [guidedInstall] returns nil unless the error is the interrupt, which it
    returns as it is. *)
Theorem guidedInstall_integrations_failure :
  forall (m : Manifest) (i i3 i4 : Installer) (l : guidedInstallLocals)
         (e : error),
    guidedInstallMandatory InfraAgentRecipeName LoggingRecipeName m i = (i3, ok l) ->
    ShouldInstallIntegrations i3 = true ->
    installRecipes m (selectedIntegrations l) i3 = (i4, fail e) ->
    (e <> ErrInterrupt ->
     guidedInstall InfraAgentRecipeName LoggingRecipeName installRecipes m i
     = (i4, ok tt))
    /\ (e = ErrInterrupt ->
        guidedInstall InfraAgentRecipeName LoggingRecipeName installRecipes m i
        = (i4, fail ErrInterrupt)).
Proof.
  intros m i i3 i4 l e Hman Hshould Hinst.
  assert (Hrun : guidedInstall InfraAgentRecipeName LoggingRecipeName
                   installRecipes m i
                 = (i4, if isErrInterrupt e then fail e else ok tt)).
  { unfold guidedInstallMandatory, bind at 1 in Hman.
    unfold guidedInstall, bind at 1.
    destruct (guidedInstallSelect _ _ m i) as [i1 [l'|e1]]; [|discriminate].
    unfold bind at 1 in Hman. unfold bind at 1.
    destruct (guidedInstallInfra m l' i1) as [i2 [[]|e2]]; [|discriminate].
    unfold bind at 1 in Hman. unfold bind at 1.
    destruct (guidedInstallLogging m l' i2) as [i3' [[]|e3]]; [|discriminate].
    injection Hman as -> ->.
    unfold guidedInstallIntegrations, bind at 1, gets at 1.
    rewrite Hshould. unfold bind at 1, attempt. rewrite Hinst.
    now destruct (isErrInterrupt e). }
  split.
  - intros Hne. rewrite Hrun. destruct e; cbn; congruence.
  - intros ->. exact Hrun.
Qed.

End GuidedInstallFacts.

(** *** The candidates that were not selected *)

Section UnselectedCandidates.

Context {Env Manifest : Type}.
Context {recipeFetcher : RecipeFetcher Env Manifest}.
Context {recipeExecutor : RecipeExecutor Env Manifest}.
Context {recipeValidator : RecipeValidator Env Manifest}.
Context {prompter : Prompter Env}.
Context {fileFilterer : FileFilterer Env}.
Variable InfraAgentRecipeName : string.
Variable LoggingRecipeName : string.

Let Installer : Type := RecipeInstaller Env.

Variable installRecipes :
  Manifest -> list OpenInstallationRecipe -> M Installer unit.



End UnselectedCandidates.

(** *** The theorems on [guidedInstall], on the fixtures *)

(** The executor fails on the infra agent recipe: the run ends with its
    error, and only the infra agent recipe was executed. *)
Lemma guidedInstall_infra_failure_aborts_witness :
  let i := Mock.withEnv Mock.infraFailsEnv in
  let sel := guidedInstallSelect Mock.InfraAgentRecipeName
               Mock.LoggingRecipeName tt i in
  let l := Mock.okOr Mock.noLocals (snd sel) in
  let i2 := fst (executeAndValidateWithProgress tt (infraAgentRecipe l) (fst sel)) in
  guidedInstall Mock.InfraAgentRecipeName Mock.LoggingRecipeName
    Mock.installRecipesFailFast tt i
  = (i2, fail (errorString "execution failed"))
  /\ exists emitted,
       Notified (status i2) = Notified (status i) ++ emitted
       /\ Forall (fun n : StatusNotification =>
                    fst n = INSTALLING -> Recipe (snd n) = infraAgentRecipe l)
            emitted.
Proof.
  intros i sel l i2.
  apply (guidedInstall_infra_failure_aborts Mock.InfraAgentRecipeName
           Mock.LoggingRecipeName Mock.installRecipesFailFast tt i (fst sel) i2 l).
  - vm_compute. reflexivity.
  - vm_compute. reflexivity.
Defined.

(** The executor fails on the recommended recipe, first with an ordinary
    error, then with the interrupt. *)
Lemma guidedInstall_integrations_failure_witness :
  (let i := Mock.withEnv Mock.recommendedFailsEnv in
   let man := guidedInstallMandatory Mock.InfraAgentRecipeName
                Mock.LoggingRecipeName tt i in
   let l := Mock.okOr Mock.noLocals (snd man) in
   let i4 := fst (Mock.installRecipesFailFast tt (selectedIntegrations l) (fst man)) in
   guidedInstall Mock.InfraAgentRecipeName Mock.LoggingRecipeName
     Mock.installRecipesFailFast tt i
   = (i4, ok tt))
  /\ (let i := Mock.withEnv Mock.recommendedInterruptedEnv in
      let man := guidedInstallMandatory Mock.InfraAgentRecipeName
                   Mock.LoggingRecipeName tt i in
      let l := Mock.okOr Mock.noLocals (snd man) in
      let i4 := fst (Mock.installRecipesFailFast tt (selectedIntegrations l) (fst man)) in
      guidedInstall Mock.InfraAgentRecipeName Mock.LoggingRecipeName
        Mock.installRecipesFailFast tt i
      = (i4, fail ErrInterrupt)).
Proof.
  split.
  - intros i man l i4.
    refine (proj1 (guidedInstall_integrations_failure Mock.InfraAgentRecipeName
                     Mock.LoggingRecipeName Mock.installRecipesFailFast tt i
                     (fst man) i4 l (errorString "execution failed") _ _ _) _).
    + vm_compute. reflexivity.
    + vm_compute. reflexivity.
    + vm_compute. reflexivity.
    + discriminate.
  - intros i man l i4.
    refine (proj2 (guidedInstall_integrations_failure Mock.InfraAgentRecipeName
                     Mock.LoggingRecipeName Mock.installRecipesFailFast tt i
                     (fst man) i4 l ErrInterrupt _ _ _) _).
    + vm_compute. reflexivity.
    + vm_compute. reflexivity.
    + vm_compute. reflexivity.
    + reflexivity.
Defined.


(** *** [removeRecipes], on the fixtures *)

(** One removal target, then two. *)
Lemma removeRecipes_multiplicity_witness :
  removeRecipes [Mock.infraRecipe; Mock.logsRecipe; Mock.recommendedRecipe]
    [Mock.logsRecipe]
  = [Mock.infraRecipe; Mock.recommendedRecipe]
  /\ count_occ OpenInstallationRecipe_eq_dec
       (removeRecipes [Mock.infraRecipe; Mock.logsRecipe; Mock.recommendedRecipe]
          [Mock.logsRecipe; Mock.apmRecipe])
       Mock.infraRecipe
     = 2 * 1.
Proof.
  split.
  - destruct (removeRecipes_multiplicity
                [Mock.infraRecipe; Mock.logsRecipe; Mock.recommendedRecipe]
                [Mock.logsRecipe]) as (_ & _ & Hone & _).
    + cbn. lia.
    + rewrite (Hone Mock.logsRecipe eq_refl). reflexivity.
  - destruct (removeRecipes_multiplicity
                [Mock.infraRecipe; Mock.logsRecipe; Mock.recommendedRecipe]
                [Mock.logsRecipe; Mock.apmRecipe]) as (_ & _ & _ & Hmany).
    + cbn. lia.
    + apply Hmany.
      * cbn. lia.
      * intros r [<-|[<-|[]]]; discriminate.
Defined.

(** *** The scoped status reporter *)

Section ReporterFacts.

Import NerdStorage.

Context {C : Type} {client : NerdStorageClient C}.

(** The entity-scoped half of a report performs the write of every GUID
    and keeps the first failure. *)
Lemma writeEntityScopes_run (status : InstallStatus) (guids : list string)
  (firstErr : option error) (c : C) :
  forRange guids firstErr
    (fun guid firstErr =>
       res <- attempt (WriteDocumentWithEntityScope guid status) ;;
       ret (match firstErr, res with
            | Some err, _ => Some err
            | None, fail err => Some err
            | None, ok _ => None
            end)) c
  = (afterEntityScopeWrites guids status c,
     ok (match firstErr with
         | Some err => Some err
         | None => firstFailure (entityScopeOutcomes guids status c)
         end)).
Proof.
  revert firstErr c; induction guids as [|guid guids IH]; intros firstErr c.
  - cbn. unfold ret. now destruct firstErr.
  - cbn [forRange afterEntityScopeWrites entityScopeOutcomes].
    unfold bind at 1, bind at 1, attempt at 1.
    destruct (WriteDocumentWithEntityScope guid status c) as [c' r].
    unfold ret at 1. rewrite IH. cbn [fst firstFailure].
    destruct firstErr as [err|]; [reflexivity|].
    now destruct r.
Qed.

(** A report in one equation. *)
Lemma writeStatus_run (status : InstallStatus) (c : C) :
  writeStatus status c
  = let (c1, userRes) := WriteDocumentWithUserScope status c in
    (afterEntityScopeWrites (EntityGUIDs status) status c1,
     match userRes, firstFailure (entityScopeOutcomes (EntityGUIDs status) status c1) with
     | fail err, _ => fail err
     | ok _, Some err => fail err
     | ok _, None => ok tt
     end).
Proof.
  unfold writeStatus, writeEntityScopes, bind at 1, attempt at 1.
  destruct (WriteDocumentWithUserScope status c) as [c1 userRes].
  unfold bind at 1. rewrite writeEntityScopes_run.
  destruct userRes as [[]|err]; [|reflexivity].
  now destruct (firstFailure _).
Qed.

Lemma firstFailure_In (outcomes : list (result unit)) (e : error) :
  In (fail e) outcomes -> exists e', firstFailure outcomes = Some e'.
Proof.
  induction outcomes as [|[[]|e0] outcomes IH]; cbn.
  - intros [].
  - intros [H|H]; [discriminate | now apply IH].
  - intros _. now exists e0.
Qed.

Lemma entityScopeOutcomes_length (guids : list string) (status : InstallStatus)
  (c : C) :
  List.length (entityScopeOutcomes guids status c) = List.length guids.
Proof.
  revert c; induction guids as [|guid guids IH]; intros c; cbn; [reflexivity|].
  destruct (WriteDocumentWithEntityScope guid status c). cbn. now rewrite IH.
Qed.

End ReporterFacts.

Section MockReporterFacts.

Import NerdStorage.

(** On the test double the entity-scoped writes only move the counter of
    their scope, by one per GUID. *)
Lemma mock_afterEntityScopeWrites (guids : list string) (status : InstallStatus)
  (c : MockNerdStorageClient) :
  let c' := afterEntityScopeWrites guids status c in
  writeDocumentWithUserScopeCallCount c' = writeDocumentWithUserScopeCallCount c
  /\ writeDocumentWithEntityScopeCallCount c'
     = writeDocumentWithEntityScopeCallCount c + List.length guids.
Proof.
  revert c; induction guids as [|guid guids IH]; intros c; cbn.
  - split; [reflexivity | lia].
  - destruct (IH (fst (WriteDocumentWithEntityScope guid status c))) as [Hu He].
    cbn in Hu, He. split; [exact Hu | rewrite He; lia].
Qed.

Lemma mock_writeStatus (status : InstallStatus) (c : MockNerdStorageClient) :
  let c' := fst (writeStatus status c) in
  writeDocumentWithUserScopeCallCount c'
  = S (writeDocumentWithUserScopeCallCount c)
  /\ writeDocumentWithEntityScopeCallCount c'
     = writeDocumentWithEntityScopeCallCount c
       + List.length (EntityGUIDs status).
Proof.
  cbn zeta. rewrite writeStatus_run.
  destruct (mock_afterEntityScopeWrites (EntityGUIDs status) status
              (fst (WriteDocumentWithUserScope status c))) as [Hu He].
  cbn in Hu, He |- *. split; [exact Hu | exact He].
Qed.

End MockReporterFacts.

(** C1.  On the test double, a [RecipeInstalled] or [RecipeFailed] call
    performs one user-scoped write and one entity-scoped write per entity
    GUID known when it is made, whatever the writes return.  Over a
    sequence of registrations and reports, the user-scoped counter grows
    by the number of reports and the entity-scoped counter by the sum, over
    the reports, of the number of GUIDs known at that report. *)
Theorem reporter_write_counts :
  (forall (status : InstallStatus) (event : RecipeStatusEvent)
          (c : NerdStorage.MockNerdStorageClient),
      let installed := fst (NerdStorage.RecipeInstalled status event c) in
      let failed := fst (NerdStorage.RecipeFailed status event c) in
      NerdStorage.writeDocumentWithUserScopeCallCount installed
      = S (NerdStorage.writeDocumentWithUserScopeCallCount c)
      /\ NerdStorage.writeDocumentWithEntityScopeCallCount installed
         = NerdStorage.writeDocumentWithEntityScopeCallCount c
           + List.length (EntityGUIDs status)
      /\ NerdStorage.writeDocumentWithUserScopeCallCount failed
         = S (NerdStorage.writeDocumentWithUserScopeCallCount c)
      /\ NerdStorage.writeDocumentWithEntityScopeCallCount failed
         = NerdStorage.writeDocumentWithEntityScopeCallCount c
           + List.length (EntityGUIDs status))
  /\ (forall (steps : list NerdStorage.ReporterStep) (status : InstallStatus)
             (c : NerdStorage.MockNerdStorageClient),
        let '(_, c', results) := NerdStorage.runSteps steps status c in
        let known := NerdStorage.knownAtCalls steps status in
        List.length results = List.length known
        /\ NerdStorage.writeDocumentWithUserScopeCallCount c'
           = NerdStorage.writeDocumentWithUserScopeCallCount c + List.length known
        /\ NerdStorage.writeDocumentWithEntityScopeCallCount c'
           = NerdStorage.writeDocumentWithEntityScopeCallCount c + list_sum known).
Proof.
  split.
  - intros status event c. cbn zeta.
    unfold NerdStorage.RecipeInstalled, NerdStorage.RecipeFailed.
    destruct (mock_writeStatus status c) as [Hu He]. cbn zeta in Hu, He.
    now repeat split.
  - intros steps. induction steps as [|step steps IH]; intros status c.
    + cbn. repeat split; lia.
    + destruct step as [guid|event|event];
        cbn [NerdStorage.runSteps NerdStorage.knownAtCalls].
      * apply IH.
      * unfold NerdStorage.RecipeInstalled.
        destruct (mock_writeStatus status c) as [Hu He]. cbn zeta in Hu, He.
        destruct (NerdStorage.writeStatus status c) as [c1 r].
        cbn [fst] in Hu, He. specialize (IH status c1).
        destruct (NerdStorage.runSteps steps status c1) as [[status' c'] rs].
        cbn zeta in IH. destruct IH as (Hl & Hu' & He').
        cbn [List.length list_sum fold_right]. unfold list_sum in He'.
        repeat split; lia.
      * unfold NerdStorage.RecipeFailed.
        destruct (mock_writeStatus status c) as [Hu He]. cbn zeta in Hu, He.
        destruct (NerdStorage.writeStatus status c) as [c1 r].
        cbn [fst] in Hu, He. specialize (IH status c1).
        destruct (NerdStorage.runSteps steps status c1) as [[status' c'] rs].
        cbn zeta in IH. destruct IH as (Hl & Hu' & He').
        cbn [List.length list_sum fold_right]. unfold list_sum in He'.
        repeat split; lia.
Qed.

(** C6.  For any status store: if the user-scoped write of a
    [RecipeInstalled] or [RecipeFailed] call fails, or if one of its
    entity-scoped writes fails, the call returns an error.  Either way the
    store is left as the user-scoped write followed by the entity-scoped
    write of every known GUID leaves it: both halves are attempted. *)
Theorem report_fails_when_a_write_fails :
  forall (C : Type) (client : NerdStorage.NerdStorageClient C)
         (status : InstallStatus) (event : RecipeStatusEvent) (c c1 : C)
         (userRes : result unit),
    NerdStorage.WriteDocumentWithUserScope status c = (c1, userRes) ->
    (exists e, userRes = fail e)
    \/ (exists e,
          In (fail e)
            (NerdStorage.entityScopeOutcomes (EntityGUIDs status) status c1)) ->
    (exists e, snd (NerdStorage.RecipeInstalled status event c) = fail e)
    /\ (exists e, snd (NerdStorage.RecipeFailed status event c) = fail e)
    /\ fst (NerdStorage.RecipeInstalled status event c)
       = NerdStorage.afterEntityScopeWrites (EntityGUIDs status) status c1
    /\ fst (NerdStorage.RecipeFailed status event c)
       = NerdStorage.afterEntityScopeWrites (EntityGUIDs status) status c1
    /\ List.length
         (NerdStorage.entityScopeOutcomes (EntityGUIDs status) status c1)
       = List.length (EntityGUIDs status).
Proof.
  intros C client status event c c1 userRes Huser Hfail.
  unfold NerdStorage.RecipeInstalled, NerdStorage.RecipeFailed.
  rewrite writeStatus_run, Huser. cbn [fst snd].
  assert (Herr : exists e,
             match userRes,
                   NerdStorage.firstFailure
                     (NerdStorage.entityScopeOutcomes (EntityGUIDs status) status c1)
             with
             | fail err, _ => fail err
             | ok _, Some err => fail err
             | ok _, None => ok tt
             end = fail e).
  { destruct Hfail as [[e ->]|[e Hin]].
    - now exists e.
    - destruct userRes as [[]|e0]; [|now exists e0].
      destruct (firstFailure_In _ _ Hin) as [e' ->]. now exists e'. }
  repeat split; try exact Herr.
  apply entityScopeOutcomes_length.
Qed.

(** The two cases of the unit tests: the user-scoped write fails while the
    entity-scoped one succeeds, and the reverse. *)
Lemma report_fails_when_a_write_fails_witness :
  let status := withEntityGUID "testGuid" NewInstallStatus in
  let event := recipeEvent Mock.infraRecipe in
  let userFails :=
    NerdStorage.withUserScopeErr (errorString "error")
      NerdStorage.NewMockNerdStorageClient in
  let entityFails :=
    NerdStorage.withEntityScopeErr (errorString "error")
      NerdStorage.NewMockNerdStorageClient in
  (exists e, snd (NerdStorage.RecipeInstalled status event userFails) = fail e)
  /\ (exists e, snd (NerdStorage.RecipeFailed status event entityFails) = fail e).
Proof.
  intros status event userFails entityFails. split.
  - refine (proj1 (report_fails_when_a_write_fails _ _ status event userFails
                     (fst (NerdStorage.WriteDocumentWithUserScope status userFails))
                     (fail (errorString "error")) _ _)).
    + reflexivity.
    + left. now exists (errorString "error").
  - refine (proj1 (proj2 (report_fails_when_a_write_fails _ _ status event
                     entityFails
                     (fst (NerdStorage.WriteDocumentWithUserScope status entityFails))
                     (ok tt) _ _))).
    + reflexivity.
    + right. exists (errorString "error"). cbn. now left.
Defined.

(** C9.  Registering a GUID a second time changes nothing: the install
    status is the one the first registration gave, so the number of GUIDs
    known at every later report, and every later report, are the same. *)
Theorem withEntityGUID_idempotent :
  forall (guid : string) (status : InstallStatus),
    withEntityGUID guid (withEntityGUID guid status) = withEntityGUID guid status
    /\ (forall steps : list NerdStorage.ReporterStep,
          NerdStorage.knownAtCalls steps
            (withEntityGUID guid (withEntityGUID guid status))
          = NerdStorage.knownAtCalls steps (withEntityGUID guid status))
    /\ (forall (event : RecipeStatusEvent) (c : NerdStorage.MockNerdStorageClient),
          NerdStorage.writeDocumentWithEntityScopeCallCount
            (fst (NerdStorage.RecipeInstalled
                    (withEntityGUID guid (withEntityGUID guid status)) event c))
          = NerdStorage.writeDocumentWithEntityScopeCallCount
              (fst (NerdStorage.RecipeInstalled
                      (withEntityGUID guid status) event c))
          /\ NerdStorage.writeDocumentWithEntityScopeCallCount
               (fst (NerdStorage.RecipeFailed
                       (withEntityGUID guid (withEntityGUID guid status)) event c))
             = NerdStorage.writeDocumentWithEntityScopeCallCount
                 (fst (NerdStorage.RecipeFailed
                         (withEntityGUID guid status) event c))).
Proof.
  intros guid status.
  assert (H : withEntityGUID guid (withEntityGUID guid status)
              = withEntityGUID guid status).
  { unfold withEntityGUID at 2 3.
    destruct (existsb (String.eqb guid) (EntityGUIDs status)) eqn:E.
    - unfold withEntityGUID. now rewrite E.
    - unfold withEntityGUID. cbn. rewrite existsb_app. cbn.
      now rewrite String.eqb_refl, orb_true_r. }
  split; [exact H|]. split.
  - intros steps. now rewrite H.
  - intros event c. now rewrite H.
Qed.

(** *** The polling validator *)

Section ValidatorFacts.

Import Validation.

Context {C : Type} {client : NRDBClient C}.
Variable entityGUIDOf : list NRDBResult -> string.

Lemma answers_snoc (k : nat) (nrql : string) (c : C) :
  answers (S k) nrql c
  = answers k nrql c ++ [classify (snd (Query nrql (afterQueries k nrql c)))].
Proof.
  revert c; induction k as [|k IH]; intros c.
  - cbn. now destruct (Query nrql c).
  - specialize (IH (fst (Query nrql c))).
    change (answers (S (S k)) nrql c)
      with (let (c', r) := Query nrql c in classify r :: answers (S k) nrql c').
    change (answers (S k) nrql c)
      with (let (c', r) := Query nrql c in classify r :: answers k nrql c').
    change (afterQueries (S k) nrql c)
      with (afterQueries k nrql (fst (Query nrql c))).
    destruct (Query nrql c) as [c' r]. cbn [fst] in IH |- *. now rewrite IH.
Qed.

Lemma afterQueries_snoc (k : nat) (nrql : string) (c : C) :
  afterQueries (S k) nrql c = fst (Query nrql (afterQueries k nrql c)).
Proof.
  revert c; induction k as [|k IH]; intros c; [reflexivity|].
  change (afterQueries (S (S k)) nrql c)
    with (afterQueries (S k) nrql (fst (Query nrql c))).
  now rewrite IH.
Qed.

(** While the backend answers without data and the context is not
    cancelled, the validator goes on to the next attempt. *)
Lemma waitForData_skip (k remaining attempt : nat) (ctx : Context)
  (nrql : string) (c : C) :
  answers k nrql c = repeat NoData k ->
  (forall j, j < k -> ctx (attempt + j) = false) ->
  waitForData entityGUIDOf (k + remaining) attempt ctx nrql c
  = waitForData entityGUIDOf remaining (attempt + k) ctx nrql
      (afterQueries k nrql c).
Proof.
  revert attempt c; induction k as [|k IH]; intros attempt c Hans Hctx.
  - cbn. now rewrite Nat.add_0_r.
  - cbn [answers repeat] in Hans. cbn [Nat.add waitForData afterQueries].
    assert (H0 : ctx attempt = false)
      by (rewrite <- (Nat.add_0_r attempt); apply Hctx; lia).
    rewrite H0.
    destruct (Query nrql c) as [c' r]. injection Hans as Hr Hans.
    destruct r as [rows|err]; [|discriminate]. cbn in Hr.
    destruct (dataArrived rows); [discriminate|]. cbn [fst].
    rewrite IH; [now rewrite Nat.add_succ_r | exact Hans |].
    intros j Hj. replace (S attempt + j) with (attempt + S j) by lia.
    apply Hctx. lia.
Qed.

(** The validator never makes more attempts than it was given. *)
Lemma waitForData_attempts (remaining attempt : nat) (ctx : Context)
  (nrql : string) (c : C) :
  fst (snd (waitForData entityGUIDOf remaining attempt ctx nrql c))
  <= attempt + remaining.
Proof.
  revert attempt c; induction remaining as [|remaining IH]; intros attempt c.
  - cbn. lia.
  - cbn [waitForData]. destruct (ctx attempt); [cbn; lia|].
    destruct (Query nrql c) as [c' [rows|err]]; [|cbn; lia].
    destruct (dataArrived rows); [cbn; lia|].
    specialize (IH (S attempt) c'). lia.
Qed.


End ValidatorFacts.

Section MockValidatorFacts.

Import Validation.

(** The test double answers without data as long as its attempt counter
    stays below the configured number. *)
Lemma mock_answers_before (k : nat) (nrql : string) (c : MockNRDBClient) :
  resultsBefore c = emptyResults ->
  Attempts c + k < attemptsUntilResults c ->
  answers k nrql c = repeat NoData k
  /\ afterQueries k nrql c
     = {| resultsBefore := resultsBefore c; resultsAfter := resultsAfter c;
          attemptsUntilResults := attemptsUntilResults c;
          Attempts := Attempts c + k |}.
Proof.
  revert c; induction k as [|k IH]; intros c Hb Hlt.
  - cbn. split; [reflexivity|]. destruct c. cbn. now rewrite Nat.add_0_r.
  - cbn [answers afterQueries Query MockNRDBClient_client fst].
    destruct (IH {| resultsBefore := resultsBefore c;
                    resultsAfter := resultsAfter c;
                    attemptsUntilResults := attemptsUntilResults c;
                    Attempts := S (Attempts c) |}) as [Ha Hq].
    + exact Hb.
    + cbn. lia.
    + rewrite Ha, Hq. cbn [resultsBefore resultsAfter attemptsUntilResults
                            Attempts repeat].
      replace (Nat.ltb (S (Attempts c)) (attemptsUntilResults c)) with true
        by (symmetry; apply Nat.ltb_lt; lia).
      rewrite Hb. cbn. split; [reflexivity|]. f_equal. lia.
Qed.

(** [ReturnResultsAfterNAttempts emptyResults nonEmptyResults n] on a fresh
    double: no data on the first [n - 1] attempts, data on attempt [n]. *)
Lemma mock_answers (n : nat) (nrql : string) :
  1 <= n ->
  answers n nrql
    (ReturnResultsAfterNAttempts emptyResults nonEmptyResults n NewMockNRDBClient)
  = repeat NoData (n - 1) ++ [DataPresent].
Proof.
  intros Hn. destruct n as [|k]; [lia|].
  replace (S k - 1) with k by lia.
  rewrite answers_snoc.
  destruct (mock_answers_before k nrql
              (ReturnResultsAfterNAttempts emptyResults nonEmptyResults (S k)
                 NewMockNRDBClient)) as [Ha Hq].
  - reflexivity.
  - cbn. lia.
  - rewrite Ha, Hq. cbn.
    replace (match k with 0 => false | S m' => Nat.leb k m' end) with false;
      [reflexivity|].
    destruct k; [reflexivity|]. symmetry. apply Nat.leb_gt. lia.
Qed.

End MockValidatorFacts.

Section ValidatorResults.

Context {C : Type} {client : Validation.NRDBClient C}.
Variable entityGUIDOf : list Validation.NRDBResult -> string.

(** C4.  With a context that is not cancelled: if the backend answers
    without data on the first [N - 1] attempts and with data on attempt
    [N], [1 <= N <= maxAttempts], the validator succeeds after exactly [N]
    attempts (it returns the count [N] and leaves the backend as [N]
    queries leave it); if the backend answers without data on all of
    [maxAttempts] attempts, it fails with [ValidationExhausted] after
    [maxAttempts] attempts.  It never makes more than [maxAttempts]
    attempts, and [ValidationExhausted] is not a [ValidationQueryFailed]. *)
Theorem validator_succeeds_or_exhausts :
  forall (v : Validation.PollingRecipeValidator) (ctx : Validation.Context)
         (r : OpenInstallationRecipe) (c : C),
    (forall N : nat,
        1 <= N <= Validation.maxAttempts v ->
        (forall j, j < N -> ctx j = false) ->
        Validation.answers N (ValidationNRQL r) c
        = repeat Validation.NoData (N - 1) ++ [Validation.DataPresent] ->
        exists guid,
          Validation.Validate entityGUIDOf v ctx r c
          = (Validation.afterQueries N (ValidationNRQL r) c, (N, ok guid)))
    /\ ((forall j, j < Validation.maxAttempts v -> ctx j = false) ->
        Validation.answers (Validation.maxAttempts v) (ValidationNRQL r) c
        = repeat Validation.NoData (Validation.maxAttempts v) ->
        Validation.Validate entityGUIDOf v ctx r c
        = (Validation.afterQueries (Validation.maxAttempts v) (ValidationNRQL r) c,
           (Validation.maxAttempts v, fail ValidationExhausted)))
    /\ fst (snd (Validation.Validate entityGUIDOf v ctx r c))
       <= Validation.maxAttempts v
    /\ (forall e, ValidationExhausted <> ValidationQueryFailed e).
Proof.
  intros v ctx r c. unfold Validation.Validate.
  set (nrql := ValidationNRQL r). set (max := Validation.maxAttempts v).
  repeat split.
  - intros N [H1 Hmax] Hctx Hans.
    destruct N as [|k]; [lia|].
    replace (S k - 1) with k in Hans by lia.
    rewrite answers_snoc in Hans. apply app_inj_tail in Hans.
    destruct Hans as [Hbefore Hlast].
    replace max with (k + S (max - S k)) by lia.
    rewrite (waitForData_skip entityGUIDOf k (S (max - S k)) 0 ctx nrql c Hbefore)
      by (intros j Hj; apply Hctx; lia).
    cbn [Validation.waitForData Nat.add]. rewrite (Hctx k) by lia.
    rewrite afterQueries_snoc.
    destruct (Validation.Query nrql (Validation.afterQueries k nrql c))
      as [c' [rows|err]]; [|discriminate].
    cbn in Hlast. destruct (Validation.dataArrived rows); [|discriminate].
    now exists (entityGUIDOf rows).
  - intros Hctx Hans.
    rewrite <- (Nat.add_0_r max) at 1.
    rewrite (waitForData_skip entityGUIDOf max 0 0 ctx nrql c Hans)
      by (intros j Hj; apply Hctx; lia).
    reflexivity.
  - apply (waitForData_attempts entityGUIDOf max 0 ctx nrql c).
  - discriminate.
Qed.


End ValidatorResults.

(** The backend of the scenario builder, which has data on the second
    attempt, and one that has none within three attempts. *)
Lemma validator_succeeds_or_exhausts_witness :
  let v := {| Validation.maxAttempts := 3 |} in
  let second :=
    Validation.ReturnResultsAfterNAttempts Validation.emptyResults
      Validation.nonEmptyResults 2 Validation.NewMockNRDBClient in
  let never :=
    Validation.ReturnResultsAfterNAttempts Validation.emptyResults
      Validation.nonEmptyResults 5 Validation.NewMockNRDBClient in
  (exists guid,
      Validation.Validate (fun _ => "guid") v Validation.Background
        Mock.infraRecipe second
      = (Validation.afterQueries 2 "test NRQL" second, (2, ok guid)))
  /\ Validation.Validate (fun _ => "guid") v Validation.Background
       Mock.infraRecipe never
     = (Validation.afterQueries 3 "test NRQL" never, (3, fail ValidationExhausted)).
Proof.
  intros v second never. split.
  - refine (proj1 (validator_succeeds_or_exhausts (fun _ => "guid") v
                     Validation.Background Mock.infraRecipe second) 2 _ _ _).
    + cbn. lia.
    + reflexivity.
    + reflexivity.
  - refine (proj1 (proj2 (validator_succeeds_or_exhausts (fun _ => "guid") v
                     Validation.Background Mock.infraRecipe never)) _ _).
    + reflexivity.
    + reflexivity.
Defined.


(** *** The unit tests of the reporter and the scenarios, replayed *)

Section ReplayedTests.

Import NerdStorage.

Let event : RecipeStatusEvent := recipeEvent Mock.infraRecipe.

Example TestRecipeInstalled_Basic :
  let status := withEntityGUID "testGuid" NewInstallStatus in
  let (c, err) := NerdStorage.RecipeInstalled status event NewMockNerdStorageClient in
  err = ok tt
  /\ writeDocumentWithUserScopeCallCount c = 1
  /\ writeDocumentWithEntityScopeCallCount c = 1.
Proof. cbn. repeat split. Qed.

Example TestRecipeInstalled_UserScopeOnly :
  let (c, err) :=
    NerdStorage.RecipeInstalled NewInstallStatus event NewMockNerdStorageClient in
  err = ok tt
  /\ writeDocumentWithUserScopeCallCount c = 1
  /\ writeDocumentWithEntityScopeCallCount c = 0.
Proof. cbn. repeat split. Qed.

Example TestRecipeInstalled_MultipleEntityGUIDs :
  let status :=
    withEntityGUID "testGuid2" (withEntityGUID "testGuid" NewInstallStatus) in
  let (c, err) := NerdStorage.RecipeInstalled status event NewMockNerdStorageClient in
  err = ok tt
  /\ writeDocumentWithUserScopeCallCount c = 1
  /\ writeDocumentWithEntityScopeCallCount c = 2.
Proof. cbn. repeat split. Qed.

Example TestRecipeInstalled_UserScopeError :
  let status := withEntityGUID "testGuid" NewInstallStatus in
  snd (NerdStorage.RecipeInstalled status event
         (withUserScopeErr (errorString "error") NewMockNerdStorageClient))
  = fail (errorString "error").
Proof. reflexivity. Qed.

Example TestRecipeInstalled_EntityScopeError :
  let status := withEntityGUID "testGuid" NewInstallStatus in
  snd (NerdStorage.RecipeInstalled status event
         (withEntityScopeErr (errorString "error") NewMockNerdStorageClient))
  = fail (errorString "error").
Proof. reflexivity. Qed.

Example TestRecipeFailed_Basic :
  let status := withEntityGUID "testGuid" NewInstallStatus in
  let (c, err) := NerdStorage.RecipeFailed status event NewMockNerdStorageClient in
  err = ok tt
  /\ writeDocumentWithUserScopeCallCount c = 1
  /\ writeDocumentWithEntityScopeCallCount c = 1.
Proof. cbn. repeat split. Qed.

Example TestRecipeFailed_UserScopeOnly :
  let (c, err) :=
    NerdStorage.RecipeFailed NewInstallStatus event NewMockNerdStorageClient in
  err = ok tt
  /\ writeDocumentWithUserScopeCallCount c = 1
  /\ writeDocumentWithEntityScopeCallCount c = 0.
Proof. cbn. repeat split. Qed.

Example TestRecipeFailed_UserScopeError :
  let status := withEntityGUID "testGuid" NewInstallStatus in
  snd (NerdStorage.RecipeFailed status event
         (withUserScopeErr (errorString "error") NewMockNerdStorageClient))
  = fail (errorString "error").
Proof. reflexivity. Qed.

Example TestRecipeFailed_EntityScopeError :
  let status := withEntityGUID "testGuid" NewInstallStatus in
  snd (NerdStorage.RecipeFailed status event
         (withEntityScopeErr (errorString "error") NewMockNerdStorageClient))
  = fail (errorString "error").
Proof. reflexivity. Qed.

(** The validator of the scenario builder: the backend has data on the
    second attempt. *)
Example ScenarioBuilder_Basic_validation :
  let c :=
    Validation.ReturnResultsAfterNAttempts Validation.emptyResults
      Validation.nonEmptyResults 2 Validation.NewMockNRDBClient in
  let '(c', (attempts, res)) :=
    Validation.Validate (fun _ => "guid") {| Validation.maxAttempts := 3 |}
      Validation.Background Mock.infraRecipe c in
  res = ok "guid" /\ attempts = 2 /\ Validation.Attempts c' = 2.
Proof. cbn. repeat split. Qed.

(** The guided installation on the recipes of
    [setupRecipeFetcherGuidedInstall], everything selected and everything
    succeeding: what is executed, and the GUIDs that are known at the
    end. *)
Example guidedInstall_all_succeed :
  let run :=
    guidedInstall Mock.InfraAgentRecipeName Mock.LoggingRecipeName
      Mock.installRecipesFailFast tt (Mock.withEnv Mock.guidedEnv) in
  snd run = ok tt
  /\ Mock.Executed (env (fst run))
     = ["infrastructure-agent-installer"; "logs-integration"; "recommended-recipe"]
  /\ EntityGUIDs (status (fst run))
     = ["guid-infrastructure-agent-installer"; "guid-logs-integration";
        "guid-recommended-recipe"].
Proof. vm_compute. repeat split. Qed.

(** Under the skip-all-integrations directive the logging recipe is marked
    SKIPPED by [filterIntegrations], the skip-logging flag stays unset, and
    the logging phase installs the recipe all the same (with
    [ShouldInstallLogging] as it is modelled above). *)
Example guidedInstall_skip_integrations_installs_logging :
  let run :=
    guidedInstall Mock.InfraAgentRecipeName Mock.LoggingRecipeName
      Mock.installRecipesFailFast tt
      (Mock.installerWith true true false Mock.guidedEnv) in
  snd run = ok tt
  /\ In (skipEvent Mock.logsRecipe) (Notified (status (fst run)))
  /\ Mock.Executed (env (fst run))
     = ["infrastructure-agent-installer"; "logs-integration"].
Proof.
  vm_compute. repeat split. right. right. now left.
Qed.

End ReplayedTests.

(** ** Further results *)

(** *** [filterRecommendations] and [fetchRecommendations] *)

Lemma filterRecommendations_filter (InfraAgentRecipeName LoggingRecipeName : string)
  (recipes : list OpenInstallationRecipe) :
  filterRecommendations InfraAgentRecipeName LoggingRecipeName recipes
  = filter
      (fun r => negb (String.eqb (Name r) InfraAgentRecipeName
                      || String.eqb (Name r) LoggingRecipeName))
      recipes.
Proof.
  unfold filterRecommendations.
  rewrite (fold_left_pointwise _
             (fun acc r =>
                acc ++ (if String.eqb (Name r) InfraAgentRecipeName
                           || String.eqb (Name r) LoggingRecipeName
                        then [] else [r]))).
  - rewrite fold_left_app_each. cbn [app].
    induction recipes as [|r recipes IH]; cbn; [reflexivity|].
    rewrite IH.
    now destruct (String.eqb (Name r) InfraAgentRecipeName
                  || String.eqb (Name r) LoggingRecipeName).
  - intros acc r.
    destruct (String.eqb (Name r) InfraAgentRecipeName
              || String.eqb (Name r) LoggingRecipeName);
      [now rewrite app_nil_r | reflexivity].
Qed.

Lemma filter_twice (A : Type) (f : A -> bool) (l : list A) :
  filter f (filter f l) = filter f l.
Proof.
  induction l as [|x l IH]; cbn; [reflexivity|].
  destruct (f x) eqn:E; cbn; [rewrite E; now f_equal | exact IH].
Qed.

Lemma filterRecommendations_In (InfraAgentRecipeName LoggingRecipeName : string)
  (recipes : list OpenInstallationRecipe) (r : OpenInstallationRecipe) :
  In r (filterRecommendations InfraAgentRecipeName LoggingRecipeName recipes)
  <-> In r recipes
      /\ Name r <> InfraAgentRecipeName /\ Name r <> LoggingRecipeName.
Proof.
  rewrite filterRecommendations_filter, filter_In.
  rewrite negb_true_iff, orb_false_iff, !String.eqb_neq. tauto.
Qed.

(** X1.  [filterRecommendations] keeps, in their order, exactly the
    recipes that carry neither the name of the infra agent recipe nor the
    name of the logging recipe, and filtering a second time changes
    nothing. *)
Theorem filterRecommendations_drops_mandatory :
  forall (InfraAgentRecipeName LoggingRecipeName : string)
         (recipes : list OpenInstallationRecipe),
    filterRecommendations InfraAgentRecipeName LoggingRecipeName recipes
    = filter
        (fun r => negb (String.eqb (Name r) InfraAgentRecipeName
                        || String.eqb (Name r) LoggingRecipeName))
        recipes
    /\ (forall r,
          In r (filterRecommendations InfraAgentRecipeName LoggingRecipeName recipes)
          <-> In r recipes
              /\ Name r <> InfraAgentRecipeName /\ Name r <> LoggingRecipeName)
    /\ filterRecommendations InfraAgentRecipeName LoggingRecipeName
         (filterRecommendations InfraAgentRecipeName LoggingRecipeName recipes)
       = filterRecommendations InfraAgentRecipeName LoggingRecipeName recipes.
Proof.
  intros I L recipes. split; [apply filterRecommendations_filter|]. split.
  - intros r. apply filterRecommendations_In.
  - rewrite !filterRecommendations_filter. apply filter_twice.
Qed.

Section FetchRecommendationsFacts.

Context {Env Manifest : Type}.
Context {recipeFetcher : RecipeFetcher Env Manifest}.
Variable InfraAgentRecipeName : string.
Variable LoggingRecipeName : string.

(** X2.  [fetchRecommendations] never returns [ErrInterrupt]: an error of
    the recipe fetcher, the interrupt included, comes back as a fresh
    error made of a prefix and the text of the cause.  On success no
    recipe of the result carries the name of the infra agent or of the
    logging recipe.  Either way only the environment of the collaborators
    has changed. *)
Theorem fetchRecommendations_wraps_errors :
  forall (m : Manifest) (i i' : RecipeInstaller Env)
         (res : result (list OpenInstallationRecipe)),
    fetchRecommendations InfraAgentRecipeName LoggingRecipeName m i = (i', res) ->
    res <> fail ErrInterrupt
    /\ (forall e, res = fail e ->
          exists cause,
            snd (FetchRecommendations m (env i)) = fail cause
            /\ e = errorf "error retrieving recipe recommendations: " cause)
    /\ (forall recs r, res = ok recs -> In r recs ->
          Name r <> InfraAgentRecipeName /\ Name r <> LoggingRecipeName)
    /\ i' = setEnv (fst (FetchRecommendations m (env i))) i.
Proof.
  intros m i i' res. unfold fetchRecommendations, bind, attempt, call, throw, ret.
  destruct (FetchRecommendations m (env i)) as [e1 [recs|cause]]; cbn;
    intros [= <- <-].
  - split; [discriminate|]. split; [discriminate|]. split; [|reflexivity].
    intros recs' r [= <-] Hin.
    apply filterRecommendations_In in Hin. tauto.
  - split; [discriminate|]. split; [|split; [discriminate | reflexivity]].
    intros e [= <-]. now exists cause.
Qed.

End FetchRecommendationsFacts.

(** The recipe service is interrupted: the error that comes back is not the
    interrupt. *)
Lemma fetchRecommendations_wraps_errors_witness :
  let i := Mock.withEnv MockCases.interruptedRecommendationsEnv in
  let run := fetchRecommendations Mock.InfraAgentRecipeName
               Mock.LoggingRecipeName tt i in
  snd run <> fail ErrInterrupt
  /\ snd run
     = fail (errorf "error retrieving recipe recommendations: " ErrInterrupt).
Proof.
  intros i run.
  destruct (fetchRecommendations_wraps_errors Mock.InfraAgentRecipeName
              Mock.LoggingRecipeName tt i (fst run) (snd run)
              (surjective_pairing run)) as (Hne & _ & _ & _).
  split; [exact Hne | reflexivity].
Defined.

(** *** [removeRecipes] and [recipeInRecipes] *)

Lemma differingTargets_pos (x : OpenInstallationRecipe)
  (remove : list OpenInstallationRecipe) :
  0 < differingTargets x remove
  <-> exists r, In r remove /\ Name x <> Name r.
Proof.
  unfold differingTargets. induction remove as [|r remove IH]; cbn.
  - split; [lia | intros (r & [] & _)].
  - destruct (String.eqb_spec (Name x) (Name r)) as [E|N]; cbn.
    + rewrite IH. split.
      * intros (r' & Hin & Hne). exists r'. split; [now right | exact Hne].
      * intros (r' & [<-|Hin] & Hne); [contradiction|]. now exists r'.
    + split; [|lia]. intros _. exists r. split; [now left | exact N].
Qed.

Lemma removeRecipes_In (recipes remove : list OpenInstallationRecipe)
  (x : OpenInstallationRecipe) :
  In x (removeRecipes recipes remove)
  <-> In x recipes /\ exists r, In r remove /\ Name x <> Name r.
Proof.
  rewrite removeRecipes_flat_map, in_flat_map, <- differingTargets_pos. split.
  - intros (y & Hy & Hin). apply repeat_spec in Hin as E. subst y.
    split; [exact Hy|]. destruct (differingTargets x remove); [destruct Hin | lia].
  - intros [Hx Hpos]. exists x. split; [exact Hx|].
    destruct (differingTargets x remove); [lia | now left].
Qed.

Lemma removeRecipes_single (recipes : list OpenInstallationRecipe)
  (r : OpenInstallationRecipe) :
  removeRecipes recipes [r]
  = filter (fun recipe => negb (String.eqb (Name recipe) (Name r))) recipes.
Proof.
  rewrite removeRecipes_flat_map.
  induction recipes as [|y recipes IH]; simpl; [reflexivity|].
  rewrite IH. unfold differingTargets; simpl.
  now destruct (negb (String.eqb (Name y) (Name r))).
Qed.

(** X3.  A recipe is in the result of [removeRecipes] exactly when it is in
    the input and some removal target has a different [Name].  So a call
    without removal targets returns the empty list, and a call with two
    targets of different names removes nothing. *)
Theorem removeRecipes_membership :
  forall (recipes remove : list OpenInstallationRecipe)
         (x : OpenInstallationRecipe),
    (In x (removeRecipes recipes remove)
     <-> In x recipes /\ exists r, In r remove /\ Name x <> Name r)
    /\ removeRecipes recipes [] = []
    /\ (forall r1 r2,
          In r1 remove -> In r2 remove -> Name r1 <> Name r2 ->
          In x recipes -> In x (removeRecipes recipes remove)).
Proof.
  intros recipes remove x. split; [apply removeRecipes_In|]. split.
  - rewrite removeRecipes_flat_map. induction recipes as [|y recipes IH];
      cbn; [reflexivity | exact IH].
  - intros r1 r2 H1 H2 Hne Hx. apply removeRecipes_In. split; [exact Hx|].
    destruct (string_dec (Name x) (Name r1)) as [E|N].
    + exists r2. split; [exact H2 | congruence].
    + exists r1. now split.
Qed.

(** Removing the infra agent recipe and the logging recipe together
    removes neither. *)
Lemma removeRecipes_membership_witness :
  In Mock.logsRecipe
    (removeRecipes [Mock.infraRecipe; Mock.logsRecipe; Mock.recommendedRecipe]
       [Mock.infraRecipe; Mock.logsRecipe]).
Proof.
  refine (proj2 (proj2 (removeRecipes_membership
                          [Mock.infraRecipe; Mock.logsRecipe; Mock.recommendedRecipe]
                          [Mock.infraRecipe; Mock.logsRecipe] Mock.logsRecipe))
            Mock.infraRecipe Mock.logsRecipe _ _ _ _).
  - now left.
  - right. now left.
  - discriminate.
  - right. now left.
Defined.

(** X4.  After [removeRecipes recipes r], [recipeInRecipes] no longer finds
    [r], and it finds a recipe of another [Name] exactly when it found it
    before. *)
Theorem recipeInRecipes_after_removeRecipes :
  forall (recipes : list OpenInstallationRecipe) (r x : OpenInstallationRecipe),
    recipeInRecipes r (removeRecipes recipes [r]) = false
    /\ (Name x <> Name r ->
        recipeInRecipes x (removeRecipes recipes [r]) = recipeInRecipes x recipes).
Proof.
  intros recipes r x. rewrite removeRecipes_single. unfold recipeInRecipes. split.
  - induction recipes as [|y recipes IH]; cbn; [reflexivity|].
    destruct (String.eqb_spec (Name y) (Name r)) as [E|N]; cbn; [exact IH|].
    rewrite IH, orb_false_r. apply String.eqb_neq. congruence.
  - intros Hne. induction recipes as [|y recipes IH]; cbn; [reflexivity|].
    destruct (String.eqb_spec (Name y) (Name r)) as [E|N]; cbn.
    + rewrite IH. replace (String.eqb (Name x) (Name y)) with false; [reflexivity|].
      symmetry. apply String.eqb_neq. congruence.
    + now rewrite IH.
Qed.

(** The recommended recipe is still found after the logging recipe was
    removed. *)
Lemma recipeInRecipes_after_removeRecipes_witness :
  recipeInRecipes Mock.recommendedRecipe
    (removeRecipes [Mock.logsRecipe; Mock.recommendedRecipe] [Mock.logsRecipe])
  = recipeInRecipes Mock.recommendedRecipe [Mock.logsRecipe; Mock.recommendedRecipe].
Proof.
  refine (proj2 (recipeInRecipes_after_removeRecipes
                   [Mock.logsRecipe; Mock.recommendedRecipe] Mock.logsRecipe
                   Mock.recommendedRecipe) _).
  discriminate.
Defined.

(** *** The selection of [filterIntegrations] *)

Lemma selectedBy_In (names : list string) (recs : list OpenInstallationRecipe)
  (r : OpenInstallationRecipe) :
  In r (selectedBy names recs) <-> In r recs /\ In (DisplayName r) names.
Proof.
  unfold selectedBy. rewrite in_flat_map. split.
  - intros (name & Hname & Hin). apply filter_In in Hin as [Hr E].
    apply String.eqb_eq in E. subst name. now split.
  - intros [Hr Hname]. exists (DisplayName r). split; [exact Hname|].
    apply filter_In. split; [exact Hr | apply String.eqb_refl].
Qed.

Lemma recipeInRecipes_In (r : OpenInstallationRecipe)
  (recipes : list OpenInstallationRecipe) :
  In r recipes -> recipeInRecipes r recipes = true.
Proof.
  intros Hin. unfold recipeInRecipes. apply existsb_exists.
  exists r. split; [exact Hin | apply String.eqb_refl].
Qed.

Lemma unselectedOf_all_selected (cands sel : list OpenInstallationRecipe) :
  (forall r, In r cands -> In r sel) -> unselectedOf cands sel = [].
Proof.
  unfold unselectedOf. induction cands as [|r cands IH]; intros Hall;
    cbn; [reflexivity|].
  rewrite (recipeInRecipes_In r sel (Hall r (or_introl eq_refl))). cbn.
  apply IH. intros r' Hr'. apply Hall. now right.
Qed.

Section FilterIntegrationsSelection.

Context {Env : Type} {prompter : Prompter Env}.
Variable LoggingRecipeName : string.

Lemma selectNames_context (recs : list OpenInstallationRecipe)
  (i : RecipeInstaller Env) :
  keepsContext i (fst (selectNames recs i))
  /\ EntityGUIDs (status (fst (selectNames recs i))) = EntityGUIDs (status i).
Proof.
  assert (HG : EntityGUIDs (status (afterCandidates recs i))
               = EntityGUIDs (status i)).
  { unfold afterCandidates, skipAll. cbn. apply EntityGUIDs_notifyAll. }
  unfold selectNames. cbn zeta.
  destruct (AssumeYes i) eqn:Ey; [split; [now repeat split | exact HG]|].
  destruct (Nat.ltb 0 _); [|split; [now repeat split | exact HG]].
  unfold call. destruct (MultiSelect _ _ _). cbn [fst].
  split; [now repeat split | exact HG].
Qed.

Lemma markUnselected_context (unselected : list OpenInstallationRecipe)
  (i : RecipeInstaller Env) :
  let i' := markUnselected LoggingRecipeName unselected i in
  AssumeYes i' = AssumeYes i
  /\ SkipDiscovery i' = SkipDiscovery i
  /\ SkipIntegrations i' = SkipIntegrations i
  /\ SkipApm i' = SkipApm i
  /\ SkipInfra i' = SkipInfra i
  /\ LicenseKey i' = LicenseKey i
  /\ env i' = env i
  /\ EntityGUIDs (status i') = EntityGUIDs (status i)
  /\ SkipLoggingInstall i'
     = (SkipLoggingInstall i
        || existsb (fun r => String.eqb (Name r) LoggingRecipeName) unselected).
Proof.
  unfold markUnselected, skipAll. cbn. repeat split.
  apply EntityGUIDs_notifyAll.
Qed.

(** X5.  The recipes [filterIntegrations] returns are picked from the whole
    recommended list by display name: every returned recipe is a
    recommended one, and with a returned recipe every recommended recipe of
    the same [DisplayName] is returned, candidate or not.  Under
    [AssumeYes] every candidate is returned, the prompter is not asked
    (the environment is unchanged) and the skip-logging flag is left as it
    was. *)
Theorem filterIntegrations_selects_by_display_name :
  forall (recs : list OpenInstallationRecipe) (i i' : RecipeInstaller Env)
         (sel : list OpenInstallationRecipe),
    filterIntegrations LoggingRecipeName recs i = (i', ok sel) ->
    (forall r, In r sel -> In r recs)
    /\ (forall r r',
          In r sel -> In r' recs -> DisplayName r' = DisplayName r -> In r' sel)
    /\ (AssumeYes i = true ->
        (forall r, In r (candidatesOf recs i) -> In r sel)
        /\ env i' = env i
        /\ SkipLoggingInstall i' = SkipLoggingInstall i).
Proof.
  intros recs i i' sel Hrun. rewrite filterIntegrations_run in Hrun.
  destruct (selectNames recs i) as [i2 [names|err]] eqn:Hsel; [|discriminate].
  injection Hrun as <- <-. split; [|split].
  - intros r Hr. now apply selectedBy_In in Hr.
  - intros r r' Hr Hr' E. apply selectedBy_In in Hr as [_ Hn].
    apply selectedBy_In. split; [exact Hr' | now rewrite E].
  - intros Hyes. unfold selectNames in Hsel. rewrite Hyes in Hsel.
    injection Hsel as <- <-.
    assert (Hall : forall r, In r (candidatesOf recs i) ->
                     In r (selectedBy (map DisplayName (candidatesOf recs i)) recs)).
    { intros r Hr. apply selectedBy_In. split.
      - unfold candidatesOf in Hr. now apply filter_In in Hr.
      - now apply in_map. }
    assert (Hnone : unselectedOf (candidatesOf recs i)
                      (selectedBy (map DisplayName (candidatesOf recs i)) recs)
                    = []).
    { apply unselectedOf_all_selected. exact Hall. }
    rewrite Hnone. split; [exact Hall|].
    destruct (markUnselected_context [] (afterCandidates recs i))
      as (_ & _ & _ & _ & _ & _ & He & _ & Hf).
    cbn zeta in He, Hf. split; [exact He|].
    rewrite Hf. cbn. now rewrite orb_false_r.
Qed.

(** X6.  [filterIntegrations] changes no flag of the installer other than
    the skip-logging flag and registers no entity GUID.  It never clears
    the skip-logging flag, and it raises it only when the selection was
    made and a candidate carrying the name of the logging recipe is missing
    from it. *)
Theorem filterIntegrations_flags :
  forall (recs : list OpenInstallationRecipe) (i i' : RecipeInstaller Env)
         (res : result (list OpenInstallationRecipe)),
    filterIntegrations LoggingRecipeName recs i = (i', res) ->
    AssumeYes i' = AssumeYes i
    /\ SkipDiscovery i' = SkipDiscovery i
    /\ SkipIntegrations i' = SkipIntegrations i
    /\ SkipApm i' = SkipApm i
    /\ SkipInfra i' = SkipInfra i
    /\ LicenseKey i' = LicenseKey i
    /\ EntityGUIDs (status i') = EntityGUIDs (status i)
    /\ (SkipLoggingInstall i' = true
        <-> SkipLoggingInstall i = true
            \/ exists sel r,
                 res = ok sel
                 /\ In r (candidatesOf recs i)
                 /\ recipeInRecipes r sel = false
                 /\ Name r = LoggingRecipeName).
Proof.
  intros recs i i' res Hrun. rewrite filterIntegrations_run in Hrun.
  destruct (selectNames_context recs i)
    as ((Hy & Hd & Hi & Hl & Ha & Hf & Hk) & HG).
  destruct (selectNames recs i) as [i2 [names|err]]; cbn [fst] in *;
    injection Hrun as <- <-.
  - destruct (markUnselected_context
                (unselectedOf (candidatesOf recs i) (selectedBy names recs)) i2)
      as (Hy' & Hd' & Hi' & Ha' & Hf' & Hk' & _ & HG' & Hl').
    cbn zeta in *. repeat split; try congruence.
    + rewrite Hl', Hl. intros H. apply orb_true_iff in H as [H|H]; [now left|].
      right. apply existsb_exists in H as (r & Hr & En).
      unfold unselectedOf in Hr. apply filter_In in Hr as [Hc Hn].
      exists (selectedBy names recs), r. repeat split; try assumption.
      * now apply negb_true_iff in Hn.
      * now apply String.eqb_eq.
    + rewrite Hl', Hl. intros [H|(sel & r & [= <-] & Hc & Hn & En)];
        apply orb_true_iff; [now left|]. right. apply existsb_exists.
      exists r. split; [|now apply String.eqb_eq].
      unfold unselectedOf. apply filter_In. split; [exact Hc | now rewrite Hn].
  - repeat split; try congruence.
    + rewrite Hl. now left.
    + rewrite Hl. intros [H|(sel & r & Hres & _)]; [exact H | discriminate].
Qed.

(** X7.  When no recipe is left as a candidate, the empty recommended list
    included, [filterIntegrations] returns the empty selection without
    asking the prompter: the environment and the skip-logging flag are
    unchanged, and the only notifications are the SKIPPED ones of the
    recipes excluded by a directive. *)
Theorem filterIntegrations_no_candidates :
  forall (recs : list OpenInstallationRecipe) (i : RecipeInstaller Env),
    candidatesOf recs i = [] ->
    exists i',
      filterIntegrations LoggingRecipeName recs i = (i', ok [])
      /\ env i' = env i
      /\ SkipLoggingInstall i' = SkipLoggingInstall i
      /\ Notified (status i')
         = Notified (status i)
             ++ map skipEvent
                  (filter (excludedByDirective (SkipIntegrations i) (SkipApm i))
                     recs).
Proof.
  intros recs i Hc. rewrite filterIntegrations_run.
  unfold selectNames. rewrite Hc. cbn [map List.length Nat.ltb Nat.leb].
  assert (Hs : (if AssumeYes i
                then (afterCandidates recs i, ok (@nil string))
                else (afterCandidates recs i, ok []))
               = (afterCandidates recs i, ok [])) by now destruct (AssumeYes i).
  rewrite Hs. cbn [selectedBy flat_map unselectedOf filter].
  rewrite markUnselected_nil. eexists. split; [reflexivity|].
  unfold afterCandidates. cbn. repeat split. apply Notified_skipAll.
Qed.

(** X8.  When the selection prompt fails, [filterIntegrations] returns the
    error of the prompter; no candidate is marked SKIPPED and the
    skip-logging flag is left as it was.  The prompter was offered the
    display names of the candidates, in their order. *)
Theorem filterIntegrations_prompt_error :
  forall (recs : list OpenInstallationRecipe) (i : RecipeInstaller Env)
         (e' : Env) (err : error),
    AssumeYes i = false ->
    candidatesOf recs i <> [] ->
    MultiSelect
      "Please choose from the additional recommended instrumentation to be installed:"
      (map DisplayName (candidatesOf recs i)) (env i)
    = (e', fail err) ->
    exists i',
      filterIntegrations LoggingRecipeName recs i = (i', fail err)
      /\ env i' = e'
      /\ SkipLoggingInstall i' = SkipLoggingInstall i
      /\ Notified (status i')
         = Notified (status i)
             ++ map skipEvent
                  (filter (excludedByDirective (SkipIntegrations i) (SkipApm i))
                     recs).
Proof.
  intros recs i e' err Hno Hc Hprompt. rewrite filterIntegrations_run.
  unfold selectNames. rewrite Hno.
  destruct (candidatesOf recs i) as [|r cands] eqn:Ec; [congruence|].
  cbn [map List.length Nat.ltb Nat.leb]. unfold call.
  replace (env (afterCandidates recs i)) with (env i) by reflexivity.
  cbn [map] in Hprompt. rewrite Hprompt.
  eexists. split; [reflexivity|]. cbn. repeat split. apply Notified_skipAll.
Qed.

End FilterIntegrationsSelection.

(** Under [AssumeYes] the recommended recipe is a candidate and is
    returned; the application-only recipe of the same display name is
    returned with it. *)
Lemma filterIntegrations_selects_by_display_name_witness :
  let recs := [MockCases.applicationTwin; Mock.recommendedRecipe] in
  let i := Mock.withEnv Mock.guidedEnv in
  let run := filterIntegrations Mock.LoggingRecipeName recs i in
  let sel := Mock.okOr [] (snd run) in
  In MockCases.applicationTwin sel
  /\ (forall r, In r (candidatesOf recs i) -> In r sel)
  /\ env (fst run) = env i.
Proof.
  intros recs i run sel.
  destruct (filterIntegrations_selects_by_display_name Mock.LoggingRecipeName
              recs i (fst run) sel) as (_ & Hsame & Hyes).
  - vm_compute. reflexivity.
  - destruct (Hyes eq_refl) as (Hall & Henv & _).
    split; [|split; [exact Hall | exact Henv]].
    apply (Hsame Mock.recommendedRecipe MockCases.applicationTwin).
    + apply Hall. vm_compute. now left.
    + now left.
    + reflexivity.
Defined.

(** The user picks the recommended recipe only: the skip-logging flag is
    raised, the other flags stay. *)
Lemma filterIntegrations_flags_witness :
  let recs := [Mock.logsRecipe; Mock.recommendedRecipe] in
  let i := Mock.installerWith false false false Mock.promptedEnv in
  let run := filterIntegrations Mock.LoggingRecipeName recs i in
  SkipIntegrations (fst run) = SkipIntegrations i
  /\ SkipLoggingInstall (fst run) = true.
Proof.
  intros recs i run.
  destruct (filterIntegrations_flags Mock.LoggingRecipeName recs i (fst run)
              (snd run) (surjective_pairing run))
    as (_ & _ & Hi & _ & _ & _ & _ & Hflag).
  split; [exact Hi|]. apply Hflag. right.
  exists [Mock.recommendedRecipe], Mock.logsRecipe. repeat split.
  vm_compute. now left.
Defined.

(** Nothing but an application-only recipe is recommended: the prompter,
    which would fail, is not asked. *)
Lemma filterIntegrations_no_candidates_witness :
  let recs := [Mock.applicationRecipe] in
  let i := Mock.installerWith false false false MockCases.promptFailsEnv in
  exists i',
    filterIntegrations Mock.LoggingRecipeName recs i = (i', ok [])
    /\ env i' = env i
    /\ SkipLoggingInstall i' = SkipLoggingInstall i
    /\ Notified (status i')
       = Notified (status i)
           ++ map skipEvent
                (filter (excludedByDirective (SkipIntegrations i) (SkipApm i))
                   recs).
Proof.
  intros recs i.
  apply (filterIntegrations_no_candidates Mock.LoggingRecipeName recs i).
  reflexivity.
Defined.

(** The prompt fails on the recommended recipe. *)
Lemma filterIntegrations_prompt_error_witness :
  let recs := [Mock.recommendedRecipe] in
  let i := Mock.installerWith false false false MockCases.promptFailsEnv in
  exists i',
    filterIntegrations Mock.LoggingRecipeName recs i
    = (i', fail (errorString "prompt failed"))
    /\ env i' = MockCases.promptFailsEnv
    /\ SkipLoggingInstall i' = SkipLoggingInstall i
    /\ Notified (status i')
       = Notified (status i)
           ++ map skipEvent
                (filter (excludedByDirective (SkipIntegrations i) (SkipApm i))
                   recs).
Proof.
  intros recs i.
  apply (filterIntegrations_prompt_error Mock.LoggingRecipeName recs i
           MockCases.promptFailsEnv (errorString "prompt failed")).
  - reflexivity.
  - discriminate.
  - reflexivity.
Defined.

(** *** [installLogging] *)

Section InstallLoggingFacts.

Context {Env Manifest : Type}.
Context {recipeExecutor : RecipeExecutor Env Manifest}.
Context {recipeValidator : RecipeValidator Env Manifest}.
Context {prompter : Prompter Env}.
Context {fileFilterer : FileFilterer Env}.

Lemma setEnv_env (i : RecipeInstaller Env) : setEnv (env i) i = i.
Proof. now destruct i. Qed.

(** Under [AssumeYes] every log match is accepted and nobody is asked. *)
Lemma accept_loop_assumeYes (logMatches acc : list OpenInstallationLogMatch)
  (i : RecipeInstaller Env) :
  AssumeYes i = true ->
  forRange logMatches acc
    (fun logMatch acceptedLogMatches =>
       accepted <- userAcceptsLogFile logMatch ;;
       if accepted : bool
       then ret (acceptedLogMatches ++ [logMatch])
       else ret acceptedLogMatches) i
  = (i, ok (acc ++ logMatches)).
Proof.
  intros Hyes. revert acc; induction logMatches as [|lm logMatches IH];
    intros acc.
  - cbn. unfold ret. now rewrite app_nil_r.
  - cbn [forRange]. unfold bind at 1, bind at 1, userAcceptsLogFile,
      userAccepts, bind at 1, gets at 1.
    rewrite Hyes. unfold ret at 1. unfold ret at 1.
    rewrite IH. now rewrite <- app_assoc.
Qed.

(** Without [AssumeYes] the prompter is asked about every log match in
    turn, and the matches it answers with yes are accepted. *)
Lemma accept_loop_prompted (logMatches acc : list OpenInstallationLogMatch)
  (i : RecipeInstaller Env) :
  AssumeYes i = false ->
  forRange logMatches acc
    (fun logMatch acceptedLogMatches =>
       accepted <- userAcceptsLogFile logMatch ;;
       if accepted : bool
       then ret (acceptedLogMatches ++ [logMatch])
       else ret acceptedLogMatches) i
  = match askLogFiles logMatches (env i) with
    | (e', ok answers) =>
        (setEnv e' i, ok (acc ++ acceptedBy logMatches answers))
    | (e', fail err) => (setEnv e' i, fail err)
    end.
Proof.
  revert acc i; induction logMatches as [|lm logMatches IH]; intros acc i Hno.
  - cbn. unfold ret. now rewrite setEnv_env, app_nil_r.
  - cbn [forRange askLogFiles]. unfold bind at 1, bind at 1, userAcceptsLogFile,
      userAccepts, bind at 1, gets at 1.
    rewrite Hno. unfold call. fold (logFileQuestion lm).
    destruct (PromptYesNo (logFileQuestion lm) (env i)) as [e1 [answer|err]];
      [|reflexivity].
    assert (Hno1 : AssumeYes (setEnv e1 i) = false) by exact Hno.
    destruct answer; unfold ret at 1; rewrite (IH _ (setEnv e1 i) Hno1);
      cbn [env setEnv acceptedBy];
      destruct (askLogFiles logMatches e1) as [e2 [answers|err]];
      try reflexivity.
    now rewrite <- app_assoc.
Qed.

Lemma discoveredLogFiles_map (accepted : list OpenInstallationLogMatch) :
  fold_left (fun files logMatch => files ++ [File logMatch]) accepted []
  = map File accepted.
Proof.
  rewrite (fold_left_app_each (fun logMatch => [File logMatch])). cbn [app].
  induction accepted as [|lm accepted IH]; cbn; congruence.
Qed.

(** X9.  [installLogging] fails with the error of the file filterer, or
    with the error of the first prompt that fails, before the recipe is
    announced or executed: only the environment of the collaborators has
    changed. *)
Theorem installLogging_early_errors :
  forall (m : Manifest) (r : OpenInstallationRecipe)
         (recipes : list OpenInstallationRecipe) (i : RecipeInstaller Env)
         (err : error),
    (forall e1,
        Filter recipes (env i) = (e1, fail err) ->
        installLogging m r recipes i = (setEnv e1 i, fail err))
    /\ (forall e1 e2 logMatches,
          Filter recipes (env i) = (e1, ok logMatches) ->
          AssumeYes i = false ->
          askLogFiles logMatches e1 = (e2, fail err) ->
          installLogging m r recipes i = (setEnv e2 i, fail err)).
Proof.
  intros m r recipes i err. split.
  - intros e1 Hf. unfold installLogging, bind at 1, call at 1. now rewrite Hf.
  - intros e1 e2 logMatches Hf Hno Hask.
    unfold installLogging, bind at 1, call at 1. rewrite Hf.
    unfold bind at 1.
    rewrite (accept_loop_prompted logMatches [] (setEnv e1 i) Hno).
    cbn [env setEnv]. now rewrite Hask.
Qed.

(** X10.  Under [AssumeYes], [installLogging] asks nobody: it executes and
    validates the recipe with [NR_DISCOVERED_LOG_FILES] set to the files of
    all the log matches the file filterer found, in their order, joined by
    commas (the empty string when there is none), and returns the error of
    that execution, if any. *)
Theorem installLogging_assume_yes :
  forall (m : Manifest) (r : OpenInstallationRecipe)
         (recipes : list OpenInstallationRecipe) (i : RecipeInstaller Env)
         (e1 : Env) (logMatches : list OpenInstallationLogMatch),
    AssumeYes i = true ->
    Filter recipes (env i) = (e1, ok logMatches) ->
    installLogging m r recipes i
    = (executeAndValidateWithProgress m
         (SetRecipeVar r "NR_DISCOVERED_LOG_FILES"
            (String.concat "," (map File logMatches))) ;;
       ret tt) (setEnv e1 i).
Proof.
  intros m r recipes i e1 logMatches Hyes Hf.
  unfold installLogging, bind at 1, call at 1. rewrite Hf.
  unfold bind at 1.
  rewrite (accept_loop_assumeYes logMatches [] (setEnv e1 i) Hyes).
  cbn [app]. now rewrite discoveredLogFiles_map.
Qed.

(** X11.  Without [AssumeYes], [installLogging] asks the prompter about
    every log match the file filterer found, in order, and executes and
    validates the recipe with [NR_DISCOVERED_LOG_FILES] set to the files of
    the matches that were answered with yes, joined by commas. *)
Theorem installLogging_prompted :
  forall (m : Manifest) (r : OpenInstallationRecipe)
         (recipes : list OpenInstallationRecipe) (i : RecipeInstaller Env)
         (e1 e2 : Env) (logMatches : list OpenInstallationLogMatch)
         (answers : list bool),
    AssumeYes i = false ->
    Filter recipes (env i) = (e1, ok logMatches) ->
    askLogFiles logMatches e1 = (e2, ok answers) ->
    installLogging m r recipes i
    = (executeAndValidateWithProgress m
         (SetRecipeVar r "NR_DISCOVERED_LOG_FILES"
            (String.concat "," (map File (acceptedBy logMatches answers)))) ;;
       ret tt) (setEnv e2 i).
Proof.
  intros m r recipes i e1 e2 logMatches answers Hno Hf Hask.
  unfold installLogging, bind at 1, call at 1. rewrite Hf.
  unfold bind at 1.
  rewrite (accept_loop_prompted logMatches [] (setEnv e1 i) Hno).
  cbn [env setEnv]. rewrite Hask. cbn [app]. now rewrite discoveredLogFiles_map.
Qed.

End InstallLoggingFacts.

(** The file filterer fails; then the second prompt fails. *)
Lemma installLogging_early_errors_witness :
  (let i := MockCases.scriptedInstaller false
              (MockCases.scripted [] (fail (errorString "filter failed"))) in
   installLogging tt Mock.logsRecipe [] i
   = (i, fail (errorString "filter failed")))
  /\ (let e := MockCases.scripted [ok true; fail (errorString "prompt failed")]
                 (ok [MockCases.dockerLog; MockCases.sysLog]) in
      let i := MockCases.scriptedInstaller false e in
      let e2 := fst (askLogFiles [MockCases.dockerLog; MockCases.sysLog] e) in
      installLogging tt Mock.logsRecipe [] i
      = (setEnv e2 i, fail (errorString "prompt failed"))
      /\ MockCases.Ran e2 = []).
Proof.
  split.
  - intros i.
    apply (proj1 (installLogging_early_errors tt Mock.logsRecipe [] i
                    (errorString "filter failed")) (env i)).
    reflexivity.
  - intros e i e2. split; [|reflexivity].
    apply (proj2 (installLogging_early_errors tt Mock.logsRecipe [] i
                    (errorString "prompt failed"))
             e e2 [MockCases.dockerLog; MockCases.sysLog]).
    + reflexivity.
    + reflexivity.
    + reflexivity.
Defined.

(** Two log files are found and [AssumeYes] is set: nobody is asked, and
    the recipe is run with both files. *)
Lemma installLogging_assume_yes_witness :
  let e := MockCases.scripted [] (ok [MockCases.dockerLog; MockCases.sysLog]) in
  let i := MockCases.scriptedInstaller true e in
  let run := installLogging tt Mock.logsRecipe [] i in
  run
  = (executeAndValidateWithProgress tt
       (SetRecipeVar Mock.logsRecipe "NR_DISCOVERED_LOG_FILES"
          (String.concat ","
             (map File [MockCases.dockerLog; MockCases.sysLog]))) ;;
     ret tt) (setEnv e i)
  /\ MockCases.Asked (env (fst run)) = []
  /\ map Vars (MockCases.Ran (env (fst run)))
     = [[("NR_DISCOVERED_LOG_FILES",
          "/var/lib/docker/containers/*/*.log,/var/log/syslog")]].
Proof.
  intros e i run. split; [|split; reflexivity].
  apply (installLogging_assume_yes tt Mock.logsRecipe [] i e
           [MockCases.dockerLog; MockCases.sysLog]).
  - reflexivity.
  - reflexivity.
Defined.

(** Two log files are found; the user accepts the first and declines the
    second. *)
Lemma installLogging_prompted_witness :
  let e := MockCases.scripted [ok true; ok false]
             (ok [MockCases.dockerLog; MockCases.sysLog]) in
  let i := MockCases.scriptedInstaller false e in
  let e2 := fst (askLogFiles [MockCases.dockerLog; MockCases.sysLog] e) in
  let run := installLogging tt Mock.logsRecipe [] i in
  run
  = (executeAndValidateWithProgress tt
       (SetRecipeVar Mock.logsRecipe "NR_DISCOVERED_LOG_FILES"
          (String.concat ","
             (map File
                (acceptedBy [MockCases.dockerLog; MockCases.sysLog]
                   [true; false])))) ;;
     ret tt) (setEnv e2 i)
  /\ List.length (MockCases.Asked (env (fst run))) = 2
  /\ map Vars (MockCases.Ran (env (fst run)))
     = [[("NR_DISCOVERED_LOG_FILES", "/var/lib/docker/containers/*/*.log")]].
Proof.
  intros e i e2 run. split; [|split; reflexivity].
  apply (installLogging_prompted tt Mock.logsRecipe [] i e e2
           [MockCases.dockerLog; MockCases.sysLog] [true; false]).
  - reflexivity.
  - reflexivity.
  - reflexivity.
Defined.

(** *** More on [guidedInstall] *)

Section InstallerContextSteps.

Context {Env : Type}.

Lemma keepsContext_refl (i : RecipeInstaller Env) : keepsContext i i.
Proof. now repeat split. Qed.

Lemma keepsContext_trans (a b c : RecipeInstaller Env) :
  keepsContext a b -> keepsContext b c -> keepsContext a c.
Proof.
  unfold keepsContext. intros (A1 & A2 & A3 & A4 & A5 & A6 & A7)
    (B1 & B2 & B3 & B4 & B5 & B6 & B7). repeat split; congruence.
Qed.

Lemma keepsContext_call (A : Type) (f : Env -> Env * result A) :
  steps keepsContext (call f : M (RecipeInstaller Env) A).
Proof.
  intros i i' r. unfold call. destruct (f (env i)). intros [= <- _].
  now repeat split.
Qed.

Lemma keepsContext_onStatus (f : InstallStatus -> InstallStatus) :
  steps keepsContext (onStatus f : M (RecipeInstaller Env) unit).
Proof. intros i i' r [= <- _]. now repeat split. Qed.

End InstallerContextSteps.

Ltac keepsContext_leaf :=
  first [ apply keepsContext_call | apply keepsContext_onStatus ].

Ltac keepsContext_steps :=
  repeat steps_rule keepsContext_refl keepsContext_trans keepsContext_leaf.

Section GuidedInstallMore.

Context {Env Manifest : Type}.
Context {recipeFetcher : RecipeFetcher Env Manifest}.
Context {recipeExecutor : RecipeExecutor Env Manifest}.
Context {recipeValidator : RecipeValidator Env Manifest}.
Context {prompter : Prompter Env}.
Context {fileFilterer : FileFilterer Env}.
Variable InfraAgentRecipeName : string.
Variable LoggingRecipeName : string.

Let Installer : Type := RecipeInstaller Env.

Variable installRecipes :
  Manifest -> list OpenInstallationRecipe -> M Installer unit.

Lemma keepsContext_fetchRecipeAndReportAvailable (m : Manifest) (name : string) :
  steps keepsContext (fetchRecipeAndReportAvailable m name).
Proof. unfold fetchRecipeAndReportAvailable. keepsContext_steps. Qed.

Lemma keepsContext_fetchRecommendations (m : Manifest) :
  steps keepsContext
    (fetchRecommendations InfraAgentRecipeName LoggingRecipeName m).
Proof. unfold fetchRecommendations. keepsContext_steps. Qed.

Lemma keepsContext_executeAndValidateWithProgress (m : Manifest)
  (r : OpenInstallationRecipe) :
  steps keepsContext (executeAndValidateWithProgress m r).
Proof. unfold executeAndValidateWithProgress. keepsContext_steps. Qed.

(** X12.  [guidedInstall] ends before any recommendation is fetched when a
    mandatory recipe cannot be fetched, with the error of the fetch, or
    when [SkipInfra] is set, with an error of its own.  The [SkipInfra]
    error is returned only after both mandatory recipes were fetched: a
    fetch failure comes first. *)
Theorem guidedInstall_early_failures :
  forall (m : Manifest) (i : Installer),
    (forall ia e,
        fetchRecipeAndReportAvailable m InfraAgentRecipeName i = (ia, fail e) ->
        guidedInstall InfraAgentRecipeName LoggingRecipeName installRecipes m i
        = (ia, fail e))
    /\ (forall ia ib infra e,
          fetchRecipeAndReportAvailable m InfraAgentRecipeName i = (ia, ok infra) ->
          fetchRecipeAndReportAvailable m LoggingRecipeName ia = (ib, fail e) ->
          guidedInstall InfraAgentRecipeName LoggingRecipeName installRecipes m i
          = (ib, fail e))
    /\ (forall ia ib infra logging,
          fetchRecipeAndReportAvailable m InfraAgentRecipeName i = (ia, ok infra) ->
          fetchRecipeAndReportAvailable m LoggingRecipeName ia = (ib, ok logging) ->
          SkipInfra i = true ->
          guidedInstall InfraAgentRecipeName LoggingRecipeName installRecipes m i
          = (ib, fail (errorString
                         "--skipInfra is only applicable to targeted installation. Run newrelic install --help for usage"))).
Proof.
  intros m i. split; [|split].
  - intros ia e H1. unfold guidedInstall, bind at 1, guidedInstallSelect,
      bind at 1. now rewrite H1.
  - intros ia ib infra e H1 H2. unfold guidedInstall, bind at 1,
      guidedInstallSelect, bind at 1. rewrite H1.
    unfold bind at 1. now rewrite H2.
  - intros ia ib infra logging H1 H2 Hskip.
    pose proof (keepsContext_fetchRecipeAndReportAvailable m
                  InfraAgentRecipeName _ _ _ H1) as (_ & _ & _ & _ & _ & Ka & _).
    pose proof (keepsContext_fetchRecipeAndReportAvailable m
                  LoggingRecipeName _ _ _ H2) as (_ & _ & _ & _ & _ & Kb & _).
    unfold guidedInstall, bind at 1, guidedInstallSelect, bind at 1.
    rewrite H1. unfold bind at 1. rewrite H2.
    unfold bind at 1, gets at 1. rewrite Kb, Ka, Hskip. reflexivity.
Qed.

(** X13.  When [installLogging] fails, [guidedInstall] returns its error,
    whatever the error is, in the state the failure left: [installRecipes]
    is not called. *)
Theorem guidedInstall_logging_failure_aborts :
  forall (m : Manifest) (i i1 i2 i3 : Installer) (l : guidedInstallLocals)
         (e : error),
    guidedInstallSelect InfraAgentRecipeName LoggingRecipeName m i = (i1, ok l) ->
    guidedInstallInfra m l i1 = (i2, ok tt) ->
    ShouldInstallLogging i2 = true ->
    installLogging m (loggingRecipe l) (recipesForInstallation l) i2
    = (i3, fail e) ->
    guidedInstall InfraAgentRecipeName LoggingRecipeName installRecipes m i
    = (i3, fail e).
Proof.
  intros m i i1 i2 i3 l e Hsel Hinfra Hshould Hlog.
  unfold guidedInstall, bind at 1. rewrite Hsel.
  unfold bind at 1. rewrite Hinfra.
  unfold bind at 1, guidedInstallLogging, bind at 1, gets at 1.
  now rewrite Hshould, Hlog.
Qed.

(** X14.  Once the mandatory part of [guidedInstall] has succeeded, the run
    returns nil or [ErrInterrupt], never another error: nil in the state
    the mandatory part left when the integrations are not to be installed,
    nil when [installRecipes] succeeds, and an error only if
    [installRecipes] returned [ErrInterrupt]. *)
Theorem guidedInstall_after_mandatory :
  forall (m : Manifest) (i i3 : Installer) (l : guidedInstallLocals),
    guidedInstallMandatory InfraAgentRecipeName LoggingRecipeName m i
    = (i3, ok l) ->
    (ShouldInstallIntegrations i3 = false ->
     guidedInstall InfraAgentRecipeName LoggingRecipeName installRecipes m i
     = (i3, ok tt))
    /\ (forall i4,
          ShouldInstallIntegrations i3 = true ->
          installRecipes m (selectedIntegrations l) i3 = (i4, ok tt) ->
          guidedInstall InfraAgentRecipeName LoggingRecipeName installRecipes m i
          = (i4, ok tt))
    /\ (forall e,
          snd (guidedInstall InfraAgentRecipeName LoggingRecipeName
                 installRecipes m i) = fail e ->
          e = ErrInterrupt
          /\ ShouldInstallIntegrations i3 = true
          /\ snd (installRecipes m (selectedIntegrations l) i3)
             = fail ErrInterrupt).
Proof.
  intros m i i3 l Hman.
  assert (Hrun : guidedInstall InfraAgentRecipeName LoggingRecipeName
                   installRecipes m i
                 = guidedInstallIntegrations installRecipes m l i3).
  { unfold guidedInstallMandatory, bind at 1 in Hman.
    unfold guidedInstall, bind at 1.
    destruct (guidedInstallSelect _ _ m i) as [i1 [l'|e1]]; [|discriminate].
    unfold bind at 1 in Hman. unfold bind at 1.
    destruct (guidedInstallInfra m l' i1) as [i2 [[]|e2]]; [|discriminate].
    unfold bind at 1 in Hman. unfold bind at 1.
    destruct (guidedInstallLogging m l' i2) as [i3' [[]|e3]]; [|discriminate].
    now injection Hman as -> ->. }
  rewrite Hrun. unfold guidedInstallIntegrations, bind at 1, gets at 1.
  split; [|split].
  - intros Hno. unfold bind at 1. unfold gets. now rewrite Hno.
  - intros i4 Hyes Hok. unfold bind at 1, gets.
    rewrite Hyes. unfold bind, attempt. now rewrite Hok.
  - intros e. unfold bind at 1, gets at 1.
    destruct (ShouldInstallIntegrations i3); [|discriminate].
    unfold bind, attempt.
    destruct (installRecipes m (selectedIntegrations l) i3) as [i4 [[]|err]];
      [discriminate|].
    destruct err; cbn; try discriminate. intros [= <-]. now repeat split.
Qed.

End GuidedInstallMore.

Section FetchRecommendationsState.

Context {Env Manifest : Type}.
Context {recipeFetcher : RecipeFetcher Env Manifest}.

(** [fetchRecommendations] leaves the install status alone, and what it
    returns went through [filterRecommendations]. *)
Lemma fetchRecommendations_state (InfraAgentRecipeName LoggingRecipeName : string)
  (m : Manifest) (i i' : RecipeInstaller Env)
  (res : result (list OpenInstallationRecipe)) :
  fetchRecommendations InfraAgentRecipeName LoggingRecipeName m i = (i', res) ->
  status i' = status i
  /\ (forall recs, res = ok recs ->
        forall r, In r recs ->
          Name r <> InfraAgentRecipeName /\ Name r <> LoggingRecipeName).
Proof.
  unfold fetchRecommendations, bind, attempt, call, throw, ret.
  destruct (FetchRecommendations m (env i)) as [e1 [recs|cause]]; cbn;
    intros [= <- <-]; split; try reflexivity; try discriminate.
  intros recs' [= <-] r Hin. apply filterRecommendations_In in Hin. tauto.
Qed.

End FetchRecommendationsState.

Section GuidedInstallFlow.

Context {Env Manifest : Type}.
Context {recipeFetcher : RecipeFetcher Env Manifest}.
Context {recipeExecutor : RecipeExecutor Env Manifest}.
Context {recipeValidator : RecipeValidator Env Manifest}.
Context {prompter : Prompter Env}.
Context {fileFilterer : FileFilterer Env}.
Variable InfraAgentRecipeName : string.
Variable LoggingRecipeName : string.

Let Installer : Type := RecipeInstaller Env.

Variable installRecipes :
  Manifest -> list OpenInstallationRecipe -> M Installer unit.

(** The loop that reports the recommended integrations with application
    targets. *)
Lemma recommend_loop (recs : list OpenInstallationRecipe) (guid : string)
  (i : Installer) :
  forRange recs tt
    (fun r _ =>
       if HasApplicationTargetType r
       then onStatus (RecipeRecommended {| Recipe := r; EntityGUID := guid |})
       else ret tt) i
  = (setStatus
       (fold_left
          (fun s r => RecipeRecommended {| Recipe := r; EntityGUID := guid |} s)
          (filter HasApplicationTargetType recs) (status i)) i,
     ok tt).
Proof.
  revert i; induction recs as [|r recs IH]; intros i.
  - cbn. unfold ret. now destruct i.
  - cbn [forRange filter]. unfold bind at 1.
    destruct (HasApplicationTargetType r).
    + unfold onStatus, modify. rewrite IH. reflexivity.
    + unfold ret at 1. apply IH.
Qed.

Lemma Notified_recommendAll (recs : list OpenInstallationRecipe) (guid : string)
  (s : InstallStatus) :
  Notified
    (fold_left
       (fun s r => RecipeRecommended {| Recipe := r; EntityGUID := guid |} s)
       recs s)
  = Notified s
      ++ map (fun r => (RECOMMENDED, {| Recipe := r; EntityGUID := guid |})) recs
  /\ EntityGUIDs
       (fold_left
          (fun s r => RecipeRecommended {| Recipe := r; EntityGUID := guid |} s)
          recs s)
     = EntityGUIDs s.
Proof.
  revert s; induction recs as [|r recs IH]; intros s; cbn.
  - now rewrite app_nil_r.
  - destruct (IH (RecipeRecommended {| Recipe := r; EntityGUID := guid |} s))
      as [Hn Hg]. rewrite Hn, Hg. cbn. now rewrite <- app_assoc.
Qed.

(** X15.  When the infra agent recipe was installed, [guidedInstall]
    reports as RECOMMENDED every recommended integration with an
    application target, a candidate for installation or not, once per
    occurrence and in order, each with the entity GUID of the infra agent;
    nothing else happens in that step.  When the installation of the infra
    agent fails, nothing is reported as RECOMMENDED. *)
Theorem guidedInstallInfra_recommends :
  forall (m : Manifest) (l : guidedInstallLocals) (i1 i2 : Installer),
    (forall guid,
        executeAndValidateWithProgress m (infraAgentRecipe l) i1 = (i2, ok guid) ->
        exists i3,
          guidedInstallInfra m l i1 = (i3, ok tt)
          /\ Notified (status i3)
             = Notified (status i2)
                 ++ map (fun r => (RECOMMENDED,
                                   {| Recipe := r; EntityGUID := guid |}))
                      (filter HasApplicationTargetType (recommendedIntegrations l))
          /\ EntityGUIDs (status i3) = EntityGUIDs (status i2)
          /\ env i3 = env i2
          /\ keepsContext i2 i3)
    /\ (forall e,
          executeAndValidateWithProgress m (infraAgentRecipe l) i1 = (i2, fail e) ->
          guidedInstallInfra m l i1 = (i2, fail e)).
Proof.
  intros m l i1 i2. split.
  - intros guid Hexec. unfold guidedInstallInfra, bind. rewrite Hexec.
    rewrite recommend_loop. eexists. split; [reflexivity|].
    destruct (Notified_recommendAll
                (filter HasApplicationTargetType (recommendedIntegrations l))
                guid (status i2)) as [Hn Hg].
    cbn. repeat split; assumption.
  - intros e Hexec. unfold guidedInstallInfra, bind. now rewrite Hexec.
Qed.

(** What a successful selection has gone through. *)
Lemma guidedInstallSelect_recommended (m : Manifest) (i i1 : Installer)
  (l : guidedInstallLocals) :
  guidedInstallSelect InfraAgentRecipeName LoggingRecipeName m i = (i1, ok l) ->
  exists (iF i' : Installer) (sel fetched : list OpenInstallationRecipe),
    SkipInfra i = false
    /\ recommendedIntegrations l
       = (if SkipLoggingInstall i then [] else [loggingRecipe l]) ++ fetched
    /\ (SkipDiscovery i = true -> fetched = [])
    /\ (forall r, In r fetched ->
          Name r <> InfraAgentRecipeName /\ Name r <> LoggingRecipeName)
    /\ (SkipLoggingInstall i = true ->
        In (skipEvent (loggingRecipe l)) (Notified (status iF)))
    /\ keepsContext i iF
    /\ filterIntegrations LoggingRecipeName (recommendedIntegrations l) iF
       = (i', ok sel)
    /\ i1 = setStatus
              (RecipesSelected (([] ++ [infraAgentRecipe l]) ++ sel)
                 (RecipesAvailable sel (status i'))) i'
    /\ selectedIntegrations l = removeRecipes sel [loggingRecipe l]
    /\ recipesForInstallation l = ([] ++ [infraAgentRecipe l]) ++ sel.
Proof.
  unfold guidedInstallSelect.
  unfold bind at 1.
  destruct (fetchRecipeAndReportAvailable m InfraAgentRecipeName i)
    as [ia [infra|e]] eqn:Ha; [|discriminate].
  apply keepsContext_fetchRecipeAndReportAvailable in Ha.
  unfold bind at 1.
  destruct (fetchRecipeAndReportAvailable m LoggingRecipeName ia)
    as [ib [logging|e]] eqn:Hb; [|discriminate].
  apply keepsContext_fetchRecipeAndReportAvailable in Hb.
  pose proof (keepsContext_trans _ _ _ Ha Hb) as Kb. clear Ha Hb.
  unfold bind at 1, gets at 1.
  destruct (SkipInfra ib) eqn:Einfra; [discriminate|].
  unfold bind at 1, gets at 1.
  unfold bind at 1.
  destruct (SkipLoggingInstall ib) eqn:Elog.
  - (* the logging recipe was skipped beforehand *)
    unfold bind at 1, onStatus at 1, modify at 1, ret at 1.
    set (ik := setStatus (RecipeSkipped (recipeEvent logging) (status ib)) ib).
    assert (Ks : keepsContext i ik).
    { apply (keepsContext_trans _ _ _ Kb). now repeat split. }
    assert (Hs : In (skipEvent logging) (Notified (status ik))).
    { cbn. apply in_or_app. right. now left. }
    assert (Ei : SkipInfra i = false /\ SkipLoggingInstall i = true).
    { destruct Kb as (_ & _ & _ & K4 & _ & K6 & _). split; congruence. }
    destruct Ei as [Ei El].
    unfold bind at 1, gets at 1. unfold bind at 1.
    destruct (SkipDiscovery ik) eqn:Edisc; cbn [negb].
    + unfold ret at 1. unfold bind at 1.
      destruct (filterIntegrations LoggingRecipeName [] ik)
        as [i' [sel|e]] eqn:Hf; [|discriminate].
      unfold bind, onStatus, modify, ret. intros [= <- <-].
      exists ik, i', sel, [].
      cbn [recommendedIntegrations loggingRecipe infraAgentRecipe
             selectedIntegrations recipesForInstallation].
      rewrite El.
      split; [exact Ei|]. split; [reflexivity|]. split; [reflexivity|].
      split; [intros r []|]. split; [intros _; exact Hs|].
      split; [exact Ks|]. split; [exact Hf|]. now repeat split.
    + unfold bind at 1.
      destruct (fetchRecommendations InfraAgentRecipeName LoggingRecipeName m ik)
        as [ic [recommended|e]] eqn:Hrec; [|discriminate].
      unfold ret at 1. unfold bind at 1.
      destruct (filterIntegrations LoggingRecipeName ([] ++ recommended) ic)
        as [i' [sel|e]] eqn:Hf; [|discriminate].
      unfold bind, onStatus, modify, ret. intros [= <- <-].
      pose proof (fetchRecommendations_state _ _ _ _ _ _ Hrec) as (Hst & Hin).
      apply keepsContext_fetchRecommendations in Hrec.
      exists ic, i', sel, recommended.
      cbn [recommendedIntegrations loggingRecipe infraAgentRecipe
             selectedIntegrations recipesForInstallation].
      rewrite El.
      split; [exact Ei|]. split; [reflexivity|].
      split; [intros Hd; destruct Ks as (_ & K2 & _); congruence|].
      split; [exact (Hin _ eq_refl)|].
      split; [intros _; rewrite Hst; exact Hs|].
      split; [exact (keepsContext_trans _ _ _ Ks Hrec)|].
      split; [exact Hf|]. now repeat split.
  - unfold ret at 1.
    assert (Ei : SkipInfra i = false /\ SkipLoggingInstall i = false).
    { destruct Kb as (_ & _ & _ & K4 & _ & K6 & _). split; congruence. }
    destruct Ei as [Ei El].
    unfold bind at 1, gets at 1. unfold bind at 1.
    destruct (SkipDiscovery ib) eqn:Edisc; cbn [negb].
    + unfold ret at 1. unfold bind at 1.
      destruct (filterIntegrations LoggingRecipeName ([] ++ [logging]) ib)
        as [i' [sel|e]] eqn:Hf; [|discriminate].
      unfold bind, onStatus, modify, ret. intros [= <- <-].
      exists ib, i', sel, [].
      cbn [recommendedIntegrations loggingRecipe infraAgentRecipe
             selectedIntegrations recipesForInstallation].
      rewrite El.
      split; [exact Ei|]. split; [reflexivity|]. split; [reflexivity|].
      split; [intros r []|]. split; [discriminate|].
      split; [exact Kb|]. split; [exact Hf|]. now repeat split.
    + unfold bind at 1.
      destruct (fetchRecommendations InfraAgentRecipeName LoggingRecipeName m ib)
        as [ic [recommended|e]] eqn:Hrec; [|discriminate].
      unfold ret at 1. unfold bind at 1.
      destruct (filterIntegrations LoggingRecipeName
                  (([] ++ [logging]) ++ recommended) ic)
        as [i' [sel|e]] eqn:Hf; [|discriminate].
      unfold bind, onStatus, modify, ret. intros [= <- <-].
      pose proof (fetchRecommendations_state _ _ _ _ _ _ Hrec) as (Hst & Hin).
      apply keepsContext_fetchRecommendations in Hrec.
      exists ic, i', sel, recommended.
      cbn [recommendedIntegrations loggingRecipe infraAgentRecipe
             selectedIntegrations recipesForInstallation].
      rewrite El.
      split; [exact Ei|]. split; [reflexivity|].
      split; [intros Hd; destruct Kb as (_ & K2 & _); congruence|].
      split; [exact (Hin _ eq_refl)|].
      split; [discriminate|].
      split; [exact (keepsContext_trans _ _ _ Kb Hrec)|].
      split; [exact Hf|]. now repeat split.
Qed.

End GuidedInstallFlow.

Section GuidedInstallSelection.

Context {Env Manifest : Type}.
Context {recipeFetcher : RecipeFetcher Env Manifest}.
Context {recipeExecutor : RecipeExecutor Env Manifest}.
Context {recipeValidator : RecipeValidator Env Manifest}.
Context {prompter : Prompter Env}.
Context {fileFilterer : FileFilterer Env}.
Variable InfraAgentRecipeName : string.
Variable LoggingRecipeName : string.

Let Installer : Type := RecipeInstaller Env.

Variable installRecipes :
  Manifest -> list OpenInstallationRecipe -> M Installer unit.

Lemma filterIntegrations_selected_In (recs : list OpenInstallationRecipe)
  (i i' : Installer) (sel : list OpenInstallationRecipe) :
  filterIntegrations LoggingRecipeName recs i = (i', ok sel) ->
  forall r, In r sel -> In r recs.
Proof.
  rewrite filterIntegrations_run.
  destruct (selectNames recs i) as [i2 [names|err]]; [|discriminate].
  intros [= _ <-] r Hr. now apply selectedBy_In in Hr.
Qed.

Lemma filterIntegrations_keeps_raised (recs : list OpenInstallationRecipe)
  (i i' : Installer) (res : result (list OpenInstallationRecipe)) :
  filterIntegrations LoggingRecipeName recs i = (i', res) ->
  SkipLoggingInstall i = true -> SkipLoggingInstall i' = true.
Proof.
  rewrite filterIntegrations_run. intros Hrun Hflag.
  destruct (selectNames_state recs i) as (_ & Hl & _).
  destruct (selectNames recs i) as [i2 [names|err]]; cbn [fst] in Hl;
    injection Hrun as <- _.
  - unfold markUnselected. cbn. now rewrite Hl, Hflag.
  - congruence.
Qed.

(** With the skip-logging flag set at the end of the selection, the run
    goes from the infra agent to the integrations. *)
Lemma guidedInstall_without_logging (m : Manifest) (i i1 : Installer)
  (l : guidedInstallLocals) :
  guidedInstallSelect InfraAgentRecipeName LoggingRecipeName m i = (i1, ok l) ->
  SkipLoggingInstall i1 = true ->
  guidedInstall InfraAgentRecipeName LoggingRecipeName installRecipes m i
  = (guidedInstallInfra m l ;; guidedInstallIntegrations installRecipes m l) i1.
Proof.
  intros Hsel Hflag. unfold guidedInstall, bind at 1. rewrite Hsel.
  unfold bind at 1. unfold bind at 2.
  destruct (guidedInstallInfra m l i1) as [i2 [[]|e]] eqn:Hinfra;
    [|reflexivity].
  pose proof (keepsSkipLogging_guidedInstallInfra m l) as Hkeep.
  apply Hkeep in Hinfra. unfold keepsSkipLogging in Hinfra.
  unfold bind at 1, guidedInstallLogging, bind at 1, gets at 1.
  unfold ShouldInstallLogging. rewrite Hinfra, Hflag. reflexivity.
Qed.

(** X16.  The integrations [guidedInstall] hands to [installRecipes] are
    recommended integrations that carry neither the name of the fetched
    logging recipe nor the names reserved for the infra agent and the
    logging recipe: the mandatory recipes are not installed a second time.
    They are what is left of the selection shown to the user, which starts
    with the infra agent recipe, once the logging recipe is removed. *)
Theorem guidedInstall_integrations_exclude_mandatory :
  forall (m : Manifest) (i i1 : Installer) (l : guidedInstallLocals),
    guidedInstallSelect InfraAgentRecipeName LoggingRecipeName m i = (i1, ok l) ->
    (forall r,
        In r (selectedIntegrations l) ->
        In r (recommendedIntegrations l)
        /\ Name r <> Name (loggingRecipe l)
        /\ Name r <> InfraAgentRecipeName
        /\ Name r <> LoggingRecipeName)
    /\ exists sel,
         recipesForInstallation l = infraAgentRecipe l :: sel
         /\ selectedIntegrations l
            = filter (fun r => negb (String.eqb (Name r) (Name (loggingRecipe l))))
                sel.
Proof.
  intros m i i1 l Hsel.
  apply guidedInstallSelect_recommended in Hsel.
  destruct Hsel as (iF & i' & sel & fetched & _ & Hrec & _ & Hfetched & _ & _
                    & Hf & _ & Hselected & Hfor).
  split.
  - intros r Hr. rewrite Hselected in Hr. apply removeRecipes_In in Hr.
    destruct Hr as [Hr (t & [<-|[]] & Hne)].
    pose proof (filterIntegrations_selected_In _ _ _ _ Hf r Hr) as Hin.
    split; [exact Hin|]. split; [exact Hne|].
    rewrite Hrec in Hin. apply in_app_or in Hin as [Hin|Hin].
    + destruct (SkipLoggingInstall i); [destruct Hin|].
      destruct Hin as [<-|[]]. contradiction.
    + now apply Hfetched.
  - exists sel. split; [exact Hfor|]. rewrite Hselected. apply removeRecipes_single.
Qed.


(** X18.  When the skip-logging flag is set beforehand, the fetched logging
    recipe is marked SKIPPED, it is not among the recommended integrations,
    and the run goes from the infra agent to the integrations: the logging
    phase is not executed. *)
Theorem guidedInstall_skip_logging_beforehand :
  forall (m : Manifest) (i i1 : Installer) (l : guidedInstallLocals),
    guidedInstallSelect InfraAgentRecipeName LoggingRecipeName m i = (i1, ok l) ->
    SkipLoggingInstall i = true ->
    In (skipEvent (loggingRecipe l)) (Notified (status i1))
    /\ (forall r, In r (recommendedIntegrations l) ->
          Name r <> InfraAgentRecipeName /\ Name r <> LoggingRecipeName)
    /\ guidedInstall InfraAgentRecipeName LoggingRecipeName installRecipes m i
       = (guidedInstallInfra m l ;;
          guidedInstallIntegrations installRecipes m l) i1.
Proof.
  intros m i i1 l Hsel Hflag. pose proof Hsel as Hinv.
  apply guidedInstallSelect_recommended in Hinv.
  destruct Hinv as (iF & i' & sel & fetched & _ & Hrec & _ & Hfetched
                    & Hskipped & K & Hf & Hi1 & _ & _).
  split; [|split].
  - destruct (filterIntegrations_notified _ _ _ Hf) as (uns & Hn & _).
    rewrite Hi1. cbn [status setStatus]. unfold RecipesSelected, RecipesAvailable.
    rewrite !Notified_notifyAll, Hn.
    apply in_or_app. left. apply in_or_app. left. apply in_or_app. left.
    now apply Hskipped.
  - intros r Hr. rewrite Hrec, Hflag in Hr. now apply Hfetched.
  - apply guidedInstall_without_logging; [exact Hsel|].
    rewrite Hi1. cbn.
    apply (filterIntegrations_keeps_raised _ _ _ _ Hf).
    destruct K as (_ & _ & _ & K4 & _). congruence.
Qed.

End GuidedInstallSelection.

(** *** The results on [guidedInstall], on the fixtures *)

(** No recipe can be fetched; only the infra agent recipe can be fetched;
    [SkipInfra] is set. *)
Lemma guidedInstall_early_failures_witness :
  (let i := Mock.withEnv MockCases.noRecipesEnv in
   guidedInstall Mock.InfraAgentRecipeName Mock.LoggingRecipeName
     Mock.installRecipesFailFast tt i
   = (i, fail (errorString "recipe not found")))
  /\ (let i := Mock.withEnv MockCases.infraOnlyEnv in
      let ia := fst (fetchRecipeAndReportAvailable tt Mock.InfraAgentRecipeName i) in
      guidedInstall Mock.InfraAgentRecipeName Mock.LoggingRecipeName
        Mock.installRecipesFailFast tt i
      = (ia, fail (errorString "recipe not found")))
  /\ (let i := MockCases.installerOf true false false false false true
                 Mock.guidedEnv in
      let ia := fst (fetchRecipeAndReportAvailable tt Mock.InfraAgentRecipeName i) in
      let ib := fst (fetchRecipeAndReportAvailable tt Mock.LoggingRecipeName ia) in
      guidedInstall Mock.InfraAgentRecipeName Mock.LoggingRecipeName
        Mock.installRecipesFailFast tt i
      = (ib, fail (errorString
                     "--skipInfra is only applicable to targeted installation. Run newrelic install --help for usage"))
      /\ Mock.Executed (env ib) = []).
Proof.
  split; [|split].
  - intros i.
    apply (proj1 (guidedInstall_early_failures Mock.InfraAgentRecipeName
                    Mock.LoggingRecipeName Mock.installRecipesFailFast tt i)).
    reflexivity.
  - intros i ia.
    apply (proj1 (proj2 (guidedInstall_early_failures Mock.InfraAgentRecipeName
                           Mock.LoggingRecipeName Mock.installRecipesFailFast tt i))
             ia ia Mock.infraRecipe).
    + reflexivity.
    + reflexivity.
  - intros i ia ib. split; [|reflexivity].
    apply (proj2 (proj2 (guidedInstall_early_failures Mock.InfraAgentRecipeName
                           Mock.LoggingRecipeName Mock.installRecipesFailFast tt i))
             ia ib Mock.infraRecipe Mock.logsRecipe).
    + reflexivity.
    + reflexivity.
    + reflexivity.
Defined.

(** The executor fails on the logging recipe: the recommended recipe is
    never executed. *)
Lemma guidedInstall_logging_failure_aborts_witness :
  let i := Mock.withEnv MockCases.loggingFailsEnv in
  let sel := guidedInstallSelect Mock.InfraAgentRecipeName
               Mock.LoggingRecipeName tt i in
  let l := Mock.okOr Mock.noLocals (snd sel) in
  let i2 := fst (guidedInstallInfra tt l (fst sel)) in
  let i3 := fst (installLogging tt (loggingRecipe l) (recipesForInstallation l) i2) in
  guidedInstall Mock.InfraAgentRecipeName Mock.LoggingRecipeName
    Mock.installRecipesFailFast tt i
  = (i3, fail (errorString "execution failed"))
  /\ Mock.Executed (env i3)
     = ["infrastructure-agent-installer"; "logs-integration"].
Proof.
  intros i sel l i2 i3. split; [|vm_compute; reflexivity].
  apply (guidedInstall_logging_failure_aborts Mock.InfraAgentRecipeName
           Mock.LoggingRecipeName Mock.installRecipesFailFast tt i (fst sel) i2 i3 l).
  - vm_compute. reflexivity.
  - vm_compute. reflexivity.
  - vm_compute. reflexivity.
  - vm_compute. reflexivity.
Defined.

(** The integrations are skipped; the integrations succeed; the
    installation of the recommended recipe is interrupted. *)
Lemma guidedInstall_after_mandatory_witness :
  (let i := Mock.installerWith true true false Mock.guidedEnv in
   let man := guidedInstallMandatory Mock.InfraAgentRecipeName
                Mock.LoggingRecipeName tt i in
   guidedInstall Mock.InfraAgentRecipeName Mock.LoggingRecipeName
     Mock.installRecipesFailFast tt i
   = (fst man, ok tt))
  /\ (let i := Mock.withEnv Mock.guidedEnv in
      let man := guidedInstallMandatory Mock.InfraAgentRecipeName
                   Mock.LoggingRecipeName tt i in
      let l := Mock.okOr Mock.noLocals (snd man) in
      let i4 := fst (Mock.installRecipesFailFast tt (selectedIntegrations l)
                       (fst man)) in
      guidedInstall Mock.InfraAgentRecipeName Mock.LoggingRecipeName
        Mock.installRecipesFailFast tt i
      = (i4, ok tt))
  /\ (let i := Mock.withEnv Mock.recommendedInterruptedEnv in
      let man := guidedInstallMandatory Mock.InfraAgentRecipeName
                   Mock.LoggingRecipeName tt i in
      let l := Mock.okOr Mock.noLocals (snd man) in
      snd (Mock.installRecipesFailFast tt (selectedIntegrations l) (fst man))
      = fail ErrInterrupt).
Proof.
  split; [|split].
  - intros i man.
    refine (proj1 (guidedInstall_after_mandatory Mock.InfraAgentRecipeName
                     Mock.LoggingRecipeName Mock.installRecipesFailFast tt i
                     (fst man) (Mock.okOr Mock.noLocals (snd man)) _) _).
    + vm_compute. reflexivity.
    + vm_compute. reflexivity.
  - intros i man l i4.
    refine (proj1 (proj2 (guidedInstall_after_mandatory Mock.InfraAgentRecipeName
                            Mock.LoggingRecipeName Mock.installRecipesFailFast tt i
                            (fst man) l _)) i4 _ _).
    + vm_compute. reflexivity.
    + vm_compute. reflexivity.
    + vm_compute. reflexivity.
  - intros i man l.
    refine (proj2 (proj2 (proj2 (proj2 (guidedInstall_after_mandatory
                            Mock.InfraAgentRecipeName
                            Mock.LoggingRecipeName Mock.installRecipesFailFast tt i
                            (fst man) l _)) ErrInterrupt _))).
    + vm_compute. reflexivity.
    + vm_compute. reflexivity.
Defined.

(** The recipe service recommends an application recipe: it is reported
    RECOMMENDED with the GUID of the infra agent.  When the executor fails
    on the infra agent recipe, the step ends with its error. *)
Lemma guidedInstallInfra_recommends_witness :
  (let i := Mock.withEnv MockCases.redundantRecommendationsEnv in
   let sel := guidedInstallSelect Mock.InfraAgentRecipeName
                Mock.LoggingRecipeName tt i in
   let l := Mock.okOr Mock.noLocals (snd sel) in
   let i2 := fst (executeAndValidateWithProgress tt (infraAgentRecipe l) (fst sel)) in
   exists i3,
     guidedInstallInfra tt l (fst sel) = (i3, ok tt)
     /\ Notified (status i3)
        = Notified (status i2)
            ++ [(RECOMMENDED,
                 {| Recipe := Mock.applicationRecipe;
                    EntityGUID := "guid-infrastructure-agent-installer" |})])
  /\ (let i := Mock.withEnv Mock.infraFailsEnv in
      let sel := guidedInstallSelect Mock.InfraAgentRecipeName
                   Mock.LoggingRecipeName tt i in
      let l := Mock.okOr Mock.noLocals (snd sel) in
      let i2 := fst (executeAndValidateWithProgress tt (infraAgentRecipe l)
                       (fst sel)) in
      guidedInstallInfra tt l (fst sel)
      = (i2, fail (errorString "execution failed"))).
Proof.
  split.
  - intros i sel l i2.
    destruct (proj1 (guidedInstallInfra_recommends tt l (fst sel) i2)
                "guid-infrastructure-agent-installer")
      as (i3 & Hrun & Hn & _).
    + vm_compute. reflexivity.
    + exists i3. split; [exact Hrun | exact Hn].
  - intros i sel l i2.
    apply (proj2 (guidedInstallInfra_recommends tt l (fst sel) i2)).
    vm_compute. reflexivity.
Defined.

(** The recipe service recommends the mandatory recipes as well: neither
    is handed to [installRecipes]. *)
Lemma guidedInstall_integrations_exclude_mandatory_witness :
  let i := Mock.withEnv MockCases.redundantRecommendationsEnv in
  let sel := guidedInstallSelect Mock.InfraAgentRecipeName
               Mock.LoggingRecipeName tt i in
  let l := Mock.okOr Mock.noLocals (snd sel) in
  selectedIntegrations l = [Mock.recommendedRecipe]
  /\ forall r,
       In r (selectedIntegrations l) ->
       In r (recommendedIntegrations l)
       /\ Name r <> Name (loggingRecipe l)
       /\ Name r <> Mock.InfraAgentRecipeName
       /\ Name r <> Mock.LoggingRecipeName.
Proof.
  intros i sel l. split; [vm_compute; reflexivity|].
  apply (guidedInstall_integrations_exclude_mandatory Mock.InfraAgentRecipeName
           Mock.LoggingRecipeName tt i (fst sel) l).
  vm_compute. reflexivity.
Defined.


(** The skip-logging flag is set beforehand: the logging recipe is marked
    SKIPPED and never executed. *)
Lemma guidedInstall_skip_logging_beforehand_witness :
  let i := MockCases.installerOf true false false true false false
             Mock.guidedEnv in
  let sel := guidedInstallSelect Mock.InfraAgentRecipeName
               Mock.LoggingRecipeName tt i in
  let l := Mock.okOr Mock.noLocals (snd sel) in
  let run := guidedInstall Mock.InfraAgentRecipeName Mock.LoggingRecipeName
               Mock.installRecipesFailFast tt i in
  In (skipEvent (loggingRecipe l)) (Notified (status (fst sel)))
  /\ run = (guidedInstallInfra tt l ;;
            guidedInstallIntegrations Mock.installRecipesFailFast tt l) (fst sel)
  /\ Mock.Executed (env (fst run))
     = ["infrastructure-agent-installer"; "recommended-recipe"].
Proof.
  intros i sel l run.
  destruct (guidedInstall_skip_logging_beforehand Mock.InfraAgentRecipeName
              Mock.LoggingRecipeName Mock.installRecipesFailFast tt i (fst sel) l)
    as (Hskipped & _ & Hrun).
  - vm_compute. reflexivity.
  - reflexivity.
  - split; [exact Hskipped|]. split; [exact Hrun | vm_compute; reflexivity].
Defined.

(** *** The scenarios *)

Lemma setIndex_middle (done tail : list string) (x y : string) :
  Scenarios.setIndex (done ++ x :: tail) (List.length done) y
  = done ++ y :: tail.
Proof.
  induction done as [|d done IH]; cbn; [reflexivity|]. now rewrite IH.
Qed.

Lemma TestScenarioValues_loop (rest done : list string) :
  fold_left
    (fun (iv : nat * list string) (s : Scenarios.TestScenario) =>
       let (i, v) := iv in (S i, Scenarios.setIndex v i s))
    rest (List.length done, done ++ repeat "" (List.length rest))
  = (List.length done + List.length rest, done ++ rest).
Proof.
  revert done; induction rest as [|s rest IH]; intros done.
  - cbn. now rewrite Nat.add_0_r.
  - cbn [fold_left List.length repeat]. rewrite setIndex_middle.
    replace (S (List.length done)) with (List.length (done ++ [s]))
      by (rewrite length_app; cbn; lia).
    replace (done ++ s :: repeat "" (List.length rest))
      with ((done ++ [s]) ++ repeat "" (List.length rest))
      by (now rewrite <- app_assoc).
    rewrite IH, length_app, <- app_assoc. cbn. f_equal. lia.
Qed.

(** X19.  [TestScenarioValues] lists the scenarios as strings, one per
    scenario and in their order; [BuildScenario] hands a scenario to a
    builder exactly when it is one of [TestScenarios], returns nil for
    every other string, and hands different scenarios to different
    builders.  So every value of [TestScenarioValues] can be built. *)
Theorem BuildScenario_covers_TestScenarios :
  (forall scenarios : list Scenarios.TestScenario,
      Scenarios.TestScenarioValuesOf scenarios = scenarios)
  /\ (forall s, Scenarios.BuildScenario s <> None <-> In s Scenarios.TestScenarios)
  /\ (forall v, In v Scenarios.TestScenarioValues ->
        Scenarios.BuildScenario v <> None)
  /\ (forall s1 s2 b,
        Scenarios.BuildScenario s1 = Some b ->
        Scenarios.BuildScenario s2 = Some b -> s1 = s2).
Proof.
  assert (Hvalues : forall scenarios : list Scenarios.TestScenario,
             Scenarios.TestScenarioValuesOf scenarios = scenarios).
  { intros scenarios. unfold Scenarios.TestScenarioValuesOf.
    etransitivity;
      [apply (f_equal snd); exact (TestScenarioValues_loop scenarios [])
      | reflexivity]. }
  assert (Hbuild : forall s,
             Scenarios.BuildScenario s <> None <-> In s Scenarios.TestScenarios).
  { intros s. unfold Scenarios.BuildScenario, Scenarios.TestScenarios. split.
    - intros H.
      destruct (String.eqb_spec s Scenarios.Basic); [now left|].
      destruct (String.eqb_spec s Scenarios.LogMatches); [right; now left|].
      destruct (String.eqb_spec s Scenarios.Fail); [do 2 right; now left|].
      destruct (String.eqb_spec s Scenarios.StitchedPath);
        [do 3 right; now left|].
      destruct (String.eqb_spec s Scenarios.Canceled); [do 4 right; now left|].
      destruct (String.eqb_spec s Scenarios.DisplayExplorerLink);
        [do 5 right; now left|].
      contradiction.
    - intros [<-|[<-|[<-|[<-|[<-|[<-|[]]]]]]]; discriminate. }
  split; [exact Hvalues|]. split; [exact Hbuild|]. split.
  - intros v Hv. apply Hbuild. unfold Scenarios.TestScenarioValues in Hv.
    now rewrite Hvalues in Hv.
  - intros s1 s2 b. unfold Scenarios.BuildScenario.
    destruct (String.eqb_spec s1 Scenarios.Basic);
      [|destruct (String.eqb_spec s1 Scenarios.LogMatches);
        [|destruct (String.eqb_spec s1 Scenarios.Fail);
          [|destruct (String.eqb_spec s1 Scenarios.StitchedPath);
            [|destruct (String.eqb_spec s1 Scenarios.Canceled);
              [|destruct (String.eqb_spec s1 Scenarios.DisplayExplorerLink);
                [|discriminate]]]]]];
      intros [= <-];
      (destruct (String.eqb_spec s2 Scenarios.Basic);
       [|destruct (String.eqb_spec s2 Scenarios.LogMatches);
         [|destruct (String.eqb_spec s2 Scenarios.Fail);
           [|destruct (String.eqb_spec s2 Scenarios.StitchedPath);
             [|destruct (String.eqb_spec s2 Scenarios.Canceled);
               [|destruct (String.eqb_spec s2 Scenarios.DisplayExplorerLink);
                 [|discriminate]]]]]]);
      intros [= ]; congruence.
Qed.

(** The value of the cancelled scenario is one of [TestScenarioValues] and
    is handed to a builder. *)
Lemma BuildScenario_covers_TestScenarios_witness :
  Scenarios.BuildScenario "CANCELED" <> None.
Proof.
  apply (proj1 (proj2 (proj2 BuildScenario_covers_TestScenarios)) "CANCELED").
  vm_compute. do 4 right. now left.
Defined.
